(** * Content-distribution bot: pairing engine, membership gate, quota ledger

    A shallow embedding of the bot's handlers ([handlers/video.py],
    [handlers/start.py], [handlers/user.py], [bot.py]) and of its storage
    layer ([utils/database.py], [utils/helpers.py]), followed by the
    properties proved about them.

    Modelling conventions.
    - A Python [str] is a [string]; a character is one [ascii].  A value
      that may be [None] is an [option]; Python truthiness is written out
      ([truthy_str], [truthy_int], non-empty list).
    - Python integers and the INTEGER / BIGINT columns are [Z]; a calendar
      date is the number of its day, a [Z].
    - The module-level dicts [media_groups] and [pending_posts], the
      per-user [context.user_data] and the four database tables are fields
      of one [World]; a handler is a state transformer on it that either
      finishes or raises.  Every SQL statement is one atomic step
      (the connection is in autocommit mode).
    - What the outside decides (the clock, [secrets], the answers of the
      Bot API) is read from an [Env]; every outbound Bot API call is
      appended to the world's [sent] log together with its outcome.
    - Loss of the database connection is not modelled; a statement fails
      only by a primary-key violation. *)

From Stdlib Require Import ZArith String Ascii List Bool Lia.
From stdpp Require Import gmap strings list fin_maps pretty.

Open Scope Z_scope.

(** ** Python values *)

Definition truthy_str (s : string) : bool := negb (String.eqb s EmptyString).

Definition truthy_ostr (o : option string) : bool :=
  match o with Some s => truthy_str s | None => false end.

Definition truthy_int (z : Z) : bool := negb (z =? 0).

Definition truthy_oint (o : option Z) : bool :=
  match o with Some z => truthy_int z | None => false end.

(** [a or b] on optional strings. *)
Definition py_or (a b : option string) : option string :=
  if truthy_ostr a then a else b.

(** [str.startswith]. *)
Definition startswith (s p : string) : bool := String.prefix p s.

(** [s.split('\n')[0]]: everything before the first line feed. *)
Fixpoint first_line (s : string) : string :=
  match s with
  | EmptyString => EmptyString
  | String c r => if Ascii.eqb c "010" then EmptyString else String c (first_line r)
  end.

(** A Python [str] is held as the UTF-8 text the Bot API carries.  A
    character is a byte that is no continuation byte ([10xxxxxx])
    together with the continuation bytes that follow it. *)
Definition is_continuation (c : ascii) : bool :=
  let n := nat_of_ascii c in ((128 <=? n) && (n <? 192))%nat.

(** [len(s)]: the number of characters. *)
Fixpoint str_len (s : string) : nat :=
  match s with
  | EmptyString => 0
  | String c r => if is_continuation c then str_len r else S (str_len r)
  end.

(** [s[:n]]: the first [n] characters. *)
Fixpoint str_take (n : nat) (s : string) : string :=
  match s with
  | EmptyString => EmptyString
  | String c r =>
      if is_continuation c then String c (str_take n r)
      else
        match n with
        | S n' => String c (str_take n' r)
        | O => EmptyString
        end
  end.

Fixpoint str_filter (keep : ascii -> bool) (s : string) : string :=
  match s with
  | EmptyString => EmptyString
  | String c r => if keep c then String c (str_filter keep r) else str_filter keep r
  end.

(** [str.isspace] by the length of the character's encoding: U+0009 to
    U+000D and U+001C to U+0020 in one byte; *)
Definition isspace1 (c : ascii) : bool :=
  let n := nat_of_ascii c in
  ((9 <=? n) && (n <=? 13) || (28 <=? n) && (n <=? 32))%nat.

(** U+0085 and U+00A0 in two; *)
Definition isspace2 (c1 c2 : ascii) : bool :=
  let n1 := nat_of_ascii c1 in
  let n2 := nat_of_ascii c2 in
  ((n1 =? 194) && ((n2 =? 133) || (n2 =? 160)))%nat.

(** U+1680, U+2000 to U+200A, U+2028, U+2029, U+202F, U+205F and U+3000
    in three. *)
Definition isspace3 (c1 c2 c3 : ascii) : bool :=
  let n1 := nat_of_ascii c1 in
  let n2 := nat_of_ascii c2 in
  let n3 := nat_of_ascii c3 in
  ((n1 =? 225) && (n2 =? 154) && (n3 =? 128)
   || (n1 =? 226) && (n2 =? 128)
      && ((128 <=? n3) && (n3 <=? 138)
          || (n3 =? 168) || (n3 =? 169) || (n3 =? 175))
   || (n1 =? 226) && (n2 =? 129) && (n3 =? 159)
   || (n1 =? 227) && (n2 =? 128) && (n3 =? 128))%nat.

(** The text without the leading characters that [sp1], [sp2] and [sp3]
    recognise in one, two and three bytes. *)
Fixpoint drop_leading (sp1 : ascii -> bool) (sp2 : ascii -> ascii -> bool)
    (sp3 : ascii -> ascii -> ascii -> bool) (s : string) : string :=
  match s with
  | EmptyString => EmptyString
  | String c1 r1 =>
      if sp1 c1 then drop_leading sp1 sp2 sp3 r1
      else
        match r1 with
        | EmptyString => s
        | String c2 r2 =>
            if sp2 c1 c2 then drop_leading sp1 sp2 sp3 r2
            else
              match r2 with
              | EmptyString => s
              | String c3 r3 =>
                  if sp3 c1 c2 c3 then drop_leading sp1 sp2 sp3 r3 else s
              end
        end
  end.

(** [str.lstrip()]. *)
Definition lstrip (s : string) : string :=
  drop_leading isspace1 isspace2 isspace3 s.

Definition str_rev (s : string) : string :=
  string_of_list_ascii (rev (list_ascii_of_string s)).

(** [str.rstrip()]: the same on the text read from its end, where the
    last byte of a character comes first. *)
Definition rstrip (s : string) : string :=
  str_rev (drop_leading isspace1 (fun c1 c2 => isspace2 c2 c1)
             (fun c1 c2 c3 => isspace3 c3 c2 c1) (str_rev s)).

(** [str.strip()]. *)
Definition strip (s : string) : string := rstrip (lstrip s).

(** [str(channel_id)] for the two kinds of key [REQUIRED_CHANNELS] has. *)
Inductive channel_ref :=
| ChanId (id : Z)
| ChanName (name : string).

Definition py_str (c : channel_ref) : string :=
  match c with
  | ChanId z => pretty z
  | ChanName s => s
  end.

(** ** utils/helpers.py *)

Definition extract_video_id (text : string) : option string :=
  if truthy_str text && startswith text "vid_" then Some text else None.

(** The character class of [re.sub(r'[*_`\[\]]', '', title)]. *)
Definition is_markup (c : ascii) : bool :=
  (Ascii.eqb c "*" || Ascii.eqb c "_" || Ascii.eqb c "`"
   || Ascii.eqb c "[" || Ascii.eqb c "]")%bool.

Definition sanitize_title (caption : option string) : string :=
  match caption with
  | None => "Untitled Video"
  | Some c =>
      if negb (truthy_str c) then "Untitled Video"
      else
        let title := str_take 100 (first_line c) in
        let title := str_filter (fun ch => negb (is_markup ch)) title in
        let title := strip title in
        if truthy_str title then title else "Untitled Video"
  end.

(** ** utils/database.py: id generation *)

Definition chars : string := "abcdefghijklmnopqrstuvwxyz0123456789".

(** [secrets.choice(seq)] is [seq[secrets.randbelow(len(seq))]]; the draw
    [r] is reduced into range. *)
Definition secrets_choice (seq : string) (r : nat) : ascii :=
  match String.get (r mod String.length seq) seq with
  | Some c => c
  | None => "000"%char
  end.

Definition generate_video_id (randbelow : nat -> nat) : string :=
  "vid_" +:+
  string_of_list_ascii
    (map (fun i => secrets_choice chars (randbelow i)) (seq 0 8)).

Definition is_lower_alnum (c : ascii) : bool :=
  let n := nat_of_ascii c in
  ((97 <=? n) && (n <=? 122) || (48 <=? n) && (n <=? 57))%nat.

(** ** Telegram objects (the fields the handlers read) *)

Record PhotoSize := { ps_file_id : string }.

Record Video := { v_file_id : string; v_thumbnail : option PhotoSize }.

(** [message.photo] is a tuple of sizes, empty when the message is not a
    photo; [message.video] is [None] when it is not a video. *)
#[warnings="-register-all"]
Inductive Message := mkMessage {
  message_id : Z;
  chat_id : Z;
  media_group_id : option string;
  caption : option string;
  photo : list PhotoSize;
  video : option Video;
  reply_to_message : option Message
}.

(** [message.photo[-1].file_id], read only where [message.photo] is
    non-empty. *)
Definition photo_last (l : list PhotoSize) : string :=
  match last l with
  | Some p => ps_file_id p
  | None => EmptyString
  end.

(** An update of a user: a command or text message ([update.message]) or
    a button press ([update.callback_query]). *)
Record Update := {
  effective_user : Z;
  has_message : bool;
  has_callback_query : bool
}.

(** ** config.py *)

Record channel_info := {
  ci_name : option string;
  ci_link : option string;
  ci_type : option string
}.

Record target_channel := { tc_id : Z; tc_name : option string }.

Record Config := {
  SOURCE_CHANNEL_ID : Z;
  TARGET_CHANNELS : list target_channel;
  REQUIRED_CHANNELS : list (channel_ref * channel_info);
  DAILY_DOWNLOAD_LIMIT : Z;
  PREMIUM_USERS : list Z
}.

(** ** The state *)

(** A value of [media_groups]. *)
Record group := {
  g_photo : option string;
  g_video_file_id : option string;
  g_video_message_id : option Z;
  g_caption : option string;
  g_chat_id : Z
}.

(** A value of [pending_posts]. *)
Record pending_post := {
  p_type : string;
  p_file_id : string;
  p_message_id : Z;
  p_chat_id : Z;
  p_caption : option string
}.

(** A row of [videos]. *)
Record video_row := {
  vr_source_channel : Z;
  vr_message_id : Z;
  vr_title : string;
  vr_thumbnail_id : option string;
  vr_downloads : Z;
  vr_created_at : Z
}.

(** A row of [users]. *)
Record user_row := {
  joined_at : Z;
  downloads_today : Z;
  last_download_date : option Z;
  total_downloads : Z;
  is_premium : bool
}.

(** The texts the bot sends, by template. *)
Inductive text :=
| WELCOME_MESSAGE (not_joined : list channel_ref)
| SUCCESS_MESSAGE
| SUCCESS_MENU
| NOT_JOINED_MESSAGE (not_joined : list channel_ref)
| LIMIT_REACHED_MESSAGE (limit : Z)
| VIDEO_NOT_FOUND_MESSAGE
| VIDEO_SENT (remaining : option Z)
| WELCOME_MENU
| MY_STATS (premium : bool) (remaining total : Z)
| PROFILE (premium : bool) (joined_at : Z).

(** Outbound Bot API calls. *)
Inductive call :=
| SendPhoto (chat : Z) (photo_id title button_url : string)
| ForwardMessage (to from_chat msg : Z)
| ReplyText (user : Z) (t : text)
| EditMessageText (user : Z) (t : text)
| AnswerCallbackQuery (user : Z).

Record World := {
  media_groups : gmap string group;
  pending_posts : gmap Z pending_post;
  user_data : gmap Z string;          (* context.user_data['pending_video'] *)
  videos : gmap string video_row;
  users : gmap Z user_row;
  join_requests : gset (Z * string);  (* UNIQUE(user_id, channel_id) *)
  stats : gmap string Z;
  sent : list (call * bool)           (* oldest first; [true] = delivered *)
}.

Definition empty_world : World :=
  {| media_groups := ∅; pending_posts := ∅; user_data := ∅; videos := ∅;
     users := ∅; join_requests := ∅; stats := ∅; sent := [] |}.

Definition set_media_groups (v : gmap string group) (w : World) : World :=
  {| media_groups := v; pending_posts := pending_posts w;
     user_data := user_data w; videos := videos w; users := users w;
     join_requests := join_requests w; stats := stats w; sent := sent w |}.

Definition set_pending_posts (v : gmap Z pending_post) (w : World) : World :=
  {| media_groups := media_groups w; pending_posts := v;
     user_data := user_data w; videos := videos w; users := users w;
     join_requests := join_requests w; stats := stats w; sent := sent w |}.

Definition set_user_data (v : gmap Z string) (w : World) : World :=
  {| media_groups := media_groups w; pending_posts := pending_posts w;
     user_data := v; videos := videos w; users := users w;
     join_requests := join_requests w; stats := stats w; sent := sent w |}.

Definition set_videos (v : gmap string video_row) (w : World) : World :=
  {| media_groups := media_groups w; pending_posts := pending_posts w;
     user_data := user_data w; videos := v; users := users w;
     join_requests := join_requests w; stats := stats w; sent := sent w |}.

Definition set_users (v : gmap Z user_row) (w : World) : World :=
  {| media_groups := media_groups w; pending_posts := pending_posts w;
     user_data := user_data w; videos := videos w; users := v;
     join_requests := join_requests w; stats := stats w; sent := sent w |}.

Definition set_join_requests (v : gset (Z * string)) (w : World) : World :=
  {| media_groups := media_groups w; pending_posts := pending_posts w;
     user_data := user_data w; videos := videos w; users := users w;
     join_requests := v; stats := stats w; sent := sent w |}.

Definition set_stats (v : gmap string Z) (w : World) : World :=
  {| media_groups := media_groups w; pending_posts := pending_posts w;
     user_data := user_data w; videos := videos w; users := users w;
     join_requests := join_requests w; stats := v; sent := sent w |}.

Definition set_sent (v : list (call * bool)) (w : World) : World :=
  {| media_groups := media_groups w; pending_posts := pending_posts w;
     user_data := user_data w; videos := videos w; users := users w;
     join_requests := join_requests w; stats := stats w; sent := v |}.

(** What a handler invocation finds outside the process. *)
Record Env := {
  today : Z;                                    (* date.today() *)
  randbelow : nat -> nat;                       (* the draws of secrets *)
  get_me : option string;                       (* bot username, None = TelegramError *)
  get_chat_member : channel_ref -> Z -> option string;
                                                (* member.status, None = TelegramError *)
  accepts : call -> bool                        (* false = TelegramError *)
}.

(** ** Handlers as state transformers that may raise *)

Inductive exn := TelegramError | AttributeError | IntegrityError.

Inductive outcome (A : Type) :=
| Done (a : A)
| Raised (e : exn).
Arguments Done {A} a.
Arguments Raised {A} e.

Definition M (A : Type) : Type := World -> outcome A * World.

#[export] Instance M_ret : MRet M := fun A a w => (Done a, w).

#[export] Instance M_bind : MBind M := fun A B k m w =>
  match m w with
  | (Done a, w') => k a w'
  | (Raised e, w') => (Raised e, w')
  end.

Definition raise {A} (e : exn) : M A := fun w => (Raised e, w).

Definition gets {A} (f : World -> A) : M A := fun w => (Done (f w), w).

Definition modify (f : World -> World) : M unit := fun w => (Done tt, f w).

(** [try: body  except TelegramError: handler]. *)
Definition try_except_TelegramError {A} (body handler : M A) : M A := fun w =>
  match body w with
  | (Raised TelegramError, w') => handler w'
  | r => r
  end.

(** [for x in xs: body(x)]. *)
Fixpoint for_each {A} (xs : list A) (body : A -> M unit) : M unit :=
  match xs with
  | [] => mret tt
  | x :: rest => body x ;; for_each rest body
  end.

Definition when (b : bool) (m : M unit) : M unit := if b then m else mret tt.

(** ** utils/database.py *)

(** The SQL statements the module issues.  Each is executed on its own
    (autocommit), so each is one indivisible step on the tables. *)
Inductive sql : Type -> Type :=
| InsertVideo (video_id : string) (source_channel message_id : Z)
              (title : string) (thumbnail_id : option string) (now : Z) : sql unit
| SelectVideo (video_id : string) : sql (option video_row)
| DeleteVideo (video_id : string) : sql bool
| UpdateVideoDownloads (video_id : string) : sql unit
| SelectUser (user_id : Z) : sql (option user_row)
| InsertUserReturning (user_id : Z) (now : Z) : sql user_row
| UpdateUserReset (today : Z) (user_id : Z) : sql unit
| UpdateUserRecord (today : Z) (user_id : Z) : sql unit
| InsertJoinRequest (user_id : Z) (channel_id : string) : sql unit
| SelectJoinRequest (user_id : Z) (channel_id : string) : sql bool
| DeleteJoinRequest (user_id : Z) (channel_id : string) : sql unit
| UpsertStat (key : string) (increment : Z) : sql unit.

Definition new_user_row (now : Z) : user_row :=
  {| joined_at := now; downloads_today := 0; last_download_date := None;
     total_downloads := 0; is_premium := false |}.

Definition reset_row (today : Z) (r : user_row) : user_row :=
  {| joined_at := joined_at r; downloads_today := 0;
     last_download_date := Some today;
     total_downloads := total_downloads r; is_premium := is_premium r |}.

Definition record_row (today : Z) (r : user_row) : user_row :=
  {| joined_at := joined_at r; downloads_today := downloads_today r + 1;
     last_download_date := Some today;
     total_downloads := total_downloads r + 1; is_premium := is_premium r |}.

Definition bump_downloads (r : video_row) : video_row :=
  {| vr_source_channel := vr_source_channel r; vr_message_id := vr_message_id r;
     vr_title := vr_title r; vr_thumbnail_id := vr_thumbnail_id r;
     vr_downloads := vr_downloads r + 1; vr_created_at := vr_created_at r |}.

Definition exec {A} (s : sql A) : M A :=
  match s in sql T return M T with
  | InsertVideo vid sc mid title thumb now => fun w =>
      match videos w !! vid with
      | Some _ => (Raised IntegrityError, w)
      | None =>
          (Done tt,
           set_videos (<[vid := {| vr_source_channel := sc; vr_message_id := mid;
                                   vr_title := title; vr_thumbnail_id := thumb;
                                   vr_downloads := 0; vr_created_at := now |}]>
                         (videos w)) w)
      end
  | SelectVideo vid => gets (fun w => videos w !! vid)
  | DeleteVideo vid => fun w =>
      (Done (bool_decide (is_Some (videos w !! vid))),
       set_videos (delete vid (videos w)) w)
  | UpdateVideoDownloads vid =>
      modify (fun w => set_videos (alter bump_downloads vid (videos w)) w)
  | SelectUser uid => gets (fun w => users w !! uid)
  | InsertUserReturning uid now => fun w =>
      match users w !! uid with
      | Some _ => (Raised IntegrityError, w)
      | None => (Done (new_user_row now),
                 set_users (<[uid := new_user_row now]> (users w)) w)
      end
  | UpdateUserReset today uid =>
      modify (fun w => set_users (alter (reset_row today) uid (users w)) w)
  | UpdateUserRecord today uid =>
      modify (fun w => set_users (alter (record_row today) uid (users w)) w)
  | InsertJoinRequest uid ch =>
      modify (fun w => set_join_requests ({[(uid, ch)]} ∪ join_requests w) w)
  | SelectJoinRequest uid ch =>
      gets (fun w => bool_decide ((uid, ch) ∈ join_requests w))
  | DeleteJoinRequest uid ch =>
      modify (fun w => set_join_requests (join_requests w ∖ {[(uid, ch)]}) w)
  | UpsertStat key inc =>
      modify (fun w =>
        set_stats (<[key := match stats w !! key with
                            | Some v => v + inc
                            | None => inc
                            end]> (stats w)) w)
  end.

(** A database function: Python control flow between SQL statements. *)
Inductive DB (A : Type) : Type :=
| Return (a : A)
| Execute {B : Type} (s : sql B) (k : B -> DB A).
Arguments Return {A} a.
Arguments Execute {A B} s k.

Fixpoint DB_bind_def {A B} (k : A -> DB B) (p : DB A) : DB B :=
  match p with
  | Return a => k a
  | Execute s k' => Execute s (fun b => DB_bind_def k (k' b))
  end.

#[export] Instance DB_ret : MRet DB := fun A a => Return a.
#[export] Instance DB_bind : MBind DB := fun A B k p => DB_bind_def k p.

Definition execute {A} (s : sql A) : DB A := Execute s Return.

(** Running a database function to its end, with nothing in between. *)
Fixpoint db {A} (p : DB A) : M A :=
  match p with
  | Return a => mret a
  | Execute s k => fun w =>
      match exec s w with
      | (Done b, w') => db (k b) w'
      | (Raised e, w') => (Raised e, w')
      end
  end.

Definition update_stats (key : string) (increment : Z) : DB unit :=
  execute (UpsertStat key increment).

Definition save_video (now : Z) (rand : nat -> nat)
    (source_channel message_id : Z) (title : string)
    (thumbnail_id : option string) : DB string :=
  let video_id := generate_video_id rand in
  execute (InsertVideo video_id source_channel message_id title thumbnail_id now);;
  update_stats "total_videos" 1;;
  mret video_id.

Definition get_video (video_id : string) : DB (option video_row) :=
  execute (SelectVideo video_id).

Definition delete_video (video_id : string) : DB bool :=
  execute (DeleteVideo video_id).

Definition increment_downloads (video_id : string) : DB unit :=
  execute (UpdateVideoDownloads video_id);;
  update_stats "total_downloads" 1.

Definition get_user (now : Z) (user_id : Z) : DB user_row :=
  result ← execute (SelectUser user_id);
  match result with
  | Some r => mret r
  | None =>
      r ← execute (InsertUserReturning user_id now);
      update_stats "total_users" 1;;
      mret r
  end.

Definition set_downloads_today (v : Z) (r : user_row) : user_row :=
  {| joined_at := joined_at r; downloads_today := v;
     last_download_date := last_download_date r;
     total_downloads := total_downloads r; is_premium := is_premium r |}.

Definition check_daily_limit (today : Z) (user_id limit : Z) : DB (bool * Z) :=
  user ← get_user today user_id;
  user ← (if bool_decide (last_download_date user ≠ Some today) then
            execute (UpdateUserReset today user_id);;
            mret (set_downloads_today 0 user)
          else mret user);
  let remaining := limit - downloads_today user in
  mret (remaining >? 0, remaining).

Definition record_download (today : Z) (user_id : Z) : DB unit :=
  execute (UpdateUserRecord today user_id).

Definition add_join_request (user_id : Z) (channel_id : channel_ref) : DB unit :=
  execute (InsertJoinRequest user_id (py_str channel_id)).

Definition has_join_request (user_id : Z) (channel_id : channel_ref) : DB bool :=
  execute (SelectJoinRequest user_id (py_str channel_id)).

Definition remove_join_request (user_id : Z) (channel_id : channel_ref) : DB unit :=
  execute (DeleteJoinRequest user_id (py_str channel_id)).

(** ** The handlers *)

Definition truthy_list {A} (l : list A) : bool :=
  match l with [] => false | _ => true end.

Definition set_g_photo (v : option string) (g : group) : group :=
  {| g_photo := v; g_video_file_id := g_video_file_id g;
     g_video_message_id := g_video_message_id g; g_caption := g_caption g;
     g_chat_id := g_chat_id g |}.

Definition set_g_video (f : option string) (m : option Z) (g : group) : group :=
  {| g_photo := g_photo g; g_video_file_id := f; g_video_message_id := m;
     g_caption := g_caption g; g_chat_id := g_chat_id g |}.

Definition set_g_caption (v : option string) (g : group) : group :=
  {| g_photo := g_photo g; g_video_file_id := g_video_file_id g;
     g_video_message_id := g_video_message_id g; g_caption := v;
     g_chat_id := g_chat_id g |}.

Definition new_group (chat : Z) : group :=
  {| g_photo := None; g_video_file_id := None; g_video_message_id := None;
     g_caption := None; g_chat_id := chat |}.

Section Handlers.
Context (cfg : Config) (env : Env).

(** *** Bot API *)

(** An outbound call: logged, and raising [TelegramError] when the
    transport refuses it. *)
Definition bot_call (c : call) : M unit := fun w =>
  let ok := accepts env c in
  let w' := set_sent (sent w ++ [(c, ok)]) w in
  if ok then (Done tt, w') else (Raised TelegramError, w').

Definition bot_get_me : M string :=
  match get_me env with
  | Some username => mret username
  | None => raise TelegramError
  end.

Definition bot_get_chat_member (chat : channel_ref) (user_id : Z) : M string :=
  match get_chat_member env chat user_id with
  | Some status => mret status
  | None => raise TelegramError
  end.

(** [update.message.reply_text(...)]: [update.message] is [None] on a
    button press. *)
Definition reply_text (update : Update) (t : text) : M unit :=
  if has_message update then bot_call (ReplyText (effective_user update) t)
  else raise AttributeError.

(** *** handlers/video.py *)

Definition post_to_channels (video_id title thumbnail_photo_id : string) : M unit :=
  if negb (truthy_list (TARGET_CHANNELS cfg)) then mret tt
  else
    bot_username ← bot_get_me;
    let button_url := "https://t.me/" +:+ bot_username +:+ "?start=" +:+ video_id in
    for_each (TARGET_CHANNELS cfg) (fun channel =>
      try_except_TelegramError
        (bot_call (SendPhoto (tc_id channel) thumbnail_photo_id title button_url))
        (mret tt)).

(** [group[...] = ...] writes through to the entry of [media_groups]. *)
Definition alter_group (group_id : string) (f : group -> group) : M unit :=
  modify (fun w => set_media_groups (alter f group_id (media_groups w)) w).

Definition handle_media_group (message : Message) : M unit :=
  let group_id := default EmptyString (media_group_id message) in
  known ← gets (fun w => bool_decide (is_Some (media_groups w !! group_id)));
  when (negb known)
    (modify (fun w =>
       set_media_groups
         (<[group_id := new_group (chat_id message)]> (media_groups w)) w));;
  when (truthy_list (photo message))
    (alter_group group_id (set_g_photo (Some (photo_last (photo message))));;
     when (truthy_ostr (caption message))
       (alter_group group_id (set_g_caption (caption message))));;
  match video message with
  | Some v =>
      alter_group group_id
        (set_g_video (Some (v_file_id v)) (Some (message_id message)));;
      when (truthy_ostr (caption message))
        (alter_group group_id (set_g_caption (caption message)))
  | None => mret tt
  end;;
  entry ← gets (fun w => media_groups w !! group_id);
  match entry with
  | Some group =>
      if truthy_ostr (g_photo group) && truthy_ostr (g_video_file_id group) then
        let title := sanitize_title (g_caption group) in
        video_id ← db (save_video (today env) (randbelow env)
                         (g_chat_id group)
                         (default 0 (g_video_message_id group))
                         title (g_photo group));
        post_to_channels video_id title (default EmptyString (g_photo group));;
        modify (fun w => set_media_groups (delete group_id (media_groups w)) w)
      else mret tt
  | None => mret tt
  end.

Definition has_type (replied_data : option pending_post) (ty : string) : bool :=
  match replied_data with
  | Some d => String.eqb (p_type d) ty
  | None => false
  end.

(** The local variables [thumbnail_id], [content_video_message_id] and
    [caption] of [handle_reply_method] once its two cases are through. *)
Definition reply_pair (message replied_to : Message)
    (replied_data : option pending_post)
  : option string * option Z * option string :=
  let stored_caption (caption : option string) :=
    if negb (truthy_ostr caption) then replied_data ≫= p_caption else caption in
  match video message with
  | Some v =>
      let caption := py_or (caption message) (caption replied_to) in
      let own_thumbnail := ps_file_id <$> v_thumbnail v in
      if truthy_list (photo replied_to) then
        (Some (photo_last (photo replied_to)), Some (message_id message), caption)
      else if has_type replied_data "photo" then
        (p_file_id <$> replied_data, Some (message_id message),
         stored_caption caption)
      else if bool_decide (is_Some (video replied_to)) then
        (own_thumbnail, Some (message_id replied_to), caption)
      else if has_type replied_data "video" then
        (own_thumbnail, p_message_id <$> replied_data, stored_caption caption)
      else (None, None, caption)
  | None =>
      if truthy_list (photo message) then
        let thumbnail_id := Some (photo_last (photo message)) in
        let caption := py_or (caption message) (caption replied_to) in
        if bool_decide (is_Some (video replied_to)) then
          (thumbnail_id, Some (message_id replied_to), caption)
        else if has_type replied_data "video" then
          (thumbnail_id, p_message_id <$> replied_data, stored_caption caption)
        else (thumbnail_id, None, caption)
      else (None, None, None)
  end.

Definition handle_reply_method (message replied_to : Message) : M unit :=
  let replied_msg_id := message_id replied_to in
  replied_data ← gets (fun w => pending_posts w !! replied_msg_id);
  let '(thumbnail_id, content_video_message_id, caption) :=
    reply_pair message replied_to replied_data in
  if truthy_ostr thumbnail_id && truthy_oint content_video_message_id then
    let title := sanitize_title caption in
    video_id ← db (save_video (today env) (randbelow env)
                     (chat_id message)
                     (default 0 content_video_message_id)
                     title thumbnail_id);
    post_to_channels video_id title (default EmptyString thumbnail_id);;
    modify (fun w =>
      set_pending_posts (delete replied_msg_id (pending_posts w)) w)
  else mret tt.

Definition store_pending (message : Message) (ty file : string) : M unit :=
  modify (fun w =>
    set_pending_posts
      (<[message_id message :=
           {| p_type := ty; p_file_id := file;
              p_message_id := message_id message;
              p_chat_id := chat_id message;
              p_caption := caption message |}]> (pending_posts w)) w).

Definition handle_channel_post (channel_post : option Message) : M unit :=
  match channel_post with
  | None => mret tt
  | Some message =>
      if truthy_int (SOURCE_CHANNEL_ID cfg)
         && negb (chat_id message =? SOURCE_CHANNEL_ID cfg)
      then mret tt
      else if truthy_ostr (media_group_id message) then
        handle_media_group message
      else
        match reply_to_message message with
        | Some replied_to => handle_reply_method message replied_to
        | None =>
            match video message with
            | Some v => store_pending message "video" (v_file_id v)
            | None =>
                when (truthy_list (photo message))
                  (store_pending message "photo" (photo_last (photo message)))
            end
        end
  end.

Definition forward_video_to_user (user_id : Z) (video_id : string) : M bool :=
  video_data ← db (get_video video_id);
  match video_data with
  | None => mret false
  | Some vd =>
      try_except_TelegramError
        (bot_call (ForwardMessage user_id (vr_source_channel vd) (vr_message_id vd));;
         db (increment_downloads video_id);;
         mret true)
        (mret false)
  end.

(** *** handlers/start.py *)

Definition member_statuses : list string :=
  ["member"; "administrator"; "creator"; "restricted"]%string.

(** The [chat_id] that [check_membership] asks about: a handle gets its
    [@], a numeric id or a string starting with [-] is passed as it is. *)
Definition membership_chat (channel_id : channel_ref) : channel_ref :=
  match channel_id with
  | ChanName s =>
      if negb (startswith s "-") then ChanName ("@" +:+ s) else channel_id
  | ChanId _ => channel_id
  end.

Definition check_membership (user_id : Z) (channel_id : channel_ref) : M bool :=
  try_except_TelegramError
    (let chat := membership_chat channel_id in
     status ← bot_get_chat_member chat user_id;
     mret (existsb (String.eqb status) member_statuses))
    (mret false).

Definition check_channel (user_id : Z) (channel_id : channel_ref)
    (info : channel_info) : M bool :=
  let channel_type := default "public"%string (ci_type info) in
  is_member ← check_membership user_id channel_id;
  if (is_member : bool) then
    db (remove_join_request user_id channel_id);;
    mret true
  else if String.eqb channel_type "private" then
    db (has_join_request user_id channel_id)
  else mret false.

Fixpoint check_channels_from (required : list (channel_ref * channel_info))
    (user_id : Z) (not_joined : list channel_ref) : M (list channel_ref) :=
  match required with
  | [] => mret not_joined
  | (channel_id, info) :: rest =>
      ok ← check_channel user_id channel_id info;
      check_channels_from rest user_id
        (if (ok : bool) then not_joined else not_joined ++ [channel_id])
  end.

Definition check_all_channels (user_id : Z) : M (bool * list channel_ref) :=
  not_joined ← check_channels_from (REQUIRED_CHANNELS cfg) user_id [];
  mret (negb (truthy_list not_joined), not_joined).

Definition deliver_video (update : Update) (user_id : Z) (video_id : string)
  : M unit :=
  let is_premium := bool_decide (user_id ∈ PREMIUM_USERS cfg) in
  denied ←
    (if negb is_premium then
       '(allowed, _) ← db (check_daily_limit (today env) user_id
                             (DAILY_DOWNLOAD_LIMIT cfg));
       if negb (allowed : bool) then
         reply_text update (LIMIT_REACHED_MESSAGE (DAILY_DOWNLOAD_LIMIT cfg));;
         mret true
       else mret false
     else mret false);
  if (denied : bool) then mret tt
  else
    success ← forward_video_to_user user_id video_id;
    if (success : bool) then
      db (record_download (today env) user_id);;
      if negb is_premium then
        '(_, remaining) ← db (check_daily_limit (today env) user_id
                                (DAILY_DOWNLOAD_LIMIT cfg));
        reply_text update (VIDEO_SENT (Some remaining))
      else reply_text update (VIDEO_SENT None)
    else reply_text update VIDEO_NOT_FOUND_MESSAGE.

Definition handle_start (update : Update) (args : option (list string))
  : M unit :=
  let user_id := effective_user update in
  let video_id :=
    match args with
    | Some (a :: _) => extract_video_id a
    | _ => None
    end in
  blocked ←
    (if truthy_list (REQUIRED_CHANNELS cfg) then
       '(all_ok, not_joined) ← check_all_channels user_id;
       if negb (all_ok : bool) then
         match video_id with
         | Some v =>
             when (truthy_str v)
               (modify (fun w => set_user_data (<[user_id := v]> (user_data w)) w))
         | None => mret tt
         end;;
         reply_text update (WELCOME_MESSAGE not_joined);;
         mret true
       else mret false
     else mret false);
  if (blocked : bool) then mret tt
  else
    match video_id with
    | Some v =>
        if truthy_str v then deliver_video update user_id v
        else reply_text update SUCCESS_MENU
    | None => reply_text update SUCCESS_MENU
    end.

Definition handle_verify_callback (update : Update) : M unit :=
  if negb (has_callback_query update) then raise AttributeError
  else
    let user_id := effective_user update in
    bot_call (AnswerCallbackQuery user_id);;
    '(all_ok, not_joined) ← check_all_channels user_id;
    if (all_ok : bool) then
      pending_video ← gets (fun w => user_data w !! user_id);
      match pending_video with
      | Some v =>
          if truthy_str v then
            modify (fun w => set_user_data (delete user_id (user_data w)) w);;
            bot_call (EditMessageText user_id SUCCESS_MESSAGE);;
            deliver_video update user_id v
          else
            bot_call (EditMessageText user_id SUCCESS_MESSAGE);;
            bot_call (ReplyText user_id WELCOME_MENU)
      | None =>
          bot_call (EditMessageText user_id SUCCESS_MESSAGE);;
          bot_call (ReplyText user_id WELCOME_MENU)
      end
    else bot_call (EditMessageText user_id (NOT_JOINED_MESSAGE not_joined)).

(** *** handlers/user.py *)

Definition handle_my_stats (update : Update) : M unit :=
  let user_id := effective_user update in
  user ← db (get_user (today env) user_id);
  let is_premium := bool_decide (user_id ∈ PREMIUM_USERS cfg) in
  '(_, remaining) ← db (check_daily_limit (today env) user_id
                          (DAILY_DOWNLOAD_LIMIT cfg));
  reply_text update (MY_STATS is_premium remaining (total_downloads user)).

Definition handle_profile (update : Update) : M unit :=
  let user_id := effective_user update in
  user_data ← db (get_user (today env) user_id);
  let is_premium := bool_decide (user_id ∈ PREMIUM_USERS cfg) in
  reply_text update (PROFILE is_premium (joined_at user_data)).

(** *** bot.py *)

Definition on_join_request (user_id chat : Z) : M unit :=
  db (add_join_request user_id (ChanId chat)).

(** *** The events the process handles *)

Inductive event :=
| ChannelPost (channel_post : option Message)
| Start (update : Update) (args : option (list string))
| VerifyCallback (update : Update)
| MyStats (update : Update)
| Profile (update : Update)
| JoinRequest (user_id chat : Z).

Definition handle (e : event) : M unit :=
  match e with
  | ChannelPost p => handle_channel_post p
  | Start u args => handle_start u args
  | VerifyCallback u => handle_verify_callback u
  | MyStats u => handle_my_stats u
  | Profile u => handle_profile u
  | JoinRequest u c => on_join_request u c
  end.

End Handlers.

(** One event, handled to its end (or to the exception that ends it) in
    the environment it finds. *)
Definition step (cfg : Config) (w w' : World) : Prop :=
  ∃ env e, snd (handle cfg env e w) = w'.

(** The states reached from empty tables through these events.  Of the
    handlers left out, the help, search and panel texts and the admin
    listings write no table; the delete buttons of the admin console,
    which delete from [videos], come with [reachable_all]. *)
Inductive reachable (cfg : Config) : World -> Prop :=
| reachable_init : reachable cfg empty_world
| reachable_step w w' : reachable cfg w -> step cfg w w' -> reachable cfg w'.

(** ** The quota ledger on its own *)

(** The two operations of the ledger, as the handlers call them. *)
Inductive ledger_op :=
| CheckOp (user_id limit : Z)
| RecordOp (user_id : Z).

(** The account an operation is about. *)
Definition op_user (op : ledger_op) : Z :=
  match op with
  | CheckOp u _ => u
  | RecordOp u => u
  end.

Definition ledger_step (today : Z) (op : ledger_op) (w : World) : World :=
  match op with
  | CheckOp u l => snd (db (check_daily_limit today u l) w)
  | RecordOp u => snd (db (record_download today u) w)
  end.

(** Operations of one day, in order. *)
Definition ledger_run (today : Z) (ops : list ledger_op) (w : World) : World :=
  fold_left (fun w op => ledger_step today op w) ops w.

(** Operations with the day each happens on, in order. *)
Definition dated_run (history : list (Z * ledger_op)) (w : World) : World :=
  fold_left (fun w x => ledger_step (fst x) (snd x) w) history w.

(** The [remaining] component of what a check returns. *)
Definition remaining_of (r : outcome (bool * Z) * World) : option Z :=
  match fst r with
  | Done (_, remaining) => Some remaining
  | Raised _ => None
  end.

(** The account a check works on: the stored row, or the row it inserts. *)
Definition account_of (today user_id : Z) (w : World) : user_row :=
  default (new_user_row today) (users w !! user_id).

(** The counter a check computes with: the stored one when it was
    stamped today, zero otherwise. *)
Definition counter_on (today : Z) (r : user_row) : Z :=
  if bool_decide (last_download_date r = Some today) then downloads_today r else 0.

(** The account of [uid] is stamped [today] and its counter is at least [c]. *)
Definition stamped_at_least (today uid c : Z) (w : World) : Prop :=
  exists r, users w !! uid = Some r /\ last_download_date r = Some today /\
            c <= downloads_today r.

(** The account of [uid], if there is one, is not stamped [today]. *)
Definition not_stamped (today uid : Z) (w : World) : Prop :=
  forall r, users w !! uid = Some r -> last_download_date r <> Some today.

(** ** Frames and invariants *)

(** Whatever way [m] ends, the world it leaves is related to the one it
    started in. *)
Definition frames (R : World -> World -> Prop) {A} (m : M A) : Prop :=
  forall w, R w (snd (m w)).

Definition same_users (w w' : World) : Prop := users w' = users w.

Definition same_user_data (w w' : World) : Prop := user_data w' = user_data w.

(** Every account outside the premium list has used no more than the
    configured limit today. *)
Definition within_limit (cfg : Config) (w : World) : Prop :=
  forall u r, users w !! u = Some r -> u ∉ PREMIUM_USERS cfg ->
              downloads_today r <= DAILY_DOWNLOAD_LIMIT cfg.

(** [R] lets through every write the statement [s] can make. *)
Definition writes_ok (R : World -> World -> Prop) {B} (s : sql B) : Prop :=
  match s with
  | InsertVideo _ _ _ _ _ _ | DeleteVideo _ | UpdateVideoDownloads _ =>
      forall w v, R w (set_videos v w)
  | InsertUserReturning _ _ | UpdateUserReset _ _ | UpdateUserRecord _ _ =>
      forall w v, R w (set_users v w)
  | InsertJoinRequest _ _ | DeleteJoinRequest _ _ =>
      forall w v, R w (set_join_requests v w)
  | UpsertStat _ _ => forall w v, R w (set_stats v w)
  | SelectVideo _ | SelectUser _ | SelectJoinRequest _ _ => True
  end.

Fixpoint DB_writes_ok (R : World -> World -> Prop) {A} (p : DB A) : Prop :=
  match p with
  | Return _ => True
  | Execute s k => writes_ok R s /\ forall b, DB_writes_ok R (k b)
  end.

(** Started where [P] holds, [m] ends normally with [Q] or raises with [E]. *)
Definition hoare (P : World -> Prop) {A} (m : M A)
    (Q : A -> World -> Prop) (E : World -> Prop) : Prop :=
  forall w, P w ->
    match m w with
    | (Done a, w') => Q a w'
    | (Raised _, w') => E w'
    end.

(** The account of [uid] is stamped [today] and its counter is below the
    limit. *)
Definition below_limit (cfg : Config) (today uid : Z) (w : World) : Prop :=
  exists r, users w !! uid = Some r /\ last_download_date r = Some today /\
            downloads_today r < DAILY_DOWNLOAD_LIMIT cfg.

(** ** Concrete configurations, environments and messages *)

(** [config.py] as it stands. *)
Definition shipped_config : Config :=
  {| SOURCE_CHANNEL_ID := -1003573156420;
     TARGET_CHANNELS :=
       [ {| tc_id := -1003615561641; tc_name := Some "TARGET CHANNEL 1"%string |};
         {| tc_id := -1003344091364; tc_name := Some "TARGET Channel 2"%string |} ];
     REQUIRED_CHANNELS :=
       [ (ChanName "AFK_B",
          {| ci_name := Some "AFK B"%string;
             ci_link := Some "https://t.me/AFK_B"%string;
             ci_type := Some "public"%string |});
         (ChanId (-1003649746851),
          {| ci_name := Some "test enti gravity"%string;
             ci_link := Some "https://t.me/+T9OAFt-RbrY3ZmNl"%string;
             ci_type := Some "private"%string |}) ];
     DAILY_DOWNLOAD_LIMIT := 300;
     PREMIUM_USERS := [] |}.

(** The same with another limit and premium list. *)
Definition config_with (limit : Z) (premium : list Z) : Config :=
  {| SOURCE_CHANNEL_ID := SOURCE_CHANNEL_ID shipped_config;
     TARGET_CHANNELS := TARGET_CHANNELS shipped_config;
     REQUIRED_CHANNELS := REQUIRED_CHANNELS shipped_config;
     DAILY_DOWNLOAD_LIMIT := limit;
     PREMIUM_USERS := premium |}.

(** A day on which the Bot API answers every call and reports every
    user a member of every channel. *)
Definition calm_env (day : Z) : Env :=
  {| today := day;
     randbelow := fun i => i;
     get_me := Some "bot"%string;
     get_chat_member := fun _ _ => Some "member"%string;
     accepts := fun _ => true |}.

Definition photo_post (id : Z) (group_id caption : option string) (file : string)
    (reply_to : option Message) : Message :=
  {| message_id := id; chat_id := SOURCE_CHANNEL_ID shipped_config;
     media_group_id := group_id; caption := caption;
     photo := [ {| ps_file_id := file |} ]; video := None;
     reply_to_message := reply_to |}.

Definition video_post (id : Z) (group_id caption : option string) (file : string)
    (thumb : option string) (reply_to : option Message) : Message :=
  {| message_id := id; chat_id := SOURCE_CHANNEL_ID shipped_config;
     media_group_id := group_id; caption := caption;
     photo := [];
     video := Some {| v_file_id := file;
                      v_thumbnail := (fun f => {| ps_file_id := f |}) <$> thumb |};
     reply_to_message := reply_to |}.

Definition command_from (user : Z) : Update :=
  {| effective_user := user; has_message := true; has_callback_query := false |}.

Definition button_from (user : Z) : Update :=
  {| effective_user := user; has_message := false; has_callback_query := true |}.

(** Events handled one after the other, all in the environment [env]. *)
Definition run_events (cfg : Config) (env : Env) (es : list event) (w : World)
  : World :=
  fold_left (fun w e => snd (handle cfg env e w)) es w.

(** A premium user opens the statistics once, a photo and a video are
    posted as one media group, and the user fetches the video twice. *)
Definition premium_day : list event :=
  [ MyStats (command_from 7);
    ChannelPost (Some (photo_post 1 (Some "g"%string) (Some "Movie"%string) "P" None));
    ChannelPost (Some (video_post 2 (Some "g"%string) None "V" None None));
    Start (command_from 7) (Some ["vid_abcdefgh"%string]);
    Start (command_from 7) (Some ["vid_abcdefgh"%string]) ].

(** What the live lookup of [check_membership] finds. *)
Definition live_member (env : Env) (user_id : Z) (channel_id : channel_ref) : bool :=
  match get_chat_member env (membership_chat channel_id) user_id with
  | Some status => existsb (String.eqb status) member_statuses
  | None => false
  end.

Definition marked_private (info : channel_info) : bool :=
  String.eqb (default "public"%string (ci_type info)) "private".

(** A join request of the user for the channel is on record. *)
Definition recorded (w : World) (user_id : Z) (channel_id : channel_ref) : bool :=
  bool_decide ((user_id, py_str channel_id) ∈ join_requests w).


(** The row [save_video] inserts. *)
Definition new_video_row (now source_channel message_id : Z) (title : string)
    (thumbnail_id : option string) : video_row :=
  {| vr_source_channel := source_channel; vr_message_id := message_id;
     vr_title := title; vr_thumbnail_id := thumbnail_id;
     vr_downloads := 0; vr_created_at := now |}.

(** The world [save_video] leaves when the id is free. *)
Definition saved (id : string) (row : video_row) (w : World) : World :=
  set_stats
    (<["total_videos"%string :=
         match stats w !! "total_videos"%string with
         | Some v => v + 1
         | None => 1
         end]> (stats w))
    (set_videos (<[id := row]> (videos w)) w).

(** ** Pairing by media group, in closed form *)

(** The entry of [media_groups] once [handle_media_group] has written
    the slots the message supplies. *)
Definition group_after (message : Message) (w : World) : group :=
  let group_id := default EmptyString (media_group_id message) in
  let g0 := default (new_group (chat_id message)) (media_groups w !! group_id) in
  let with_caption (g : group) :=
    if truthy_ostr (caption message) then set_g_caption (caption message) g else g in
  let g1 :=
    if truthy_list (photo message)
    then with_caption (set_g_photo (Some (photo_last (photo message))) g0)
    else g0 in
  match video message with
  | Some v =>
      with_caption (set_g_video (Some (v_file_id v)) (Some (message_id message)) g1)
  | None => g1
  end.

(** Both slots are filled. *)
Definition ready (g : group) : bool :=
  truthy_ostr (g_photo g) && truthy_ostr (g_video_file_id g).

(** The log entries of [post_to_channels]: one [send_photo] per target
    channel, in order, each with what the transport made of it. *)
Definition publish_log (cfg : Config) (env : Env) (bot_username : string)
    (video_id title thumbnail : string) : list (call * bool) :=
  map (fun channel =>
         let c := SendPhoto (tc_id channel) thumbnail title
                    ("https://t.me/" +:+ bot_username +:+ "?start=" +:+ video_id) in
         (c, accepts env c))
      (TARGET_CHANNELS cfg).

(** A message of the group [gid] that is a photo and no video. *)
Definition photo_of_group (gid : string) (m : Message) : Prop :=
  media_group_id m = Some gid /\ photo m <> [] /\
  truthy_str (photo_last (photo m)) = true /\ video m = None.

(** A message of the group [gid] that is a video and no photo. *)
Definition video_of_group (gid : string) (m : Message) : Prop :=
  media_group_id m = Some gid /\ photo m = [] /\
  exists v, video m = Some v /\ truthy_str (v_file_id v) = true.

(** The caption a group ends with: the later message's when that is
    non-empty, else the earlier one's when that is. *)
Definition group_caption (m1 m2 : Message) : option string :=
  if truthy_ostr (caption m2) then caption m2
  else if truthy_ostr (caption m1) then caption m1
  else None.

Definition the_photo (m1 m2 : Message) : string :=
  if truthy_list (photo m1) then photo_last (photo m1) else photo_last (photo m2).

Definition the_video_message (m1 m2 : Message) : Z :=
  match video m1 with Some _ => message_id m1 | None => message_id m2 end.

(** [env] with other draws of [secrets]. *)
Definition with_draws (rand : nat -> nat) (env : Env) : Env :=
  {| today := today env; randbelow := rand; get_me := get_me env;
     get_chat_member := get_chat_member env; accepts := accepts env |}.

(** A media group "g": photo 1 and video 2, and two stragglers carrying
    the same group id, photo 3 and video 4. *)
Definition group_photo : Message :=
  photo_post 1 (Some "g"%string) (Some "Movie"%string) "P" None.
Definition group_video : Message :=
  video_post 2 (Some "g"%string) None "V" None None.
Definition late_photo : Message :=
  photo_post 3 (Some "g"%string) None "P2" None.
Definition late_video : Message :=
  video_post 4 (Some "g"%string) None "V2" None None.

(** [env] with a transport that refuses every [edit_message_text]. *)
Definition refusing_edits (env : Env) : Env :=
  {| today := today env; randbelow := randbelow env; get_me := get_me env;
     get_chat_member := get_chat_member env;
     accepts := fun c => match c with
                         | EditMessageText _ _ => false
                         | _ => accepts env c
                         end |}.

(** [env] with a transport that refuses every [forward_message]. *)
Definition refusing_forwards (env : Env) : Env :=
  {| today := today env; randbelow := randbelow env; get_me := get_me env;
     get_chat_member := get_chat_member env;
     accepts := fun c => match c with
                         | ForwardMessage _ _ _ => false
                         | _ => accepts env c
                         end |}.

(** The account as [check_daily_limit] leaves it. *)
Definition checked_row (today : Z) (r : user_row) : user_row :=
  {| joined_at := joined_at r; downloads_today := counter_on today r;
     last_download_date := Some today;
     total_downloads := total_downloads r; is_premium := is_premium r |}.

(** The quota lets the user through: premium, or something remains. *)
Definition quota_open (cfg : Config) (today user_id : Z) (w : World) : bool :=
  bool_decide (user_id ∈ PREMIUM_USERS cfg)
  || (DAILY_DOWNLOAD_LIMIT cfg
      - counter_on today (account_of today user_id w) >? 0).

(** How many [forward_message] calls a piece of the log holds. *)
Definition is_forward (c : call) : bool :=
  match c with
  | ForwardMessage _ _ _ => true
  | _ => false
  end.

Definition forward_attempts (log : list (call * bool)) : nat :=
  length (List.filter (fun x => is_forward (fst x)) log).

(** The four tables are the same. *)
Definition same_tables (w w' : World) : Prop :=
  users w' = users w /\ videos w' = videos w /\ stats w' = stats w /\
  join_requests w' = join_requests w.

(** The media group "g" is posted and user 5 fetches its video once. *)
Definition one_download : list event :=
  [ ChannelPost (Some group_photo);
    ChannelPost (Some group_video);
    Start (command_from 5) (Some ["vid_abcdefgh"%string]) ].

(** The same, and then user 6, a newcomer, opens the profile. *)
Definition download_and_profile : list event :=
  one_download ++ [Profile (command_from 6)].

(** ** The gate in closed form *)

(** What [check_all_channels] computes: the channels not satisfied, in
    order, and the join requests left once those of live members are
    deleted. *)
Fixpoint gate (env : Env) (user_id : Z)
    (required : list (channel_ref * channel_info))
    (joins : gset (Z * string)) (not_joined : list channel_ref)
  : list channel_ref * gset (Z * string) :=
  match required with
  | [] => (not_joined, joins)
  | (channel_id, info) :: rest =>
      if live_member env user_id channel_id then
        gate env user_id rest (joins ∖ {[(user_id, py_str channel_id)]}) not_joined
      else if marked_private info
              && bool_decide ((user_id, py_str channel_id) ∈ joins) then
        gate env user_id rest joins not_joined
      else gate env user_id rest joins (not_joined ++ [channel_id])
  end.

(** The channels the user still has to join. *)
Definition unsatisfied (cfg : Config) (env : Env) (user_id : Z) (w : World)
  : list channel_ref :=
  fst (gate env user_id (REQUIRED_CHANNELS cfg) (join_requests w) []).

(** The log grew by calls none of which is a [forward_message]. *)
Definition no_forward (w w' : World) : Prop :=
  exists log, sent w' = sent w ++ log /\ forward_attempts log = 0%nat.

(** Nothing was delivered: the tables of videos and users and the
    counters are as before and no forward went out. *)
Definition nothing_delivered (w w' : World) : Prop :=
  users w' = users w /\ videos w' = videos w /\ stats w' = stats w /\
  no_forward w w'.

(** A day on which the Bot API answers every call and reports every
    user as having left every channel. *)
Definition outside_env (day : Z) : Env :=
  {| today := day;
     randbelow := fun i => i;
     get_me := Some "bot"%string;
     get_chat_member := fun _ _ => Some "left"%string;
     accepts := fun _ => true |}.

(** ** Two database functions at once *)



(** ** Further closed forms *)

(** Whether the text starts with a character that [sp1], [sp2] and [sp3]
    recognise. *)
Definition starts_with (sp1 : ascii -> bool) (sp2 : ascii -> ascii -> bool)
    (sp3 : ascii -> ascii -> ascii -> bool) (s : string) : bool :=
  match s with
  | EmptyString => false
  | String c1 r1 =>
      sp1 c1 ||
      match r1 with
      | EmptyString => false
      | String c2 r2 =>
          sp2 c1 c2 ||
          match r2 with
          | EmptyString => false
          | String c3 _ => sp3 c1 c2 c3
          end
      end
  end.

(** A character: a byte that is no continuation byte, and continuation
    bytes. *)
Definition is_char (ch : string) : bool :=
  match ch with
  | EmptyString => false
  | String c r =>
      negb (is_continuation c) && forallb is_continuation (list_ascii_of_string r)
  end.

(** The text of a list of characters. *)
Definition str_concat (chars : list string) : string :=
  fold_right String.append EmptyString chars.

Fixpoint str_repeat (n : nat) (s : string) : string :=
  match n with
  | O => EmptyString
  | S n' => s +:+ str_repeat n' s
  end.

(** Accounts, join requests and pending requests of users are the same. *)
Definition same_audience (w w' : World) : Prop :=
  users w' = users w /\ join_requests w' = join_requests w /\
  user_data w' = user_data w.

(** The world [check_daily_limit] leaves: the account is there, stamped
    today, with the counter the check computed with. *)
Definition checked (today user_id : Z) (w : World) : World :=
  set_users (<[user_id := checked_row today (account_of today user_id w)]> (users w))
    match users w !! user_id with
    | Some _ => w
    | None =>
        set_stats (<["total_users"%string :=
                       match stats w !! "total_users"%string with
                       | Some v => v + 1
                       | None => 1
                       end]> (stats w)) w
    end.

(** The world an accepted forward of the row [vid] leaves. *)
Definition forwarded (env : Env) (user_id : Z) (video_id : string)
    (vd : video_row) (w : World) : World :=
  set_stats (<["total_downloads"%string :=
                 match stats w !! "total_downloads"%string with
                 | Some v => v + 1
                 | None => 1
                 end]> (stats w))
    (set_videos (alter bump_downloads video_id (videos w))
       (set_sent (sent w ++
                  [(ForwardMessage user_id (vr_source_channel vd)
                      (vr_message_id vd), true)]) w)).

(** What a run of outbound calls leaves in the log: each call with what
    the transport made of it, up to and including the first one refused. *)
Fixpoint attempted (env : Env) (calls : list call) : list (call * bool) :=
  match calls with
  | [] => []
  | c :: rest =>
      (c, accepts env c) :: (if accepts env c then attempted env rest else [])
  end.

(** ** Python's [str.replace] *)

(** [s.replace(old, new)] for a non-empty [old]: occurrences are taken
    from the left and do not overlap; [skip] counts the characters of a
    replaced occurrence still to pass over. *)
Fixpoint str_replace_from (old new : string) (skip : nat) (s : string)
  : string :=
  match s with
  | EmptyString => EmptyString
  | String c rest =>
      match skip with
      | S k => str_replace_from old new k rest
      | O =>
          if startswith s old
          then new +:+ str_replace_from old new (String.length old - 1) rest
          else String c (str_replace_from old new 0 rest)
      end
  end.

Definition str_replace (old new s : string) : string :=
  str_replace_from old new 0 s.

(** ** handlers/admin.py: the delete buttons *)

(** The texts of [handle_video_delete_callback]. *)
Inductive console_text :=
| ADMIN_PANEL
| DELETED_SUCCESSFULLY (video_id : string)
| NOT_FOUND (video_id : string)
| DELETED (video_id : string)
| FAILED_TO_DELETE.

(** Its outbound calls: [query.answer("... Not authorized")],
    [query.answer()] and [query.edit_message_text(...)]. *)
Inductive console_call :=
| AnswerNotAuthorized (user : Z)
| AnswerQuery (user : Z)
| EditConsole (user : Z) (t : console_text).

(** The process state with the log of the console's calls beside it. *)
Record Console := {
  world : World;
  console_sent : list (console_call * bool)
}.

Definition C (A : Type) : Type := Console -> outcome A * Console.

#[export] Instance C_ret : MRet C := fun A a s => (Done a, s).

#[export] Instance C_bind : MBind C := fun A B k m s =>
  match m s with
  | (Done a, s') => k a s'
  | (Raised e, s') => (Raised e, s')
  end.

(** A computation on the process state, run from the console. *)
Definition lift {A} (m : M A) : C A := fun s =>
  let '(r, w') := m (world s) in
  (r, {| world := w'; console_sent := console_sent s |}).

(** [user_id in ADMIN_IDS]. *)
Definition is_admin (ADMIN_IDS : list Z) (user_id : Z) : bool :=
  bool_decide (user_id ∈ ADMIN_IDS).

Section AdminConsole.
Context (ADMIN_IDS : list Z) (console_accepts : console_call -> bool).

Definition console (c : console_call) : C unit := fun s =>
  let ok := console_accepts c in
  let s' := {| world := world s;
               console_sent := console_sent s ++ [(c, ok)] |} in
  if ok then (Done tt, s') else (Raised TelegramError, s').

(** [query.from_user.id] is [user_id], [query.data] is [data]. *)
Definition handle_video_delete_callback (user_id : Z) (data : string) : C unit :=
  if negb (is_admin ADMIN_IDS user_id) then console (AnswerNotAuthorized user_id)
  else
    console (AnswerQuery user_id);;
    if String.eqb data "admin_back" then
      console (EditConsole user_id ADMIN_PANEL)
    else if startswith data "del_" then
      let video_id := str_replace "del_" EmptyString data in
      success ← lift (db (delete_video video_id));
      if (success : bool) then
        console (EditConsole user_id (DELETED_SUCCESSFULLY video_id))
      else console (EditConsole user_id (NOT_FOUND video_id))
    else if startswith data "confirm_del_" then
      let video_id := str_replace "confirm_del_" EmptyString data in
      success ← lift (db (delete_video video_id));
      if (success : bool) then console (EditConsole user_id (DELETED video_id))
      else console (EditConsole user_id FAILED_TO_DELETE)
    else mret tt.
End AdminConsole.

(** The states reached from empty tables through the events of [handle]
    and the delete buttons of the console.  These are all the writers of
    the tables: [route_message] lets no delete command through, and the
    remaining handlers only read. *)
Inductive reachable_all (cfg : Config) (ADMIN_IDS : list Z) : World -> Prop :=
| reachable_all_init : reachable_all cfg ADMIN_IDS empty_world
| reachable_all_step w w' :
    reachable_all cfg ADMIN_IDS w -> step cfg w w' ->
    reachable_all cfg ADMIN_IDS w'
| reachable_all_console w console_accepts user_id data log :
    reachable_all cfg ADMIN_IDS w ->
    reachable_all cfg ADMIN_IDS
      (world (snd (handle_video_delete_callback ADMIN_IDS console_accepts
                     user_id data {| world := w; console_sent := log |}))).

(** An id as [generate_video_id] makes them. *)
Definition generated (video_id : string) : Prop :=
  exists rand, video_id = generate_video_id rand.

(** ** Invariants *)

(** [m] keeps [I], whether it returns or raises. *)
Definition preserves (I : World -> Prop) {A} (m : M A) : Prop :=
  hoare I m (fun _ => I) I.

(** The counters of the statistics agree with the tables: as many users
    counted as there are accounts, and the rows of the catalog related
    by [R] to the videos counted. *)
Definition counted (R : Z -> Z -> Prop) (w : World) : Prop :=
  default 0 (stats w !! "total_users"%string) = Z.of_nat (size (users w)) /\
  R (Z.of_nat (size (videos w))) (default 0 (stats w !! "total_videos"%string)).

(** Every row of the catalog is under a generated id and has a thumbnail,
    a title as [sanitize_title] makes them and a count of downloads that
    is not negative. *)
Definition catalog_ok (w : World) : Prop :=
  forall id row, videos w !! id = Some row ->
    generated id /\ truthy_ostr (vr_thumbnail_id row) = true /\
    vr_title row <> EmptyString /\ (str_len (vr_title row) <= 100)%nat /\
    0 <= vr_downloads row.

(** Every account has counters that are not negative, the one of the day
    no more than the lifetime total, no premium mark, and no download
    without a download date. *)
Definition ledger_ok (w : World) : Prop :=
  forall user_id r, users w !! user_id = Some r ->
    0 <= downloads_today r <= total_downloads r /\
    is_premium r = false /\
    (last_download_date r = None -> total_downloads r = 0).

(** Every pending post is filed under its own message id, is a video or
    a photo, and comes from the source channel when one is configured. *)
Definition pending_ok (cfg : Config) (w : World) : Prop :=
  forall k p, pending_posts w !! k = Some p ->
    p_message_id p = k /\
    (p_type p = "video"%string \/ p_type p = "photo"%string) /\
    (SOURCE_CHANNEL_ID cfg <> 0 -> p_chat_id p = SOURCE_CHANNEL_ID cfg).

(** A character of the decimal text of an integer. *)
Definition decimal_char (c : ascii) : bool :=
  let n := nat_of_ascii c in
  (Ascii.eqb c "-" || (48 <=? n) && (n <=? 57))%nat.

(** Every join request is filed under the decimal text of a chat id. *)
Definition join_requests_ok (w : World) : Prop :=
  forall user_id ch, (user_id, ch) ∈ join_requests w ->
    exists chat : Z, ch = pretty chat.

(** The part [field] of the state is the same. *)
Definition same_field {T} (field : World -> T) (w w' : World) : Prop :=
  field w' = field w.

(** ** bot.py, handlers/admin.py, handlers/user.py: text messages *)

(** [text == label], [text] being [update.message.text]. *)
Definition text_is (text : option string) (label : string) : bool :=
  match text with
  | Some t => String.eqb t label
  | None => false
  end.

Definition admin_buttons : list string :=
  [ "📤 Post Stats";
    "👥 Users";
    "🎬 Videos";
    "⚙️ Settings";
    "🔙 Back to Main" ]%string.

Definition user_buttons : list string :=
  [ "🔍 Search";
    "📊 My Stats";
    "👤 Profile";
    "❓ Help";
    "✅ I've Joined" ]%string.

(** The routing of text messages.  Texts are the UTF-8 strings the Bot
    API carries.  The handlers that only send a text of their own are
    left open: the routing is the same whatever they do. *)
Section Dispatch.
Context (cfg : Config) (env : Env) (ADMIN_IDS : list Z).
Context (show_post_stats show_user_stats show_video_list show_settings
         back_to_main : M unit).
Context (delete_video_handler : string -> M unit).
Context (handle_search handle_profile handle_help : M unit).

Definition handle_admin_button (update : Update) (text : option string)
  : M unit :=
  if negb (has_message update) then raise AttributeError
  else if negb (is_admin ADMIN_IDS (effective_user update)) then mret tt
  else if text_is text "📤 Post Stats" then show_post_stats
  else if text_is text "👥 Users" then show_user_stats
  else if text_is text "🎬 Videos" then show_video_list
  else if text_is text "⚙️ Settings" then show_settings
  else if text_is text "🔙 Back to Main" then back_to_main
  else
    match text with
    | None => raise AttributeError
    | Some t =>
        if startswith t "🗑️ Delete: " then
          delete_video_handler
            (strip (str_replace "🗑️ Delete: " EmptyString t))
        else mret tt
    end.

Definition handle_user_button (update : Update) (text : option string)
  : M unit :=
  if negb (has_message update) then raise AttributeError
  else if text_is text "🔍 Search" then handle_search
  else if text_is text "📊 My Stats" then handle_my_stats cfg env update
  else if text_is text "👤 Profile" then handle_profile
  else if text_is text "❓ Help" then handle_help
  else if text_is text "✅ I've Joined" then handle_start cfg env update None
  else mret tt.

Definition route_message (update : Update) (text : option string) : M unit :=
  if negb (has_message update) || negb (truthy_ostr text) then mret tt
  else
    let t := default EmptyString text in
    let user_id := effective_user update in
    if bool_decide (t ∈ admin_buttons) && bool_decide (user_id ∈ ADMIN_IDS)
    then handle_admin_button update text
    else if bool_decide (t ∈ user_buttons)
    then handle_user_button update text
    else mret tt.
End Dispatch.

(** ** The counts of downloads *)

(** The sum of a column over a table. *)
Definition total_of `{Countable K} {A} (g : A -> Z) (m : gmap K A) : Z :=
  map_fold (fun _ x acc => g x + acc) 0 m.

(** No row of the catalog has a negative count, and the sum of the
    videos' downloads and the sum of the accounts' lifetime totals are
    related by [Rv] and [Ru] to the counter of all downloads. *)
Definition downloads_ok (Rv Ru : Z -> Z -> Prop) (w : World) : Prop :=
  (forall id row, videos w !! id = Some row -> 0 <= vr_downloads row) /\
  Rv (total_of vr_downloads (videos w))
     (default 0 (stats w !! "total_downloads"%string)) /\
  Ru (total_of total_downloads (users w))
     (default 0 (stats w !! "total_downloads"%string)).

(** * Properties *)

(** Unfolding the plumbing of [M]. *)
Ltac msimpl :=
  repeat (progress (cbn in *;
                    unfold mret, M_ret, mbind, M_bind, raise, gets, modify, when,
                      execute in *;
                    cbn in *)).

(** ** Content ids and the start parameter *)

Lemma prefix_app (p s : string) :
  String.prefix p s = true <-> exists r, s = p +:+ r.
Proof.
  revert s. induction p as [|a p IH]; intros [|b s]; simpl.
  - split; [by exists EmptyString | done].
  - split; [by eexists | done].
  - split; [discriminate | intros [r Hr]; discriminate].
  - destruct (ascii_dec a b) as [->|Hab].
    + split.
      * intros H. apply IH in H as [r ->]. by exists r.
      * intros [r Hr]. apply IH. exists r. by injection Hr.
    + split; [discriminate | intros [r Hr]; injection Hr; congruence].
Qed.

Lemma secrets_choice_chars (r : nat) :
  is_lower_alnum (secrets_choice chars r) = true.
Proof.
  unfold secrets_choice.
  change (String.length chars) with 36%nat.
  pose proof (Nat.mod_upper_bound r 36 ltac:(lia)) as Hlt.
  generalize dependent (r mod 36)%nat. intros i Hi.
  do 36 (destruct i as [|i]; [reflexivity|]). lia.
Qed.

Lemma save_video_returns now rand sc mid title thumb w vid w' :
  db (save_video now rand sc mid title thumb) w = (Done vid, w') ->
  vid = generate_video_id rand.
Proof.
  unfold save_video, update_stats. msimpl.
  destruct (videos w !! generate_video_id rand); msimpl; congruence.
Qed.

(** C10.  A generated id is ["vid_"] followed by 8 characters, each a
    lowercase letter or a digit; [extract_video_id] returns a generated id
    unchanged, so the id [save_video] hands to the deep link of a post is
    the one a [/start] with that link is resolved to; and it returns
    [None] on every text that does not start with ["vid_"], the empty
    one included. *)
Theorem generated_id_roundtrip (rand : nat -> nat) (text : string) :
  let id := generate_video_id rand in
  (exists suffix,
      id = "vid_" +:+ suffix /\ String.length suffix = 8%nat /\
      Forall (fun c => is_lower_alnum c = true) (list_ascii_of_string suffix)) /\
  extract_video_id id = Some id /\
  (forall now sc mid title thumb w vid w',
      db (save_video now rand sc mid title thumb) w = (Done vid, w') ->
      extract_video_id vid = Some vid) /\
  ((forall rest, text <> "vid_" +:+ rest) -> extract_video_id text = None).
Proof.
  intros id. split; [|split; [reflexivity|split]].
  - eexists. split; [reflexivity|]. split; [reflexivity|].
    rewrite list_ascii_of_string_of_list_ascii. cbn.
    repeat constructor; apply secrets_choice_chars.
  - intros now sc mid title thumb w vid w' H.
    apply save_video_returns in H. subst vid. reflexivity.
  - intros Hno. unfold extract_video_id, startswith.
    destruct (String.prefix "vid_" text) eqn:Hp.
    + apply prefix_app in Hp as [r Hr]. by destruct (Hno r).
    + by rewrite andb_false_r.
Qed.

Lemma generated_id_roundtrip_witness :
  extract_video_id "hello" = None /\ extract_video_id EmptyString = None.
Proof.
  split.
  - apply (generated_id_roundtrip (fun _ => 0%nat) "hello").
    intros rest H; discriminate H.
  - apply (generated_id_roundtrip (fun _ => 0%nat) EmptyString).
    intros rest H; discriminate H.
Defined.

(** ** Quota ledger *)

Lemma get_user_run now uid w :
  db (get_user now uid) w =
  match users w !! uid with
  | Some r => (Done r, w)
  | None =>
      (Done (new_user_row now),
       set_stats (<["total_users"%string :=
                      match stats w !! "total_users"%string with
                      | Some v => v + 1
                      | None => 1
                      end]> (stats w))
         (set_users (<[uid := new_user_row now]> (users w)) w))
  end.
Proof.
  unfold get_user. msimpl.
  destruct (users w !! uid) eqn:Hu; msimpl; [done|].
  by rewrite Hu.
Qed.

Lemma check_daily_limit_run today uid limit w :
  exists w',
    db (check_daily_limit today uid limit) w =
      (Done (limit - counter_on today (account_of today uid w) >? 0,
             limit - counter_on today (account_of today uid w)), w') /\
    users w' =
      <[uid := {| joined_at := joined_at (account_of today uid w);
                  downloads_today := counter_on today (account_of today uid w);
                  last_download_date := Some today;
                  total_downloads := total_downloads (account_of today uid w);
                  is_premium := is_premium (account_of today uid w) |}]> (users w) /\
    videos w' = videos w /\ sent w' = sent w /\
    user_data w' = user_data w /\
    (forall k, k <> "total_users"%string -> stats w' !! k = stats w !! k).
Proof.
  unfold check_daily_limit, account_of, counter_on. msimpl.
  destruct (users w !! uid) as [r|] eqn:Hu; msimpl.
  - destruct (decide (last_download_date r = Some today)) as [Hd|Hd].
    + rewrite (bool_decide_eq_false_2 (last_download_date r ≠ Some today)) by tauto.
      rewrite (bool_decide_eq_true_2 _ Hd). msimpl.
      eexists; split; [reflexivity|]. repeat split; try done.
      destruct r; simpl in *; subst. by rewrite insert_id.
    + rewrite (bool_decide_eq_true_2 (last_download_date r ≠ Some today)) by tauto.
      rewrite (bool_decide_eq_false_2 _ Hd). msimpl.
      eexists; split; [reflexivity|]. repeat split; try done.
      simpl. apply map_eq; intros k. rewrite lookup_alter, lookup_insert.
      case_decide; simplify_eq; [by rewrite Hu|done].
  - rewrite Hu. msimpl.
    eexists; split; [reflexivity|]. repeat split; try done.
    + simpl. apply map_eq; intros k. rewrite lookup_alter, !lookup_insert.
      repeat case_decide; simplify_eq; done.
    + intros k Hk. simpl. by rewrite lookup_insert_ne.
Qed.

Lemma record_download_run today uid w :
  db (record_download today uid) w =
  (Done tt, set_users (alter (record_row today) uid (users w)) w).
Proof. reflexivity. Qed.

Lemma counter_on_stamped today r :
  last_download_date r = Some today -> counter_on today r = downloads_today r.
Proof. intros H. unfold counter_on. by rewrite bool_decide_eq_true_2. Qed.

Lemma counter_on_stale today r :
  last_download_date r <> Some today -> counter_on today r = 0.
Proof. intros H. unfold counter_on. by rewrite bool_decide_eq_false_2. Qed.

Lemma ledger_step_stamped today uid c op w :
  stamped_at_least today uid c w ->
  stamped_at_least today uid c (ledger_step today op w).
Proof.
  intros (r & Hr & Hd & Hc). destruct op as [u l|u]; unfold ledger_step.
  - destruct (check_daily_limit_run today u l w) as (w' & Hrun & Hus & _).
    rewrite Hrun. simpl. unfold stamped_at_least. rewrite Hus.
    destruct (decide (u = uid)) as [->|Hne].
    + rewrite lookup_insert_eq. eexists; split; [reflexivity|]. simpl.
      unfold account_of. rewrite Hr. simpl.
      by rewrite counter_on_stamped.
    + rewrite lookup_insert_ne by done. by exists r.
  - rewrite record_download_run. unfold stamped_at_least. simpl.
    rewrite lookup_alter.
    case_decide; simplify_eq.
    + rewrite Hr. simpl. eexists; split; [reflexivity|]. simpl. split; [done|lia].
    + by exists r.
Qed.

Lemma ledger_run_stamped today uid c ops w :
  stamped_at_least today uid c w ->
  stamped_at_least today uid c (ledger_run today ops w).
Proof.
  revert w. induction ops as [|op ops IH]; intros w H; simpl; [done|].
  apply IH. by apply ledger_step_stamped.
Qed.

Lemma ledger_step_not_stamped today uid d op w :
  d <> today \/ op_user op <> uid ->
  not_stamped today uid w -> not_stamped today uid (ledger_step d op w).
Proof.
  intros Hd Hn r. destruct op as [u l|u]; unfold ledger_step; simpl in Hd.
  - destruct (check_daily_limit_run d u l w) as (w' & Hrun & Hus & _).
    rewrite Hrun. simpl. rewrite Hus, lookup_insert.
    case_decide as Hu; [subst u|apply Hn].
    intros [= <-]. simpl. destruct Hd as [Hd|Hd]; congruence.
  - rewrite record_download_run. simpl.
    rewrite lookup_alter. case_decide as Hu; [subst u|apply Hn].
    destruct (users w !! uid); simpl; [|done].
    intros [= <-]. simpl. destruct Hd as [Hd|Hd]; congruence.
Qed.

Lemma dated_run_not_stamped today uid history w :
  Forall (fun x => fst x <> today \/ op_user (snd x) <> uid) history ->
  not_stamped today uid w -> not_stamped today uid (dated_run history w).
Proof.
  intros HF. revert w. induction HF as [|[d op] history Hd _ IH]; intros w H; simpl.
  - done.
  - apply IH. by apply ledger_step_not_stamped.
Qed.

(** C2, as the code has it.  [check_daily_limit] always returns.  It
    works on the stored account, or on the one it inserts when there is
    none; when the account's stored date is not today its counter is set
    to zero and its date to today in the table; [remaining] is the limit
    minus the counter so obtained and [allowed] is [remaining > 0].
    Hence: a check repeated later the same day, whatever checks and
    recorded downloads of that day lie between, returns no more than the
    earlier one; and a check of an account that is not stamped today
    returns the whole limit, as does the first check of a day before
    which no download of that account was recorded on that day, whatever
    happened on other days and to other accounts. *)
Theorem check_daily_limit_daily_reset (today user_id limit : Z) (w : World) :
  let account := account_of today user_id w in
  let counter := counter_on today account in
  (exists w',
      db (check_daily_limit today user_id limit) w =
        (Done (limit - counter >? 0, limit - counter), w') /\
      users w' !! user_id =
        Some {| joined_at := joined_at account; downloads_today := counter;
                last_download_date := Some today;
                total_downloads := total_downloads account;
                is_premium := is_premium account |}) /\
  (last_download_date account <> Some today -> counter = 0) /\
  (last_download_date account = Some today -> counter = downloads_today account) /\
  (forall ops r1 r2,
      remaining_of (db (check_daily_limit today user_id limit) w) = Some r1 ->
      remaining_of
        (db (check_daily_limit today user_id limit)
            (ledger_run today ops
               (snd (db (check_daily_limit today user_id limit) w)))) = Some r2 ->
      r2 <= r1) /\
  (last_download_date account <> Some today ->
   remaining_of (db (check_daily_limit today user_id limit) w) = Some limit) /\
  (forall history,
      not_stamped today user_id w ->
      Forall (fun x => fst x <> today \/ op_user (snd x) <> user_id) history ->
      remaining_of
        (db (check_daily_limit today user_id limit) (dated_run history w))
      = Some limit).
Proof.
  intros account counter.
  destruct (check_daily_limit_run today user_id limit w)
    as (w1 & Hrun & Hus & _).
  split; [|split; [|split; [|split; [|split]]]].
  - exists w1. split; [done|]. by rewrite Hus, lookup_insert_eq.
  - apply counter_on_stale.
  - apply counter_on_stamped.
  - intros ops r1 r2 H1 H2. rewrite Hrun in H1, H2.
    unfold remaining_of in H1. cbn [fst snd] in H1, H2. injection H1 as <-.
    revert H2.
    assert (stamped_at_least today user_id counter w1) as Hst.
    { unfold stamped_at_least. rewrite Hus, lookup_insert_eq.
      eexists; split; [reflexivity|]. simpl. split; [done|]. subst counter account. lia. }
    apply (ledger_run_stamped _ _ _ ops) in Hst as (r & Hr & Hd & Hc).
    destruct (check_daily_limit_run today user_id limit (ledger_run today ops w1))
      as (w2 & Hrun2 & _).
    rewrite Hrun2. unfold remaining_of. simpl. intros [= <-].
    unfold account_of in *. rewrite Hr. simpl.
    rewrite counter_on_stamped by done. subst counter account. lia.
  - intros Hstale. rewrite Hrun. unfold remaining_of. simpl. f_equal.
    fold account. rewrite counter_on_stale by done. lia.
  - intros history Hn HF.
    pose proof (dated_run_not_stamped today user_id history w HF Hn) as Hn'.
    destruct (check_daily_limit_run today user_id limit (dated_run history w))
      as (w2 & Hrun2 & _).
    rewrite Hrun2. unfold remaining_of. simpl. f_equal.
    rewrite counter_on_stale; [lia|].
    unfold account_of.
    destruct (users (dated_run history w) !! user_id) as [r|] eqn:Hr; simpl.
    + by apply Hn'.
    + done.
Qed.

Lemma check_daily_limit_daily_reset_witness :
  4 <= 5 /\
  remaining_of
    (db (check_daily_limit 10 1 5)
        (dated_run [(9, CheckOp 1 5); (9, RecordOp 1); (10, RecordOp 2)]
           empty_world)) = Some 5.
Proof.
  split.
  - apply (proj1 (proj2 (proj2 (proj2
             (check_daily_limit_daily_reset 10 1 5 empty_world))))
           [RecordOp 1] 5 4); reflexivity.
  - apply (check_daily_limit_daily_reset 10 1 5 empty_world).
    + intros r H. simpl in H. rewrite lookup_empty in H. discriminate H.
    + repeat constructor; simpl; lia.
Defined.

(** C2 as stated fails.  Under a limit of 300 with user 7 premium, user
    7 opens the statistics and fetches a video twice on day 9 and once
    more on day 10.  Premium deliveries are recorded without a check, and
    [record_download] stamps the account with the day without a reset:
    the account goes from 2 downloads stamped 9 to 3 stamped 10, and the
    first check of day 10 returns 297, not 300.  The same happens to
    any account when a delivery is checked on one day and recorded on the
    next: after a check and a recorded download on day 9, and a second
    delivery checked on day 9 and recorded on day 10, the first check of
    day 10 returns 298. *)
Lemma first_check_after_recorded_download :
  let cfg := config_with 300 [7] in
  let w9 := run_events cfg (calm_env 9) premium_day empty_world in
  let w10 := run_events cfg (calm_env 10)
               [Start (command_from 7) (Some ["vid_abcdefgh"%string])] w9 in
  users w9 !! 7
    = Some {| joined_at := 9; downloads_today := 2;
              last_download_date := Some 9; total_downloads := 2;
              is_premium := false |} /\
  users w10 !! 7
    = Some {| joined_at := 9; downloads_today := 3;
              last_download_date := Some 10; total_downloads := 3;
              is_premium := false |} /\
  fst (db (check_daily_limit 10 7 300) w10) = Done (true, 297) /\
  remaining_of
    (db (check_daily_limit 10 5 300)
        (dated_run [(9, CheckOp 5 300); (9, RecordOp 5);
                    (9, CheckOp 5 300); (10, RecordOp 5)] empty_world))
  = Some 298.
Proof. repeat split; vm_compute; reflexivity. Qed.

(** ** Frame rules *)

Section Frames.
Context (R : World -> World -> Prop).
Context (R_refl : forall w, R w w).
Context (R_trans : forall w1 w2 w3, R w1 w2 -> R w2 w3 -> R w1 w3).

Lemma frames_ret {A} (a : A) : frames R (mret a).
Proof. intros w. apply R_refl. Qed.

Lemma frames_raise {A} (e : exn) : frames R (@raise A e).
Proof. intros w. apply R_refl. Qed.

Lemma frames_gets {A} (f : World -> A) : frames R (gets f).
Proof. intros w. apply R_refl. Qed.

Lemma frames_modify (f : World -> World) :
  (forall w, R w (f w)) -> frames R (modify f).
Proof. intros H w. apply H. Qed.

Lemma frames_bind {A B} (m : M A) (k : A -> M B) :
  frames R m -> (forall a, frames R (k a)) -> frames R (m ≫= k).
Proof.
  intros Hm Hk w. unfold mbind, M_bind.
  specialize (Hm w). destruct (m w) as [[a|e] w1]; simpl in *; [|done].
  eapply R_trans; [exact Hm|apply Hk].
Qed.

Lemma frames_try {A} (body handler : M A) :
  frames R body -> frames R handler ->
  frames R (try_except_TelegramError body handler).
Proof.
  intros Hb Hh w. unfold try_except_TelegramError.
  specialize (Hb w). destruct (body w) as [[a|[]] w1]; simpl in *; try done.
  eapply R_trans; [exact Hb|apply Hh].
Qed.

Lemma frames_when (b : bool) (m : M unit) : frames R m -> frames R (when b m).
Proof. intros H. destruct b; [done|apply frames_ret]. Qed.

Lemma frames_for_each {A} (xs : list A) (body : A -> M unit) :
  (forall x, frames R (body x)) -> frames R (for_each xs body).
Proof.
  intros H. induction xs as [|x xs IH]; simpl; [apply frames_ret|].
  apply frames_bind; [apply H|done].
Qed.

Lemma frames_exec {B} (s : sql B) : writes_ok R s -> frames R (exec s).
Proof.
  intros H w. destruct s; simpl in *; try apply R_refl; try apply H.
  - destruct (videos w !! video_id); simpl; [apply R_refl|apply H].
  - destruct (users w !! user_id); simpl; [apply R_refl|apply H].
Qed.

Lemma frames_db {A} (p : DB A) : DB_writes_ok R p -> frames R (db p).
Proof.
  induction p as [a|B s k IH]; simpl; intros Hp; [apply frames_ret|].
  destruct Hp as [Hs Hk]. intros w.
  pose proof (frames_exec s Hs w) as Hw.
  destruct (exec s w) as [[b|e] w1]; simpl in *; [|done].
  eapply R_trans; [exact Hw|by apply IH].
Qed.
End Frames.

(** One rule per shape of handler code; the leaves are closed with the
    frame lemmas proved so far and the writes [R] is assumed to let
    through. *)
Ltac frames_go R_refl R_trans :=
  repeat (intros;
    lazymatch goal with
    | |- frames _ (mret _) => apply (frames_ret _ R_refl)
    | |- frames _ (raise _) => apply (frames_raise _ R_refl)
    | |- frames _ (gets _) => apply (frames_gets _ R_refl)
    | |- frames _ (modify _) => apply frames_modify
    | |- frames _ (_ ≫= _) => apply (frames_bind _ R_trans)
    | |- frames _ (try_except_TelegramError _ _) => apply (frames_try _ R_trans)
    | |- frames _ (when _ _) => apply (frames_when _ R_refl)
    | |- frames _ (for_each _ _) => apply (frames_for_each _ R_refl R_trans)
    | |- frames _ (db _) =>
        first [solve [eauto] | apply (frames_db _ R_refl R_trans); cbn]
    | |- frames _ (if ?b then _ else _) => destruct b
    | |- frames _ (match ?x with _ => _ end) => destruct x
    | |- _ /\ _ => split
    | |- True => exact I
    | _ => solve [eauto]
    end).

Section HandlerFrames.
Context (cfg : Config) (env : Env).
Context (R : World -> World -> Prop).
Context (R_refl : forall w, R w w).
Context (R_trans : forall w1 w2 w3, R w1 w2 -> R w2 w3 -> R w1 w3).
Context (R_media_groups : forall w v, R w (set_media_groups v w)).
Context (R_pending_posts : forall w v, R w (set_pending_posts v w)).
Context (R_videos : forall w v, R w (set_videos v w)).
Context (R_join_requests : forall w v, R w (set_join_requests v w)).
Context (R_stats : forall w v, R w (set_stats v w)).
Context (R_sent : forall w v, R w (set_sent v w)).

Lemma bot_call_frames c : frames R (bot_call env c).
Proof.
  intros w. unfold bot_call. destruct (accepts env c); simpl; apply R_sent.
Qed.

Lemma reply_text_frames update t : frames R (reply_text env update t).
Proof.
  unfold reply_text. pose proof bot_call_frames. frames_go R_refl R_trans.
Qed.

Lemma post_to_channels_frames video_id title thumb :
  frames R (post_to_channels cfg env video_id title thumb).
Proof.
  unfold post_to_channels, bot_get_me. pose proof bot_call_frames.
  frames_go R_refl R_trans.
Qed.

Lemma handle_media_group_frames message :
  frames R (handle_media_group cfg env message).
Proof.
  unfold handle_media_group, alter_group, save_video, update_stats, execute.
  pose proof post_to_channels_frames.
  frames_go R_refl R_trans.
Qed.

Lemma handle_reply_method_frames message replied_to :
  frames R (handle_reply_method cfg env message replied_to).
Proof.
  unfold handle_reply_method, save_video, update_stats, execute.
  pose proof post_to_channels_frames.
  frames_go R_refl R_trans.
Qed.

Lemma handle_channel_post_frames channel_post :
  frames R (handle_channel_post cfg env channel_post).
Proof.
  unfold handle_channel_post, store_pending.
  pose proof handle_media_group_frames. pose proof handle_reply_method_frames.
  frames_go R_refl R_trans.
Qed.

Lemma forward_video_to_user_frames user_id video_id :
  frames R (forward_video_to_user env user_id video_id).
Proof.
  unfold forward_video_to_user, get_video, increment_downloads, update_stats, execute.
  pose proof bot_call_frames.
  frames_go R_refl R_trans.
Qed.

Lemma check_membership_frames user_id channel_id :
  frames R (check_membership env user_id channel_id).
Proof.
  unfold check_membership, bot_get_chat_member.
  frames_go R_refl R_trans.
Qed.

Lemma check_channel_frames user_id channel_id info :
  frames R (check_channel env user_id channel_id info).
Proof.
  unfold check_channel, remove_join_request, has_join_request, execute.
  pose proof check_membership_frames.
  frames_go R_refl R_trans.
Qed.

Lemma check_channels_from_frames required user_id not_joined :
  frames R (check_channels_from env required user_id not_joined).
Proof.
  revert not_joined. induction required as [|[c i] rest IH]; intros nj.
  - apply (frames_ret _ R_refl).
  - simpl. pose proof check_channel_frames. frames_go R_refl R_trans.
Qed.

Lemma check_all_channels_frames user_id :
  frames R (check_all_channels cfg env user_id).
Proof.
  unfold check_all_channels. pose proof check_channels_from_frames.
  frames_go R_refl R_trans.
Qed.

Lemma on_join_request_frames user_id chat :
  frames R (on_join_request user_id chat).
Proof.
  unfold on_join_request, add_join_request, execute.
  frames_go R_refl R_trans.
Qed.
End HandlerFrames.

Section LedgerFrames.
Context (R : World -> World -> Prop).
Context (R_refl : forall w, R w w).
Context (R_trans : forall w1 w2 w3, R w1 w2 -> R w2 w3 -> R w1 w3).
Context (R_users : forall w v, R w (set_users v w)).
Context (R_stats : forall w v, R w (set_stats v w)).

Lemma check_daily_limit_frames today user_id limit :
  frames R (db (check_daily_limit today user_id limit)).
Proof.
  apply (frames_db _ R_refl R_trans). cbn. split; [exact I|].
  intros [r|]; cbn.
  - case_bool_decide; cbn; auto.
  - split; [done|]. intros r. split; [done|]. intros [].
    case_bool_decide; cbn; auto.
Qed.

Lemma record_download_frames today user_id :
  frames R (db (record_download today user_id)).
Proof. apply (frames_db _ R_refl R_trans). cbn. auto. Qed.

Lemma get_user_frames today user_id : frames R (db (get_user today user_id)).
Proof.
  apply (frames_db _ R_refl R_trans). cbn. split; [exact I|].
  intros [r|]; cbn; auto.
Qed.
End LedgerFrames.

(** ** Hoare rules *)

Lemma hoare_ret P {A} (a : A) (Q : A -> World -> Prop) E :
  (forall w, P w -> Q a w) -> hoare P (mret a) Q E.
Proof. intros H w Hw. by apply H. Qed.

Lemma hoare_bind P {A B} (m : M A) (k : A -> M B) Q Q' E :
  hoare P m Q E -> (forall a, hoare (Q a) (k a) Q' E) -> hoare P (m ≫= k) Q' E.
Proof.
  intros Hm Hk w Hw. unfold mbind, M_bind. specialize (Hm w Hw).
  destruct (m w) as [[a|e] w1]; [by apply Hk|done].
Qed.

Lemma hoare_conseq (P P' : World -> Prop) {A} (m : M A)
    (Q Q' : A -> World -> Prop) (E E' : World -> Prop) :
  hoare P m Q E -> (forall w, P' w -> P w) -> (forall a w, Q a w -> Q' a w) ->
  (forall w, E w -> E' w) -> hoare P' m Q' E'.
Proof.
  intros H HP HQ HE w Hw. specialize (H w (HP w Hw)).
  destruct (m w) as [[a|e] w1]; auto.
Qed.

(** What holds of the [users] table alone survives whatever leaves the
    table alone. *)
Lemma hoare_same_users (phi : gmap Z user_row -> Prop) {A} (m : M A) :
  frames same_users m ->
  hoare (fun w => phi (users w)) m (fun _ w => phi (users w))
        (fun w => phi (users w)).
Proof.
  intros Hf w Hw. specialize (Hf w). unfold same_users in Hf.
  destruct (m w) as [[a|e] w1]; simpl in *; by rewrite Hf.
Qed.

Lemma hoare_final P {A} (m : M A) (I : World -> Prop) :
  hoare P m (fun _ => I) I -> forall w, P w -> I (snd (m w)).
Proof.
  intros H w Hw. specialize (H w Hw). by destruct (m w) as [[a|e] w1].
Qed.

Lemma same_users_refl w : same_users w w.
Proof. done. Qed.

Lemma same_users_trans w1 w2 w3 :
  same_users w1 w2 -> same_users w2 w3 -> same_users w1 w3.
Proof. unfold same_users. congruence. Qed.

(** The handlers that never write to [users]. *)
Ltac same_users_frame lem :=
  apply lem;
  solve [exact same_users_refl | exact same_users_trans | intros; reflexivity].

Lemma reply_text_same_users env update t :
  frames same_users (reply_text env update t).
Proof. same_users_frame reply_text_frames. Qed.

Lemma bot_call_same_users env c : frames same_users (bot_call env c).
Proof. same_users_frame bot_call_frames. Qed.

Lemma forward_video_to_user_same_users env user_id video_id :
  frames same_users (forward_video_to_user env user_id video_id).
Proof. same_users_frame forward_video_to_user_frames. Qed.

Lemma check_all_channels_same_users cfg env user_id :
  frames same_users (check_all_channels cfg env user_id).
Proof. same_users_frame check_all_channels_frames. Qed.

Lemma handle_channel_post_same_users cfg env post :
  frames same_users (handle_channel_post cfg env post).
Proof. same_users_frame handle_channel_post_frames. Qed.

Lemma on_join_request_same_users user_id chat :
  frames same_users (on_join_request user_id chat).
Proof. same_users_frame on_join_request_frames. Qed.

(** ** The limit invariant *)

Section WithinLimit.
Context (cfg : Config) (env : Env).
Context (limit_nonneg : 0 <= DAILY_DOWNLOAD_LIMIT cfg).

Lemma check_daily_limit_within uid :
  hoare (within_limit cfg)
    (db (check_daily_limit (today env) uid (DAILY_DOWNLOAD_LIMIT cfg)))
    (fun r w => within_limit cfg w /\
                (fst r = true -> below_limit cfg (today env) uid w))
    (within_limit cfg).
Proof.
  intros w Hw.
  destruct (check_daily_limit_run (today env) uid (DAILY_DOWNLOAD_LIMIT cfg) w)
    as (w' & -> & Hus & _). simpl.
  assert (uid ∉ PREMIUM_USERS cfg ->
          counter_on (today env) (account_of (today env) uid w)
          <= DAILY_DOWNLOAD_LIMIT cfg) as Hc.
  { intros Hnp. unfold counter_on, account_of. case_bool_decide; [|done].
    destruct (users w !! uid) as [r|] eqn:Hr; simpl; [by eapply Hw|done]. }
  split.
  - intros u r. rewrite Hus, lookup_insert. case_decide; simplify_eq.
    + intros [= <-] Hnp. simpl. by apply Hc.
    + apply Hw.
  - intros Hallowed. apply Z.gtb_lt in Hallowed.
    unfold below_limit. rewrite Hus, lookup_insert_eq.
    eexists; split; [reflexivity|]. simpl. split; [done|lia].
Qed.

Lemma record_download_within uid :
  hoare (fun w => within_limit cfg w /\
                  (uid ∉ PREMIUM_USERS cfg -> below_limit cfg (today env) uid w))
    (db (record_download (today env) uid))
    (fun _ => within_limit cfg) (within_limit cfg).
Proof.
  intros w [Hw Hb]. rewrite record_download_run. intros u r. simpl.
  rewrite lookup_alter. case_decide; simplify_eq; [|apply Hw].
  destruct (users w !! u) as [r0|] eqn:Hr; simpl; [|done].
  intros [= <-] Hnp. simpl.
  destruct (Hb Hnp) as (r1 & Hr1 & _ & Hlt). simplify_eq. lia.
Qed.

Lemma within_limit_frame {A} (m : M A) :
  frames same_users m ->
  hoare (within_limit cfg) m (fun _ => within_limit cfg) (within_limit cfg).
Proof.
  intros Hf.
  apply (hoare_same_users
           (fun us => forall u r, us !! u = Some r -> u ∉ PREMIUM_USERS cfg ->
                                  downloads_today r <= DAILY_DOWNLOAD_LIMIT cfg) m Hf).
Qed.

Lemma deliver_video_within update uid video_id :
  hoare (within_limit cfg) (deliver_video cfg env update uid video_id)
    (fun _ => within_limit cfg) (within_limit cfg).
Proof.
  unfold deliver_video.
  set (P := fun w => within_limit cfg w /\
              (uid ∉ PREMIUM_USERS cfg -> below_limit cfg (today env) uid w)).
  eapply hoare_bind with
    (Q := fun (denied : bool) w => if denied then within_limit cfg w else P w).
  - case_bool_decide as Hp; simpl.
    + apply hoare_ret. intros w Hw. split; [done|tauto].
    + eapply hoare_bind; [apply check_daily_limit_within|].
      intros [allowed rem]. destruct allowed; simpl.
      * apply hoare_ret. intros w [Hw Hb]. split; [done|auto].
      * eapply hoare_bind with (Q := fun _ => within_limit cfg).
        -- eapply hoare_conseq;
             [apply (within_limit_frame _ (reply_text_same_users env update _))
             |intros w [Hw _]; exact Hw|auto|auto].
        -- intros []. by apply hoare_ret.
  - intros [|]; [by apply hoare_ret|].
    eapply hoare_bind with (Q := fun _ => P) (E := within_limit cfg).
    + intros w [Hw Hb].
      pose proof (forward_video_to_user_same_users env uid video_id w) as Hf.
      unfold same_users in Hf.
      destruct (forward_video_to_user env uid video_id w) as [[b|e] w1];
        simpl in Hf; unfold P, within_limit, below_limit; rewrite Hf; auto.
    + intros success. destruct success.
      * eapply hoare_bind; [apply record_download_within|].
        intros []. case_bool_decide as Hp; simpl.
        -- apply (within_limit_frame _ (reply_text_same_users env update _)).
        -- eapply hoare_bind.
           ++ eapply hoare_conseq; [apply check_daily_limit_within|auto..].
              intros a w H. exact H.
           ++ intros [a rem]. simpl.
              eapply hoare_conseq;
                [apply (within_limit_frame _ (reply_text_same_users env update _))
                |intros w [Hw _]; exact Hw|auto|auto].
      * eapply hoare_conseq;
          [apply (within_limit_frame _ (reply_text_same_users env update _))
          |intros w [Hw _]; exact Hw|auto|auto].
Qed.
End WithinLimit.

Lemma hoare_raise P {A} (e : exn) (Q : A -> World -> Prop) (E : World -> Prop) :
  (forall w, P w -> E w) -> hoare P (raise e) Q E.
Proof. intros H w Hw. by apply H. Qed.

Section Reachable.
Context (cfg : Config).
Context (limit_nonneg : 0 <= DAILY_DOWNLOAD_LIMIT cfg).

Lemma within_bind {A B} (m : M A) (k : A -> M B) :
  hoare (within_limit cfg) m (fun _ => within_limit cfg) (within_limit cfg) ->
  (forall a, hoare (within_limit cfg) (k a)
               (fun _ => within_limit cfg) (within_limit cfg)) ->
  hoare (within_limit cfg) (m ≫= k)
    (fun _ => within_limit cfg) (within_limit cfg).
Proof. intros Hm Hk. eapply hoare_bind; [exact Hm|exact Hk]. Qed.

Ltac leaf env :=
  apply (within_limit_frame cfg);
  first [ apply bot_call_same_users | apply reply_text_same_users
        | apply check_all_channels_same_users
        | apply (frames_gets _ same_users_refl)
        | apply frames_modify; intros; reflexivity ].

Ltac within_go env :=
  repeat (intros;
    lazymatch goal with
    | |- hoare _ (mret _) _ _ => apply hoare_ret; auto
    | |- hoare _ (raise _) _ _ => apply hoare_raise; auto
    | |- hoare _ (_ ≫= _) _ _ => apply within_bind
    | |- hoare _ (when _ _) _ _ => unfold when
    | |- hoare _ (if ?b then _ else _) _ _ => destruct b
    | |- hoare _ (match ?x with _ => _ end) _ _ => destruct x
    | |- hoare _ (deliver_video _ _ _ _ _) _ _ =>
        apply (deliver_video_within cfg env limit_nonneg)
    | |- hoare _ _ _ _ => leaf env
    end).

Lemma handle_start_within env update args :
  hoare (within_limit cfg) (handle_start cfg env update args)
    (fun _ => within_limit cfg) (within_limit cfg).
Proof. unfold handle_start. within_go env. Qed.

Lemma handle_verify_callback_within env update :
  hoare (within_limit cfg) (handle_verify_callback cfg env update)
    (fun _ => within_limit cfg) (within_limit cfg).
Proof. unfold handle_verify_callback. within_go env. Qed.

Lemma get_user_within env uid :
  hoare (within_limit cfg) (db (get_user (today env) uid))
    (fun _ => within_limit cfg) (within_limit cfg).
Proof.
  intros w Hw. rewrite get_user_run.
  destruct (users w !! uid) as [r|] eqn:Hr; [done|].
  intros u r. simpl. rewrite lookup_insert. case_decide; simplify_eq.
  - by intros [= <-] _.
  - apply Hw.
Qed.

Lemma handle_my_stats_within env update :
  hoare (within_limit cfg) (handle_my_stats cfg env update)
    (fun _ => within_limit cfg) (within_limit cfg).
Proof.
  unfold handle_my_stats.
  eapply hoare_bind; [apply get_user_within|]. intros user.
  eapply hoare_bind.
  - eapply hoare_conseq;
      [apply (check_daily_limit_within cfg env limit_nonneg)|auto..].
    intros a w H. exact H.
  - intros [a rem]. simpl.
    eapply hoare_conseq;
      [apply (within_limit_frame cfg _ (reply_text_same_users env update _))
      |intros w [Hw _]; exact Hw|auto|auto].
Qed.

Lemma handle_profile_within env update :
  hoare (within_limit cfg) (handle_profile cfg env update)
    (fun _ => within_limit cfg) (within_limit cfg).
Proof.
  unfold handle_profile.
  eapply hoare_bind; [apply get_user_within|]. intros user.
  apply (within_limit_frame cfg _ (reply_text_same_users env update _)).
Qed.

Lemma handle_within env e :
  hoare (within_limit cfg) (handle cfg env e)
    (fun _ => within_limit cfg) (within_limit cfg).
Proof.
  destruct e; simpl.
  - apply within_limit_frame, handle_channel_post_same_users.
  - apply handle_start_within.
  - apply handle_verify_callback_within.
  - apply handle_my_stats_within.
  - apply handle_profile_within.
  - apply within_limit_frame, on_join_request_same_users.
Qed.

Lemma reachable_within_limit w : reachable cfg w -> within_limit cfg w.
Proof.
  induction 1 as [|w w' _ IH (env & e & <-)].
  - intros u r H. simpl in H. by rewrite lookup_empty in H.
  - by apply (hoare_final _ _ _ (handle_within env e)).
Qed.
End Reachable.

Lemma reachable_run_events cfg env es w :
  reachable cfg w -> reachable cfg (run_events cfg env es w).
Proof.
  revert w. induction es as [|e es IH]; intros w Hw; simpl; [done|].
  apply IH. eapply reachable_step; [exact Hw|]. by exists env, e.
Qed.

(** ** Membership gate *)

Lemma check_membership_run env user_id channel_id w :
  check_membership env user_id channel_id w
  = (Done (live_member env user_id channel_id), w).
Proof.
  unfold check_membership, live_member, try_except_TelegramError,
    bot_get_chat_member.
  destruct (get_chat_member env (membership_chat channel_id) user_id); reflexivity.
Qed.

Lemma check_channel_run env w user_id channel_id info :
  check_channel env user_id channel_id info w =
    (Done (live_member env user_id channel_id
           || marked_private info && recorded w user_id channel_id),
     if live_member env user_id channel_id then
       set_join_requests (join_requests w ∖ {[(user_id, py_str channel_id)]}) w
     else w).
Proof.
  unfold check_channel. unfold mbind at 1, M_bind at 1.
  rewrite check_membership_run.
  destruct (live_member env user_id channel_id); simpl; [reflexivity|].
  unfold marked_private, recorded.
  destruct (String.eqb (default "public"%string (ci_type info)) "private");
    reflexivity.
Qed.

(** ** Standalone posts *)

(** C9.  A post of the source channel with no media group id and no
    reply, being a video or a photo, is handled without raising; it is
    stored in [pending_posts] under its message id, and nothing else
    changes: no row is added to [videos], no counter moves, and no call
    goes out to any channel. *)
Theorem standalone_post_is_stored (cfg : Config) (env : Env) (w : World)
    (m : Message) :
  chat_id m = SOURCE_CHANNEL_ID cfg ->
  truthy_ostr (media_group_id m) = false ->
  reply_to_message m = None ->
  is_Some (video m) \/ photo m <> [] ->
  let stored :=
    {| p_type := match video m with Some _ => "video" | None => "photo" end;
       p_file_id := match video m with
                    | Some v => v_file_id v
                    | None => photo_last (photo m)
                    end;
       p_message_id := message_id m;
       p_chat_id := chat_id m;
       p_caption := caption m |} in
  let w' := snd (handle_channel_post cfg env (Some m) w) in
  handle_channel_post cfg env (Some m) w
    = (Done tt, set_pending_posts (<[message_id m := stored]> (pending_posts w)) w) /\
  pending_posts w' !! message_id m = Some stored /\
  videos w' = videos w /\ stats w' = stats w /\ sent w' = sent w /\
  media_groups w' = media_groups w.
Proof.
  intros Hsrc Hgid Hreply Hmedia stored w'.
  assert (handle_channel_post cfg env (Some m) w
    = (Done tt, set_pending_posts (<[message_id m := stored]> (pending_posts w)) w))
    as Heq.
  { assert (truthy_int (SOURCE_CHANNEL_ID cfg)
            && negb (chat_id m =? SOURCE_CHANNEL_ID cfg) = false) as Hguard.
    { rewrite Hsrc, Z.eqb_refl. apply andb_false_r. }
    unfold handle_channel_post. rewrite Hguard, Hgid, Hreply. subst stored.
    destruct (video m) as [v|]; [reflexivity|].
    destruct Hmedia as [[? [=]]|Hp].
    destruct (photo m); [done|reflexivity]. }
  subst w'. rewrite Heq. simpl. split; [done|].
  split; [apply lookup_insert_eq|done].
Qed.

Lemma standalone_post_is_stored_witness :
  sent (snd (handle_channel_post shipped_config (calm_env 10)
               (Some (video_post 5 None (Some "Movie"%string) "V" None None))
               empty_world)) = [].
Proof.
  apply (standalone_post_is_stored shipped_config (calm_env 10) empty_world
           (video_post 5 None (Some "Movie"%string) "V" None None)).
  - reflexivity.
  - reflexivity.
  - reflexivity.
  - left. simpl. eauto.
Defined.

(** ** Pairing by reply *)

(** The title of the caption ["**Big Movie**\nmore text"]. *)
Example sanitize_title_big_movie :
  sanitize_title (Some ("**Big Movie**" +:+ String "010" "more text"))
  = "Big Movie"%string.
Proof. reflexivity. Qed.

Lemma save_video_run now rand sc mid title thumb w :
  videos w !! generate_video_id rand = None ->
  db (save_video now rand sc mid title thumb) w
  = (Done (generate_video_id rand),
     saved (generate_video_id rand) (new_video_row now sc mid title thumb) w).
Proof.
  intros Hfree. unfold save_video, update_stats. msimpl. by rewrite Hfree.
Qed.


Lemma increment_downloads_run video_id w :
  db (increment_downloads video_id) w
  = (Done tt,
     set_stats (<["total_downloads"%string :=
                    match stats w !! "total_downloads"%string with
                    | Some v => v + 1
                    | None => 1
                    end]> (stats w))
       (set_videos (alter bump_downloads video_id (videos w)) w)).
Proof. reflexivity. Qed.

(** From here on database functions are run through their lemmas only. *)
#[local] Arguments db : simpl never.




(** ** Pairing by media group *)

Lemma post_to_channels_loop env (channels : list target_channel)
    (thumb title url : string) w :
  for_each channels (fun channel =>
    try_except_TelegramError
      (bot_call env (SendPhoto (tc_id channel) thumb title url)) (mret tt)) w
  = (Done tt,
     set_sent (sent w ++
               map (fun channel =>
                      (SendPhoto (tc_id channel) thumb title url,
                       accepts env (SendPhoto (tc_id channel) thumb title url)))
                   channels) w).
Proof.
  revert w. induction channels as [|ch rest IH]; intros w.
  - simpl. unfold mret, M_ret. rewrite app_nil_r. by destruct w.
  - simpl. unfold mbind, M_bind, try_except_TelegramError, bot_call.
    destruct (accepts env (SendPhoto (tc_id ch) thumb title url)) eqn:Hacc;
      simpl; rewrite IH; simpl; by rewrite <- app_assoc.
Qed.

Lemma post_to_channels_run cfg env video_id title thumb w :
  get_me env <> None \/ TARGET_CHANNELS cfg = [] ->
  post_to_channels cfg env video_id title thumb w
  = (Done tt,
     set_sent (sent w ++
               publish_log cfg env (default EmptyString (get_me env))
                 video_id title thumb) w).
Proof.
  intros Hok. unfold post_to_channels, publish_log.
  destruct (TARGET_CHANNELS cfg) as [|ch rest] eqn:Hch.
  - simpl. unfold mret, M_ret. rewrite app_nil_r. by destruct w.
  - destruct Hok as [Hme|?]; [|done].
    unfold bot_get_me. destruct (get_me env) as [bot|]; [|done].
    cbn [truthy_list negb default]. unfold mbind at 1, M_bind at 1. cbn [mret M_ret].
    apply post_to_channels_loop.
Qed.

Lemma alter_present {V} (f : V -> V) (k : string) (x : V) (m : gmap string V) :
  m !! k = Some x -> alter f k m = <[k := f x]> m.
Proof.
  intros H. apply map_eq; intros j. rewrite lookup_alter, lookup_insert.
  case_decide; simplify_eq; [by rewrite H|done].
Qed.

Lemma handle_media_group_run cfg env m w :
  let gid := default EmptyString (media_group_id m) in
  let g := group_after m w in
  let w1 := set_media_groups (<[gid := g]> (media_groups w)) w in
  handle_media_group cfg env m w =
    if ready g then
      (video_id ← db (save_video (today env) (randbelow env) (g_chat_id g)
                        (default 0 (g_video_message_id g))
                        (sanitize_title (g_caption g)) (g_photo g));
       post_to_channels cfg env video_id (sanitize_title (g_caption g))
         (default EmptyString (g_photo g));;
       modify (fun w => set_media_groups (delete gid (media_groups w)) w)) w1
    else (Done tt, w1).
Proof.
  intros gid g w1. subst g w1. unfold handle_media_group, group_after, alter_group, ready.
  fold gid. clearbody gid.
  destruct w as [mg pp ud vs us jr st sn]; simpl in *.
  destruct (mg !! gid) as [g0|] eqn:Hg0;
    destruct (truthy_list (photo m));
    destruct (truthy_ostr (caption m));
    destruct (video m) as [v|]; msimpl;
    rewrite ?Hg0; msimpl.
  all: repeat first
         [ rewrite alter_insert_eq
         | rewrite (alter_present _ _ _ _ Hg0)
         | rewrite insert_insert_eq
         | rewrite lookup_insert_eq ]; msimpl.
  all: rewrite ?(insert_id _ _ _ Hg0), ?Hg0; msimpl.
  all: unfold set_media_groups; cbn; try reflexivity.
  all: match goal with
       | |- context [if ?b then _ else _] => destruct b
       end; reflexivity.
Qed.
Lemma truthy_list_nonempty {A} (l : list A) : l <> [] -> truthy_list l = true.
Proof. by destruct l. Qed.

Lemma ready_one_slot (m : Message) (w : World) :
  media_groups w !! default EmptyString (media_group_id m) = None ->
  photo m = [] \/ video m = None ->
  ready (group_after m w) = false.
Proof.
  intros Hfree Hone. unfold group_after, ready. rewrite Hfree. simpl.
  destruct Hone as [Hp|Hv].
  - rewrite Hp. simpl. destruct (video m); [|done].
    by destruct (truthy_ostr (caption m)).
  - rewrite Hv. destruct (truthy_list (photo m)); [|done].
    destruct (truthy_ostr (caption m)); simpl; apply andb_false_r.
Qed.

Lemma handle_media_group_stores cfg env m w :
  ready (group_after m w) = false ->
  handle_media_group cfg env m w
  = (Done tt,
     set_media_groups
       (<[default EmptyString (media_group_id m) := group_after m w]>
          (media_groups w)) w).
Proof. intros H. rewrite handle_media_group_run. cbv zeta. by rewrite H. Qed.

Lemma handle_media_group_completes cfg env m w :
  ready (group_after m w) = true ->
  videos w !! generate_video_id (randbelow env) = None ->
  get_me env <> None \/ TARGET_CHANNELS cfg = [] ->
  let g := group_after m w in
  let id := generate_video_id (randbelow env) in
  let title := sanitize_title (g_caption g) in
  let row := new_video_row (today env) (g_chat_id g)
               (default 0 (g_video_message_id g)) title (g_photo g) in
  handle_media_group cfg env m w
  = (Done tt,
     set_media_groups (delete (default EmptyString (media_group_id m)) (media_groups w))
       (set_sent (sent w ++ publish_log cfg env (default EmptyString (get_me env))
                              id title (default EmptyString (g_photo g)))
          (saved id row w))).
Proof.
  intros Hready Hfree Hme g id title row.
  subst g id title row. rewrite handle_media_group_run. cbv zeta. rewrite Hready.
  unfold mbind at 1, M_bind at 1.
  rewrite save_video_run by done.
  unfold mbind, M_bind. rewrite post_to_channels_run by done.
  unfold modify. simpl. f_equal.
  unfold set_media_groups, set_sent, saved, set_stats, set_videos. simpl.
  by rewrite delete_insert_eq.
Qed.

(** C1, as the code has it.  Two messages of one media group, a photo
    and a video in either order, met with no entry for the group: the
    first is stored and publishes nothing; with the second both slots are
    filled, one row is saved, the counter of saved videos goes up by one,
    one round of posts goes out and the entry is removed -- provided the
    generated id is unused and the bot's identity lookup does not fail (or
    no target channel is configured).  A later message of the same
    group, photo or video, publishes nothing; it opens a new entry for
    the group, which stays. *)
Theorem media_group_completes_once (cfg : Config) (env1 env2 env3 : Env)
    (w : World) (gid : string) (m1 m2 m3 : Message) :
  (photo_of_group gid m1 /\ video_of_group gid m2) \/
  (video_of_group gid m1 /\ photo_of_group gid m2) ->
  media_group_id m3 = Some gid -> photo m3 = [] \/ video m3 = None ->
  media_groups w !! gid = None ->
  videos w !! generate_video_id (randbelow env2) = None ->
  get_me env2 <> None \/ TARGET_CHANNELS cfg = [] ->
  let w1 := snd (handle_media_group cfg env1 m1 w) in
  let w2 := snd (handle_media_group cfg env2 m2 w1) in
  let w3 := snd (handle_media_group cfg env3 m3 w2) in
  let id := generate_video_id (randbelow env2) in
  let title := sanitize_title (group_caption m1 m2) in
  let row := new_video_row (today env2) (chat_id m1) (the_video_message m1 m2)
               title (Some (the_photo m1 m2)) in
  (is_Some (media_groups w1 !! gid) /\
   videos w1 = videos w /\ stats w1 = stats w /\ sent w1 = sent w) /\
  (media_groups w2 !! gid = None /\
   videos w2 = <[id := row]> (videos w) /\
   stats w2 !! "total_videos"%string
     = Some (default 0 (stats w !! "total_videos"%string) + 1) /\
   sent w2 = sent w ++ publish_log cfg env2 (default EmptyString (get_me env2))
                         id title (the_photo m1 m2)) /\
  (videos w3 = videos w2 /\ stats w3 = stats w2 /\ sent w3 = sent w2 /\
   media_groups w3 !! gid = Some (group_after m3 w2) /\
   ready (group_after m3 w2) = false).
Proof.
  intros Horder Hg3 Hone3 Hnone Hfree Hme w1 w2 w3 id title row.
  assert (exists g1,
      handle_media_group cfg env1 m1 w
      = (Done tt, set_media_groups (<[gid := g1]> (media_groups w)) w) /\
      group_after m2 (set_media_groups (<[gid := g1]> (media_groups w)) w)
      = {| g_photo := Some (the_photo m1 m2);
           g_video_file_id := v_file_id <$> (match video m1 with Some v => Some v | None => video m2 end);
           g_video_message_id := Some (the_video_message m1 m2);
           g_caption := group_caption m1 m2;
           g_chat_id := chat_id m1 |} /\
      ready (group_after m2 (set_media_groups (<[gid := g1]> (media_groups w)) w)) = true /\
      media_group_id m2 = Some gid) as (g1 & Hrun1 & Hg2 & Hready2 & Hgid2).
  { destruct Horder as [[(Hgid1 & Hp1 & Ht1 & Hv1) (Hgid2 & Hp2 & v & Hv2 & Ht2)]
                       |[(Hgid1 & Hp1 & v & Hv1 & Ht1) (Hgid2 & Hp2 & Ht2 & Hv2)]].
    - exists (group_after m1 w). split; [|split; [|split; [|done]]].
      + rewrite handle_media_group_stores; [by rewrite Hgid1|].
        apply ready_one_slot; [by rewrite Hgid1|by right].
      + unfold group_after, the_photo, the_video_message, group_caption.
        rewrite Hgid1, Hgid2, Hp2, Hv1, Hv2. simpl.
        rewrite lookup_insert_eq, Hnone. simpl.
        rewrite (truthy_list_nonempty _ Hp1).
        destruct (truthy_ostr (caption m1)), (truthy_ostr (caption m2)); reflexivity.
      + unfold group_after, ready.
        rewrite Hgid1, Hgid2, Hp2, Hv1, Hv2. simpl.
        rewrite lookup_insert_eq, Hnone. simpl.
        rewrite (truthy_list_nonempty _ Hp1).
        destruct (truthy_ostr (caption m1)), (truthy_ostr (caption m2)); simpl;
          by rewrite Ht1, Ht2.
    - exists (group_after m1 w). split; [|split; [|split; [|done]]].
      + rewrite handle_media_group_stores; [by rewrite Hgid1|].
        apply ready_one_slot; [by rewrite Hgid1|by left].
      + unfold group_after, the_photo, the_video_message, group_caption.
        rewrite Hgid1, Hgid2, Hp1, Hv1, Hv2. simpl.
        rewrite lookup_insert_eq, Hnone. simpl.
        rewrite (truthy_list_nonempty _ Hp2).
        destruct (truthy_ostr (caption m1)), (truthy_ostr (caption m2)); reflexivity.
      + unfold group_after, ready.
        rewrite Hgid1, Hgid2, Hp1, Hv1, Hv2. simpl.
        rewrite lookup_insert_eq, Hnone. simpl.
        rewrite (truthy_list_nonempty _ Hp2).
        destruct (truthy_ostr (caption m1)), (truthy_ostr (caption m2)); simpl;
          by rewrite Ht1, Ht2. }
  pose proof (handle_media_group_completes cfg env2 m2 _ Hready2 Hfree Hme) as Hrun2.
  cbv zeta in Hrun2. rewrite Hg2, Hgid2 in Hrun2.
  simpl in Hrun2.
  subst w3 w2 w1. rewrite Hrun1. cbn [snd]. rewrite Hrun2. cbn [snd].
  split; [|split].
  - simpl. rewrite lookup_insert_eq. eauto.
  - simpl. rewrite lookup_delete_eq, lookup_insert_eq.
    repeat split; try done.
    destruct (stats w !! "total_videos"%string); simpl; f_equal; lia.
  - rewrite handle_media_group_stores.
    + simpl. rewrite Hg3. simpl. rewrite lookup_insert_eq.
      repeat split; try done.
      apply ready_one_slot; [|done].
      rewrite Hg3. simpl. apply lookup_delete_eq.
    + apply ready_one_slot; [|done].
      rewrite Hg3. simpl. apply lookup_delete_eq.
Qed.

Lemma media_group_completes_once_witness :
  let env := calm_env 10 in
  let w1 := snd (handle_media_group shipped_config env group_photo empty_world) in
  let w2 := snd (handle_media_group shipped_config env group_video w1) in
  let w3 := snd (handle_media_group shipped_config env late_photo w2) in
  media_groups w2 !! "g"%string = None /\
  stats w2 !! "total_videos"%string = Some 1 /\
  videos w3 = videos w2.
Proof.
  intros env w1 w2 w3.
  destruct (media_group_completes_once shipped_config env env env empty_world
              "g" group_photo group_video late_photo)
    as (_ & (H2 & _ & H2s & _) & (H3 & _)).
  - left. split.
    + split; [reflexivity|]. split; [discriminate|]. split; reflexivity.
    + split; [reflexivity|]. split; [reflexivity|].
      eexists. split; reflexivity.
  - reflexivity.
  - right. reflexivity.
  - reflexivity.
  - reflexivity.
  - left. discriminate.
  - split; [exact H2|]. split; [exact H2s|exact H3].
Defined.

(** C1 as stated fails: after the pair of group "g" is complete, a third
    message with that group id leaves an entry for "g" in [media_groups],
    and a fourth completes that entry, so a second row is saved and a
    second round of posts goes out. *)
Lemma late_group_message_reopens_group :
  let env := calm_env 10 in
  let after_pair :=
    run_events shipped_config env
      [ChannelPost (Some group_photo); ChannelPost (Some group_video)] empty_world in
  let after_third :=
    run_events shipped_config env [ChannelPost (Some late_photo)] after_pair in
  let after_fourth :=
    run_events shipped_config (with_draws (fun i => S i) env)
      [ChannelPost (Some late_video)] after_third in
  media_groups after_pair !! "g"%string = None /\
  stats after_pair !! "total_videos"%string = Some 1 /\
  length (sent after_pair) = 2%nat /\
  media_groups after_third !! "g"%string
    = Some {| g_photo := Some "P2"%string; g_video_file_id := None;
              g_video_message_id := None; g_caption := None;
              g_chat_id := SOURCE_CHANNEL_ID shipped_config |} /\
  after_third <> after_pair /\
  stats after_fourth !! "total_videos"%string = Some 2 /\
  length (sent after_fourth) = 4%nat.
Proof.
  intros env after_pair after_third after_fourth.
  assert (media_groups after_pair !! "g"%string = None) as Hnone
    by (vm_compute; reflexivity).
  assert (media_groups after_third !! "g"%string
          = Some {| g_photo := Some "P2"%string; g_video_file_id := None;
                    g_video_message_id := None; g_caption := None;
                    g_chat_id := SOURCE_CHANNEL_ID shipped_config |}) as Hsome
    by (vm_compute; reflexivity).
  repeat split; try (vm_compute; reflexivity); try assumption.
  intros Heq. rewrite Heq, Hnone in Hsome. discriminate Hsome.
Qed.

(** ** Delivery *)

Lemma get_video_run video_id w :
  db (get_video video_id) w = (Done (videos w !! video_id), w).
Proof. reflexivity. Qed.

Lemma forward_video_to_user_refused env user_id video_id vd w :
  videos w !! video_id = Some vd ->
  accepts env (ForwardMessage user_id (vr_source_channel vd) (vr_message_id vd))
    = false ->
  forward_video_to_user env user_id video_id w
  = (Done false,
     set_sent (sent w ++
               [(ForwardMessage user_id (vr_source_channel vd) (vr_message_id vd),
                 false)]) w).
Proof.
  intros Hv Hacc. unfold forward_video_to_user.
  unfold mbind at 1, M_bind at 1. rewrite get_video_run, Hv.
  unfold try_except_TelegramError, mbind, M_bind, bot_call. by rewrite Hacc.
Qed.

Lemma reply_text_run env update t w :
  has_message update = true ->
  reply_text env update t w
  = (if accepts env (ReplyText (effective_user update) t)
     then Done tt else Raised TelegramError,
     set_sent (sent w ++
               [(ReplyText (effective_user update) t,
                 accepts env (ReplyText (effective_user update) t))]) w).
Proof.
  intros Hm. unfold reply_text, bot_call. rewrite Hm.
  by destruct (accepts env _).
Qed.

Lemma reply_text_same_tables env update t :
  frames same_tables (reply_text env update t).
Proof.
  apply reply_text_frames; unfold same_tables; done.
Qed.

(** C3, as the code has it.  When the transport refuses the forward of an
    existing video, [deliver_video] increments nothing: the [videos] table
    and the counter of downloads are as before; for a premium user the
    [users] table is as before; for any other user it is as the quota
    check leaves it, so the lifetime total is as before and the daily
    counter keeps its value when the account was stamped today and is
    zero when it was not.  When the quota let the user through and the
    update is a message, the log gains the refused forward and then the
    not-found text. *)
Theorem refused_forward_credits_nothing (cfg : Config) (env : Env)
    (update : Update) (video_id : string) (vd : video_row) (w : World) :
  let user_id := effective_user update in
  let forward := ForwardMessage user_id (vr_source_channel vd) (vr_message_id vd) in
  let not_found := ReplyText user_id VIDEO_NOT_FOUND_MESSAGE in
  videos w !! video_id = Some vd ->
  accepts env forward = false ->
  let w' := snd (deliver_video cfg env update user_id video_id w) in
  videos w' = videos w /\
  stats w' !! "total_downloads"%string = stats w !! "total_downloads"%string /\
  (user_id ∈ PREMIUM_USERS cfg -> users w' = users w) /\
  (user_id ∉ PREMIUM_USERS cfg ->
   users w' = <[user_id := checked_row (today env)
                             (account_of (today env) user_id w)]> (users w)) /\
  (forall r, users w !! user_id = Some r ->
     exists r', users w' !! user_id = Some r' /\
       total_downloads r' = total_downloads r /\
       (downloads_today r' = downloads_today r \/
        last_download_date r <> Some (today env) /\ downloads_today r' = 0)) /\
  (quota_open cfg (today env) user_id w = true -> has_message update = true ->
   sent w' = sent w ++ [(forward, false); (not_found, accepts env not_found)]).
Proof.
  intros user_id forward not_found Hv Hacc w'.
  assert (videos w' = videos w /\
          stats w' !! "total_downloads"%string = stats w !! "total_downloads"%string /\
          (user_id ∈ PREMIUM_USERS cfg -> users w' = users w) /\
          (user_id ∉ PREMIUM_USERS cfg ->
           users w' = <[user_id := checked_row (today env)
                                     (account_of (today env) user_id w)]> (users w)) /\
          (quota_open cfg (today env) user_id w = true -> has_message update = true ->
           sent w' = sent w ++ [(forward, false); (not_found, accepts env not_found)]))
    as (Hvid & Hst & Hprem & Hreg & Hsent).
  { unfold quota_open. subst w'.
    remember (deliver_video cfg env update user_id video_id w) as res eqn:Hres.
    unfold deliver_video in Hres.
    destruct (decide (user_id ∈ PREMIUM_USERS cfg)) as [Hp|Hp].
    - rewrite (bool_decide_eq_true_2 _ Hp) in *. cbn [negb orb] in *.
      unfold mbind at 1, M_bind at 1 in Hres. cbn [mret M_ret] in Hres.
      unfold mbind at 1, M_bind at 1 in Hres.
      rewrite (forward_video_to_user_refused env user_id video_id vd w Hv Hacc)
        in Hres.
      cbv beta iota in Hres.
      match type of Hres with
      | _ = reply_text env update ?t ?w0 =>
          pose proof (reply_text_same_tables env update t w0) as (Hu & Hvi & Hs & _);
          pose proof (reply_text_run env update t w0) as Hrun
      end.
      subst res. simpl in Hu, Hvi, Hs.
      split; [done|]. split; [by rewrite Hs|]. split; [done|]. split; [done|].
      intros _ Hm. rewrite (Hrun Hm). simpl. by rewrite <- app_assoc.
    - rewrite (bool_decide_eq_false_2 _ Hp) in *. cbn [negb orb] in *.
      destruct (check_daily_limit_run (today env) user_id
                  (DAILY_DOWNLOAD_LIMIT cfg) w)
        as (w1 & Hrun1 & Hus1 & Hvid1 & Hsent1 & _ & Hst1).
      unfold mbind at 1, M_bind at 1 in Hres.
      unfold mbind at 1, M_bind at 1 in Hres.
      rewrite Hrun1 in Hres. cbv beta iota in Hres.
      destruct (DAILY_DOWNLOAD_LIMIT cfg
                - counter_on (today env) (account_of (today env) user_id w) >? 0)
        eqn:Hopen; cbn [negb] in Hres.
      + cbn [mret M_ret] in Hres. unfold mbind at 1, M_bind at 1 in Hres.
        assert (videos w1 !! video_id = Some vd) as Hv1 by by rewrite Hvid1.
        rewrite (forward_video_to_user_refused env user_id video_id vd w1 Hv1 Hacc)
          in Hres.
        cbv beta iota in Hres.
        match type of Hres with
        | _ = reply_text env update ?t ?w0 =>
            pose proof (reply_text_same_tables env update t w0) as (Hu & Hvi & Hs & _);
            pose proof (reply_text_run env update t w0) as Hrun
        end.
        subst res. simpl in Hu, Hvi, Hs.
        split; [congruence|]. split; [rewrite Hs; by apply Hst1|].
        split; [done|]. split; [intros _; by rewrite Hu, Hus1|].
        intros _ Hm. rewrite (Hrun Hm). simpl. by rewrite Hsent1, <- app_assoc.
      + unfold mbind at 1, M_bind at 1 in Hres.
        match type of Hres with
        | context [reply_text env update ?t ?w0] =>
            pose proof (reply_text_same_tables env update t w0) as (Hu & Hvi & Hs & _);
            destruct (reply_text env update t w0) as [[[]|e] w2]
        end; simpl in *; subst res; simpl.
        all: split; [congruence|]; split; [rewrite Hs; by apply Hst1|];
          split; [done|]; split; [intros _; by rewrite Hu, Hus1|done]. }
  repeat (split; [assumption|]). split; [|assumption].
  intros r Hr.
  destruct (decide (user_id ∈ PREMIUM_USERS cfg)) as [Hp|Hp].
  - rewrite (Hprem Hp). exists r. auto.
  - rewrite (Hreg Hp), lookup_insert_eq. eexists; split; [reflexivity|].
    unfold account_of. rewrite Hr. simpl. split; [done|].
    unfold counter_on. case_bool_decide; auto.
Qed.

Lemma refused_forward_credits_nothing_witness :
  let before := run_events shipped_config (calm_env 9) one_download empty_world in
  let after :=
    snd (deliver_video shipped_config (refusing_forwards (calm_env 10))
           (command_from 5) 5 "vid_abcdefgh" before) in
  videos after = videos before /\
  stats after !! "total_downloads"%string = Some 1.
Proof.
  intros before after.
  destruct (refused_forward_credits_nothing shipped_config
              (refusing_forwards (calm_env 10)) (command_from 5) "vid_abcdefgh"
              {| vr_source_channel := SOURCE_CHANNEL_ID shipped_config;
                 vr_message_id := 2; vr_title := "Movie";
                 vr_thumbnail_id := Some "P"%string;
                 vr_downloads := 1; vr_created_at := 9 |} before)
    as (Hv & Hs & _).
  - vm_compute. reflexivity.
  - reflexivity.
  - split; [exact Hv|]. etransitivity; [exact Hs|]. vm_compute. reflexivity.
Defined.

(** C3 as stated fails: user 5 used one download on day 9; on day 10 the
    forward is refused, and the stored daily counter goes from 1 to 0. *)
Lemma refused_forward_resets_stale_counter :
  let before := run_events shipped_config (calm_env 9) one_download empty_world in
  let after :=
    snd (deliver_video shipped_config (refusing_forwards (calm_env 10))
           (command_from 5) 5 "vid_abcdefgh" before) in
  sent after
  = sent before ++
    [ (ForwardMessage 5 (SOURCE_CHANNEL_ID shipped_config) 2, false);
      (ReplyText 5 VIDEO_NOT_FOUND_MESSAGE, true) ] /\
  downloads_today <$> users before !! 5 = Some 1 /\
  downloads_today <$> users after !! 5 = Some 0 /\
  (downloads_today <$> users after !! 5) <> (downloads_today <$> users before !! 5).
Proof.
  intros before after.
  assert (downloads_today <$> users before !! 5 = Some 1) as Hb
    by (vm_compute; reflexivity).
  assert (downloads_today <$> users after !! 5 = Some 0) as Ha
    by (vm_compute; reflexivity).
  split; [vm_compute; reflexivity|]. split; [exact Hb|]. split; [exact Ha|].
  rewrite Ha, Hb. discriminate.
Qed.

(** Reached from the verification button, [deliver_video] cannot reply:
    [update.message] is [None] there.  The refused forward is logged and
    the handler ends with [AttributeError] before any text goes out. *)
Lemma button_delivery_cannot_reply :
  let before := run_events shipped_config (calm_env 10) one_download empty_world in
  deliver_video shipped_config (refusing_forwards (calm_env 10))
    (button_from 5) 5 "vid_abcdefgh" before
  = (Raised AttributeError,
     set_sent (sent before ++
               [(ForwardMessage 5 (SOURCE_CHANNEL_ID shipped_config) 2, false)])
       before).
Proof. vm_compute. reflexivity. Qed.

(** ** Deferred delivery *)

Lemma check_channels_from_run env required user_id not_joined w :
  check_channels_from env required user_id not_joined w
  = (Done (fst (gate env user_id required (join_requests w) not_joined)),
     set_join_requests
       (snd (gate env user_id required (join_requests w) not_joined)) w).
Proof.
  revert not_joined w.
  induction required as [|[ch info] rest IH]; intros nj w.
  - simpl. unfold mret, M_ret. by destruct w.
  - simpl. unfold mbind, M_bind.
    rewrite check_channel_run.
    unfold recorded.
    destruct (live_member env user_id ch); simpl.
    + rewrite IH. done.
    + destruct (marked_private info
                && bool_decide ((user_id, py_str ch) ∈ join_requests w));
        rewrite IH; done.
Qed.

Lemma check_all_channels_run cfg env user_id w :
  check_all_channels cfg env user_id w
  = (Done (negb (truthy_list (unsatisfied cfg env user_id w)),
           unsatisfied cfg env user_id w),
     set_join_requests
       (snd (gate env user_id (REQUIRED_CHANNELS cfg) (join_requests w) [])) w).
Proof.
  unfold check_all_channels, unsatisfied, mbind, M_bind.
  by rewrite check_channels_from_run.
Qed.

Lemma forward_attempts_app l1 l2 :
  forward_attempts (l1 ++ l2) = (forward_attempts l1 + forward_attempts l2)%nat.
Proof. unfold forward_attempts. by rewrite List.filter_app, length_app. Qed.

Lemma no_forward_refl w : no_forward w w.
Proof. exists []. by rewrite app_nil_r. Qed.

Lemma no_forward_trans w1 w2 w3 :
  no_forward w1 w2 -> no_forward w2 w3 -> no_forward w1 w3.
Proof.
  intros (l1 & H1 & Hn1) (l2 & H2 & Hn2). exists (l1 ++ l2).
  rewrite H2, H1, <- app_assoc, forward_attempts_app. split; [done|lia].
Qed.

Lemma nothing_delivered_refl w : nothing_delivered w w.
Proof. repeat split; try done. apply no_forward_refl. Qed.

Lemma nothing_delivered_trans w1 w2 w3 :
  nothing_delivered w1 w2 -> nothing_delivered w2 w3 -> nothing_delivered w1 w3.
Proof.
  intros (H1 & H2 & H3 & H4) (H5 & H6 & H7 & H8).
  repeat split; try congruence. by eapply no_forward_trans.
Qed.

Lemma reply_text_nothing_delivered env update t w :
  nothing_delivered w (snd (reply_text env update t w)).
Proof.
  unfold reply_text, bot_call. destruct (has_message update); simpl.
  - assert (nothing_delivered w
              (set_sent (sent w ++ [(ReplyText (effective_user update) t,
                                     accepts env (ReplyText (effective_user update) t))]) w)).
    { repeat split; try done. by eexists. }
    by destruct (accepts env _).
  - apply nothing_delivered_refl.
Qed.

Lemma extract_video_id_truthy X : extract_video_id X = Some X -> truthy_str X = true.
Proof.
  unfold extract_video_id. destruct (truthy_str X); [done|discriminate].
Qed.

Lemma unsatisfied_required cfg env user_id w :
  unsatisfied cfg env user_id w <> [] -> truthy_list (REQUIRED_CHANNELS cfg) = true.
Proof.
  unfold unsatisfied. destruct (REQUIRED_CHANNELS cfg); [done|done].
Qed.

Lemma handle_start_blocked cfg env update X rest w :
  extract_video_id X = Some X ->
  unsatisfied cfg env (effective_user update) w <> [] ->
  snd (handle_start cfg env update (Some (X :: rest)) w)
  = snd (reply_text env update
           (WELCOME_MESSAGE (unsatisfied cfg env (effective_user update) w))
           (set_user_data (<[effective_user update := X]> (user_data w))
              (set_join_requests
                 (snd (gate env (effective_user update) (REQUIRED_CHANNELS cfg)
                         (join_requests w) [])) w))).
Proof.
  intros HX Hun. unfold handle_start.
  rewrite (unsatisfied_required _ _ _ _ Hun), HX, (extract_video_id_truthy _ HX).
  unfold mbind at 1, M_bind at 1. unfold mbind at 1, M_bind at 1.
  rewrite check_all_channels_run. cbv beta iota.
  rewrite (truthy_list_nonempty _ Hun). cbn [negb when].
  unfold mbind, M_bind, modify. cbv beta iota.
  cbn [user_data set_join_requests].
  match goal with
  | |- context [reply_text env update ?t ?w0] =>
      destruct (reply_text env update t w0) as [[[]|e] w1]
  end; reflexivity.
Qed.

Lemma no_forward_of_same_sent w w' : sent w' = sent w -> no_forward w w'.
Proof. intros H. exists []. by rewrite app_nil_r. Qed.

Lemma reply_text_no_forward env update t : frames no_forward (reply_text env update t).
Proof. intros w. apply reply_text_nothing_delivered. Qed.

Lemma forward_video_to_user_log env user_id video_id w :
  users (snd (forward_video_to_user env user_id video_id w)) = users w /\
  user_data (snd (forward_video_to_user env user_id video_id w)) = user_data w /\
  exists log,
    sent (snd (forward_video_to_user env user_id video_id w)) = sent w ++ log /\
    forward_attempts log
    = match videos w !! video_id with Some _ => 1%nat | None => 0%nat end.
Proof.
  remember (forward_video_to_user env user_id video_id w) as res eqn:Hres.
  unfold forward_video_to_user in Hres. unfold mbind at 1, M_bind at 1 in Hres.
  rewrite get_video_run in Hres. cbv beta iota in Hres.
  destruct (videos w !! video_id) as [vd|].
  - unfold try_except_TelegramError, mbind, M_bind, bot_call in Hres.
    destruct (accepts env _); cbv beta iota in Hres.
    + rewrite increment_downloads_run in Hres. subst res. simpl.
      repeat split; try done. by eexists.
    + subst res. simpl. repeat split; try done. by eexists.
  - subst res. simpl. repeat split; try done. exists []. by rewrite app_nil_r.
Qed.

Lemma deliver_video_forwards cfg env update user_id video_id w :
  let w' := snd (deliver_video cfg env update user_id video_id w) in
  user_data w' = user_data w /\
  exists log,
    sent w' = sent w ++ log /\
    (forward_attempts log <= 1)%nat /\
    (quota_open cfg (today env) user_id w = true ->
     is_Some (videos w !! video_id) -> forward_attempts log = 1%nat).
Proof.
  intros w'. subst w'. unfold quota_open.
  remember (deliver_video cfg env update user_id video_id w) as res eqn:Hres.
  unfold deliver_video in Hres.
  assert (forall w0 v, no_forward w0 (set_users v w0)) as Hnu
    by (intros; by apply no_forward_of_same_sent).
  assert (forall w0 v, no_forward w0 (set_stats v w0)) as Hns
    by (intros; by apply no_forward_of_same_sent).
  pose proof (reply_text_no_forward env update) as Hreply.
  pose proof no_forward_refl as Hrefl. pose proof no_forward_trans as Htrans.
  pose proof (check_daily_limit_frames no_forward Hrefl Htrans Hnu Hns) as Hcheck.
  pose proof (record_download_frames no_forward Hrefl Htrans Hnu) as Hrecord.
  assert (forall w0 v, same_user_data w0 (set_users v w0)) as Hdu by done.
  assert (forall w0 v, same_user_data w0 (set_stats v w0)) as Hds by done.
  assert (forall t, frames same_user_data (reply_text env update t)) as Hdreply.
  { intros t. apply reply_text_frames; done. }
  assert (forall w0, same_user_data w0 w0) as Hdrefl by done.
  assert (forall w1 w2 w3, same_user_data w1 w2 -> same_user_data w2 w3 ->
                           same_user_data w1 w3) as Hdtrans.
  { unfold same_user_data. congruence. }
  pose proof (check_daily_limit_frames same_user_data Hdrefl Hdtrans Hdu Hds)
    as Hdcheck.
  pose proof (record_download_frames same_user_data Hdrefl Hdtrans Hdu)
    as Hdrecord.
  (* the part after the quota: forward, then the bookkeeping *)
  assert (forall (K : bool -> M unit) w1,
             (forall b, frames no_forward (K b)) ->
             (forall b, frames same_user_data (K b)) ->
             sent w1 = sent w -> videos w1 = videos w -> user_data w1 = user_data w ->
             res = (forward_video_to_user env user_id video_id ≫= K) w1 ->
             user_data res.2 = user_data w /\
             exists log, sent res.2 = sent w ++ log /\
                         (forward_attempts log <= 1)%nat /\
                         (is_Some (videos w !! video_id) ->
                          forward_attempts log = 1%nat)) as Hafter.
  { intros K w1 HK HKd Hs1 Hv1 Hd1 ->.
    unfold mbind, M_bind.
    destruct (forward_video_to_user_log env user_id video_id w1)
      as (_ & Hfd & logf & Hlf & Hnf).
    rewrite Hv1 in Hnf.
    destruct (forward_video_to_user env user_id video_id w1) as [[b|e] wf];
      simpl in Hlf, Hfd.
    - destruct (HK b wf) as (logk & Hlk & Hnk). specialize (HKd b wf).
      unfold same_user_data in HKd. split; [congruence|].
      exists (logf ++ logk).
      rewrite Hlk, Hlf, Hs1, <- app_assoc, forward_attempts_app, Hnf, Hnk.
      split; [done|]. split.
      + destruct (videos w !! video_id); simpl; lia.
      + intros [vd ->]. done.
    - simpl. split; [congruence|]. exists logf. rewrite Hlf, Hs1, Hnf.
      split; [done|]. split.
      + destruct (videos w !! video_id); simpl; lia.
      + intros [vd ->]. done. }
  destruct (decide (user_id ∈ PREMIUM_USERS cfg)) as [Hp|Hp].
  - rewrite (bool_decide_eq_true_2 _ Hp) in *. cbn [negb orb] in *.
    unfold mbind at 1, M_bind at 1 in Hres. cbn [mret M_ret] in Hres.
    lazymatch type of Hres with
    | _ = (_ ≫= ?K) _ =>
        destruct (Hafter K w) as (Hd & log & Hl & Hle & Heq);
          [| |done|done|done|exact Hres|]
    end.
    + intros []; frames_go Hrefl Htrans.
    + intros []; frames_go Hdrefl Hdtrans.
    + split; [done|]. exists log. auto.
  - rewrite (bool_decide_eq_false_2 _ Hp) in *. cbn [negb orb] in *.
    destruct (check_daily_limit_run (today env) user_id
                (DAILY_DOWNLOAD_LIMIT cfg) w)
      as (w1 & Hrun1 & Hus1 & Hvid1 & Hsent1 & Hdata1 & Hst1).
    unfold mbind at 1, M_bind at 1 in Hres.
    unfold mbind at 1, M_bind at 1 in Hres.
    rewrite Hrun1 in Hres. cbv beta iota in Hres.
    destruct (DAILY_DOWNLOAD_LIMIT cfg
              - counter_on (today env) (account_of (today env) user_id w) >? 0)
      eqn:Hopen; cbn [negb] in Hres.
    + cbn [mret M_ret] in Hres.
      lazymatch type of Hres with
      | _ = (_ ≫= ?K) _ =>
          destruct (Hafter K w1) as (Hd & log & Hl & Hle & Heq);
            [| |exact Hsent1|exact Hvid1|exact Hdata1|exact Hres|]
      end.
      * intros []; frames_go Hrefl Htrans.
      * intros []; frames_go Hdrefl Hdtrans.
      * split; [done|]. exists log. auto.
    + unfold mbind at 1, M_bind at 1 in Hres.
      match type of Hres with
      | context [reply_text env update ?t ?w0] =>
          destruct (Hreply t w0) as (log & Hl & Hn);
          pose proof (Hdreply t w0) as Hd;
          destruct (reply_text env update t w0) as [[[]|e] w2]
      end; subst res; unfold same_user_data in Hd; simpl in *.
      all: split; [congruence|]; exists log; rewrite Hl, Hsent1;
        split; [done|]; split; [lia|done].
Qed.

(** C6, as the code has it.  A user asks for content id [X] with
    [/start X].  While some required channel is unsatisfied
    ([unsatisfied] being the list [check_all_channels] returns), [X]
    becomes the user's pending request, replacing any earlier one, and
    nothing is delivered.  When the user then presses the verification
    button with every channel satisfied and the transport takes the
    answer to the button and the edit of the message, the pending
    request is removed and the handler continues as one run of
    [deliver_video] for [X]: the request stays removed however that run
    ends, at most one forward goes out, and exactly one when the quota
    lets the user through and [X] exists.  When the transport refuses
    the answer the handler raises with nothing changed; when it refuses
    the edit the handler raises with the request removed and no run of
    [deliver_video]. *)
Theorem deferred_delivery (cfg : Config) (env : Env) (update : Update)
    (X : string) (rest : list string) (w : World) :
  let user_id := effective_user update in
  let answer := AnswerCallbackQuery user_id in
  let edit := EditMessageText user_id SUCCESS_MESSAGE in
  let cleared :=
    set_user_data (delete user_id (user_data w))
      (set_join_requests
         (snd (gate env user_id (REQUIRED_CHANNELS cfg) (join_requests w) []))
         w) in
  extract_video_id X = Some X ->
  fst (check_all_channels cfg env user_id w)
    = Done (negb (truthy_list (unsatisfied cfg env user_id w)),
            unsatisfied cfg env user_id w) /\
  (unsatisfied cfg env user_id w <> [] ->
   let w' := snd (handle_start cfg env update (Some (X :: rest)) w) in
   user_data w' = <[user_id := X]> (user_data w) /\ nothing_delivered w w') /\
  (unsatisfied cfg env user_id w = [] ->
   user_data w !! user_id = Some X ->
   has_callback_query update = true ->
   accepts env answer = true ->
   accepts env edit = true ->
   let verified :=
     set_sent (sent w ++ [(answer, true); (edit, true)]) cleared in
   let w' := snd (handle_verify_callback cfg env update w) in
   handle_verify_callback cfg env update w
     = deliver_video cfg env update user_id X verified /\
   user_data w' !! user_id = None /\
   exists log,
     sent w' = sent verified ++ log /\
     (forward_attempts log <= 1)%nat /\
     (quota_open cfg (today env) user_id w = true ->
      is_Some (videos w !! X) -> forward_attempts log = 1%nat)) /\
  (unsatisfied cfg env user_id w = [] ->
   user_data w !! user_id = Some X ->
   has_callback_query update = true ->
   (accepts env answer = false ->
    handle_verify_callback cfg env update w
      = (Raised TelegramError, set_sent (sent w ++ [(answer, false)]) w)) /\
   (accepts env answer = true -> accepts env edit = false ->
    handle_verify_callback cfg env update w
      = (Raised TelegramError,
         set_sent (sent w ++ [(answer, true); (edit, false)]) cleared))).
Proof.
  intros user_id answer edit cleared HX.
  assert (unsatisfied cfg env user_id w = [] ->
          user_data w !! user_id = Some X ->
          has_callback_query update = true ->
          accepts env answer = true ->
          handle_verify_callback cfg env update w
          = (bot_call env edit;; deliver_video cfg env update user_id X)
              (set_sent (sent w ++ [(answer, true)]) cleared)) as Hhead.
  { intros Hsat Hpending Hcb Hanswer.
    unfold handle_verify_callback. rewrite Hcb. cbn [negb].
    unfold mbind at 1, M_bind at 1. unfold bot_call at 1.
    fold user_id. fold answer. rewrite Hanswer. cbv beta iota zeta.
    unfold mbind at 1, M_bind at 1. rewrite check_all_channels_run.
    change (unsatisfied cfg env user_id (set_sent _ w))
      with (unsatisfied cfg env user_id w).
    rewrite Hsat. cbv beta iota. cbn [truthy_list negb].
    unfold mbind at 1, M_bind at 1. unfold gets.
    cbn [user_data set_sent set_join_requests].
    rewrite Hpending.
    assert (truthy_str X = true) as -> by by apply extract_video_id_truthy.
    unfold mbind at 1, M_bind at 1. unfold modify. reflexivity. }
  split; [by rewrite check_all_channels_run|]. split; [|split].
  - intros Hun w'. subst w'. rewrite (handle_start_blocked cfg env update X rest w HX Hun).
    match goal with
    | |- context [reply_text env update ?t ?w0] =>
        pose proof (reply_text_nothing_delivered env update t w0) as (Hu & Hv & Hs & Hn);
        assert (frames same_user_data (reply_text env update t)) as Hd
          by (apply reply_text_frames; done);
        specialize (Hd w0)
    end.
    unfold same_user_data in Hd. simpl in Hu, Hv, Hs, Hd.
    split; [exact Hd|]. repeat split; assumption.
  - intros Hsat Hpending Hcb Hanswer Hedit verified w'.
    assert (handle_verify_callback cfg env update w
            = deliver_video cfg env update user_id X verified) as Heq.
    { rewrite Hhead by done.
      unfold mbind at 1, M_bind at 1. unfold bot_call. rewrite Hedit.
      cbv beta iota zeta. subst verified. f_equal.
      unfold cleared, set_sent, set_user_data, set_join_requests. simpl.
      by rewrite <- app_assoc. }
    split; [exact Heq|]. subst w'. rewrite Heq.
    destruct (deliver_video_forwards cfg env update user_id X verified)
      as (Hd & log & Hl & Hle & Hone).
    split.
    + rewrite Hd. subst verified. simpl. apply lookup_delete_eq.
    + exists log. split; [exact Hl|]. split; [exact Hle|exact Hone].
  - intros Hsat Hpending Hcb. split.
    + intros Hanswer. unfold handle_verify_callback. rewrite Hcb. cbn [negb].
      unfold mbind at 1, M_bind at 1. unfold bot_call at 1.
      fold user_id. fold answer. by rewrite Hanswer.
    + intros Hanswer Hedit. rewrite Hhead by done.
      unfold mbind at 1, M_bind at 1. unfold bot_call. rewrite Hedit.
      cbv beta iota zeta. f_equal.
      unfold cleared, set_sent, set_user_data, set_join_requests. simpl.
      by rewrite <- app_assoc.
Qed.

Lemma deferred_delivery_witness :
  let posted :=
    run_events shipped_config (calm_env 10)
      [ChannelPost (Some group_photo); ChannelPost (Some group_video)] empty_world in
  let asked :=
    snd (handle_start shipped_config (outside_env 10) (command_from 5)
           (Some ["vid_abcdefgh"%string]) posted) in
  let verified :=
    snd (handle_verify_callback shipped_config (calm_env 10) (button_from 5) asked) in
  user_data asked = <[5 := "vid_abcdefgh"%string]> (user_data posted) /\
  user_data verified !! 5 = None /\
  fst (handle_verify_callback shipped_config (refusing_edits (calm_env 10))
         (button_from 5) asked) = Raised TelegramError.
Proof.
  intros posted asked verified.
  destruct (deferred_delivery shipped_config (outside_env 10) (command_from 5)
              "vid_abcdefgh" [] posted eq_refl) as (_ & Hblocked & _).
  destruct (deferred_delivery shipped_config (calm_env 10) (button_from 5)
              "vid_abcdefgh" [] asked eq_refl) as (_ & _ & Hverified & _).
  destruct (deferred_delivery shipped_config (refusing_edits (calm_env 10))
              (button_from 5) "vid_abcdefgh" [] asked eq_refl)
    as (_ & _ & _ & Hrefused).
  split; [|split].
  - apply Hblocked. vm_compute. discriminate.
  - apply Hverified.
    + vm_compute. reflexivity.
    + vm_compute. reflexivity.
    + reflexivity.
    + reflexivity.
    + reflexivity.
  - destruct Hrefused as [_ Hedit].
    + vm_compute. reflexivity.
    + vm_compute. reflexivity.
    + reflexivity.
    + rewrite Hedit; reflexivity.
Defined.

(** C6 as stated fails.  The video of group "g" is posted; user 5 asks
    for it without having joined, so it becomes the pending request; the
    user joins and presses the verification button on a day on which
    the transport refuses [edit_message_text].  Every channel is
    satisfied, the quota is open and the video exists, yet the handler
    raises; the request is removed, and the log of calls holds no
    forward: no delivery was attempted. *)
Lemma refused_edit_drops_the_request :
  let X := "vid_abcdefgh"%string in
  let posted :=
    run_events shipped_config (calm_env 10)
      [ChannelPost (Some group_photo); ChannelPost (Some group_video)] empty_world in
  let asked :=
    snd (handle_start shipped_config (outside_env 10) (command_from 5)
           (Some [X]) posted) in
  let env := refusing_edits (calm_env 10) in
  let pressed := handle_verify_callback shipped_config env (button_from 5) asked in
  user_data asked !! 5 = Some X /\
  unsatisfied shipped_config env 5 asked = [] /\
  quota_open shipped_config (today env) 5 asked = true /\
  is_Some (videos asked !! X) /\
  fst pressed = Raised TelegramError /\
  user_data (snd pressed) !! 5 = None /\
  forward_attempts (sent (snd pressed)) = 0%nat.
Proof.
  repeat split; try (vm_compute; reflexivity).
  eexists. vm_compute. reflexivity.
Qed.

(** ** Concurrent events on one account or one video *)


Lemma db_Execute {A B} (s : sql B) (k : B -> DB A) w :
  db (Execute s k) w
  = match exec s w with
    | (Done b, w') => db (k b) w'
    | (Raised e, w') => (Raised e, w')
    end.
Proof. reflexivity. Qed.







(** * Further properties *)

#[local] Set Warnings "-clear-no-such-hyp".

(** ** Titles *)

Lemma list_of_string_inj s t :
  list_ascii_of_string s = list_ascii_of_string t -> s = t.
Proof.
  intros H. rewrite <- (string_of_list_ascii_of_string s),
    <- (string_of_list_ascii_of_string t). by rewrite H.
Qed.

Lemma str_rev_involutive s : str_rev (str_rev s) = s.
Proof.
  unfold str_rev.
  by rewrite list_ascii_of_string_of_list_ascii, rev_involutive,
    string_of_list_ascii_of_string.
Qed.

Section DropLeading.
Variables (sp1 : ascii -> bool) (sp2 : ascii -> ascii -> bool)
  (sp3 : ascii -> ascii -> ascii -> bool).

(** What is left is the end of the text, and starts with no such
    character. *)
Lemma drop_leading_spec s :
  (exists p, list_ascii_of_string s
             = p ++ list_ascii_of_string (drop_leading sp1 sp2 sp3 s)) /\
  starts_with sp1 sp2 sp3 (drop_leading sp1 sp2 sp3 s) = false.
Proof.
  remember (String.length s) as n eqn:Hn.
  assert (String.length s <= n)%nat as Hlen by lia. clear Hn.
  revert s Hlen. induction n as [|n IH]; intros s Hlen.
  { destruct s; simpl in Hlen; [|lia]. split; [by exists []|done]. }
  destruct s as [|c1 r1]; [split; [by exists []|done]|].
  simpl in Hlen. simpl.
  destruct (sp1 c1) eqn:H1.
  { destruct (IH r1) as [[p Hp] Hs]; [lia|]. split; [|done].
    exists (c1 :: p). simpl. by rewrite <- Hp. }
  destruct r1 as [|c2 r2].
  { split; [by exists []|]. simpl. by rewrite H1. }
  simpl in Hlen.
  destruct (sp2 c1 c2) eqn:H2.
  { destruct (IH r2) as [[p Hp] Hs]; [lia|]. split; [|done].
    exists (c1 :: c2 :: p). simpl. by rewrite <- Hp. }
  destruct r2 as [|c3 r3].
  { split; [by exists []|]. simpl. by rewrite H1, H2. }
  simpl in Hlen.
  destruct (sp3 c1 c2 c3) eqn:H3.
  { destruct (IH r3) as [[p Hp] Hs]; [lia|]. split; [|done].
    exists (c1 :: c2 :: c3 :: p). simpl. by rewrite <- Hp. }
  split; [by exists []|]. simpl. by rewrite H1, H2, H3.
Qed.

Lemma drop_leading_fixed s :
  starts_with sp1 sp2 sp3 s = false -> drop_leading sp1 sp2 sp3 s = s.
Proof.
  destruct s as [|c1 [|c2 [|c3 r3]]]; simpl; [done|..].
  - by intros ->%orb_false_elim%proj1.
  - intros [-> [-> _]%orb_false_elim]%orb_false_elim. done.
  - intros [-> [-> ->]%orb_false_elim]%orb_false_elim. done.
Qed.

Lemma drop_leading_idem s :
  drop_leading sp1 sp2 sp3 (drop_leading sp1 sp2 sp3 s)
  = drop_leading sp1 sp2 sp3 s.
Proof. apply drop_leading_fixed, drop_leading_spec. Qed.

(** A text that starts with such a character still does with more text
    after it. *)
Lemma starts_with_app s t q :
  list_ascii_of_string t = list_ascii_of_string s ++ q ->
  starts_with sp1 sp2 sp3 s = true -> starts_with sp1 sp2 sp3 t = true.
Proof.
  destruct s as [|c1 [|c2 [|c3 r3]]]; simpl; [done|..].
  - destruct t as [|d1 t]; simpl; [done|]. intros [= -> _].
    rewrite orb_false_r. by intros ->.
  - destruct t as [|d1 [|d2 t]]; simpl; [done..|]. intros [= -> -> _].
    rewrite orb_false_r. intros [-> | ->]%orb_true_iff; [done|].
    by rewrite orb_true_r.
  - destruct t as [|d1 [|d2 [|d3 t]]]; simpl; [done..|].
    by intros [= -> -> -> _].
Qed.
End DropLeading.

Lemma lstrip_suffix s :
  exists p, list_ascii_of_string s = p ++ list_ascii_of_string (lstrip s).
Proof. apply drop_leading_spec. Qed.

Lemma rstrip_prefix s :
  exists q, list_ascii_of_string s = list_ascii_of_string (rstrip s) ++ q.
Proof.
  unfold rstrip.
  set (d := drop_leading _ _ _).
  destruct (proj1 (drop_leading_spec isspace1 (fun c1 c2 => isspace2 c2 c1)
                     (fun c1 c2 c3 => isspace3 c3 c2 c1) (str_rev s)))
    as [p Hp].
  fold d in Hp. exists (rev p). unfold str_rev at 1.
  rewrite list_ascii_of_string_of_list_ascii, <- rev_app_distr, <- Hp.
  unfold str_rev. by rewrite list_ascii_of_string_of_list_ascii, rev_involutive.
Qed.

Lemma rstrip_strip s : rstrip (strip s) = strip s.
Proof.
  unfold strip, rstrip. by rewrite str_rev_involutive, drop_leading_idem.
Qed.

Lemma lstrip_strip s : lstrip (strip s) = strip s.
Proof.
  unfold strip. apply drop_leading_fixed.
  destruct (starts_with _ _ _ (rstrip (lstrip s))) eqn:Hs; [|done].
  destruct (rstrip_prefix (lstrip s)) as [q Hq].
  apply (starts_with_app _ _ _ _ _ _ Hq) in Hs.
  unfold lstrip in Hs at 1. by rewrite (proj2 (drop_leading_spec _ _ _ s)) in Hs.
Qed.

(** The number of characters is the number of bytes that are no
    continuation bytes. *)
Lemma str_len_bytes s :
  str_len s
  = length (List.filter (fun c => negb (is_continuation c))
              (list_ascii_of_string s)).
Proof.
  induction s as [|c r IH]; simpl; [done|].
  destruct (is_continuation c); simpl; by rewrite IH.
Qed.

Lemma str_len_strip s : (str_len (strip s) <= str_len s)%nat.
Proof.
  unfold strip.
  destruct (lstrip_suffix s) as [p Hp].
  destruct (rstrip_prefix (lstrip s)) as [q Hq].
  rewrite !str_len_bytes, Hp, Hq, !List.filter_app, !length_app. lia.
Qed.

Lemma str_len_str_take n s : (str_len (str_take n s) <= n)%nat.
Proof.
  revert n. induction s as [|c r IH]; intros n; simpl; [lia|].
  destruct (is_continuation c) eqn:Hc; simpl.
  - rewrite Hc. apply IH.
  - destruct n as [|n]; simpl; [lia|]. rewrite Hc. specialize (IH n). lia.
Qed.

Lemma str_len_str_filter f s : (str_len (str_filter f s) <= str_len s)%nat.
Proof.
  induction s as [|c r IH]; simpl; [lia|].
  destruct (f c); simpl; destruct (is_continuation c); lia.
Qed.

Lemma In_strip c s :
  In c (list_ascii_of_string (strip s)) -> In c (list_ascii_of_string s).
Proof.
  unfold strip. intros H.
  destruct (lstrip_suffix s) as [p Hp].
  destruct (rstrip_prefix (lstrip s)) as [q Hq].
  rewrite Hp, Hq. apply in_or_app. right. apply in_or_app. by left.
Qed.

Lemma In_str_filter f c s :
  In c (list_ascii_of_string (str_filter f s)) ->
  f c = true /\ In c (list_ascii_of_string s).
Proof.
  induction s as [|d r IH]; simpl; [done|].
  destruct (f d) eqn:Hd; simpl.
  - intros [<-|H]; [auto|]. destruct (IH H). auto.
  - intros H. destruct (IH H). auto.
Qed.

Lemma In_str_take n c s :
  In c (list_ascii_of_string (str_take n s)) -> In c (list_ascii_of_string s).
Proof.
  revert n. induction s as [|d r IH]; intros n; simpl; [done|].
  destruct (is_continuation d); simpl.
  - intros [<-|H]; [auto|]. right. by apply (IH n).
  - destruct n as [|n]; simpl; [done|].
    intros [<-|H]; [auto|]. right. by apply (IH n).
Qed.

Lemma In_first_line c s :
  In c (list_ascii_of_string (first_line s)) -> c <> "010"%char.
Proof.
  induction s as [|d r IH]; simpl; [done|].
  destruct (Ascii.eqb d "010") eqn:Hd; simpl; [done|].
  intros [<-|H]; [|by apply IH].
  intros ->. discriminate Hd.
Qed.

(** On a text made of characters, [str_len] counts them and [str_take]
    takes the first of them, however many bytes each has. *)
Lemma str_take_continuation n r s :
  forallb is_continuation (list_ascii_of_string r) = true ->
  str_take n (r +:+ s) = r +:+ str_take n s.
Proof.
  induction r as [|c r IH]; simpl; [done|].
  intros [-> Hr]%andb_true_iff. by rewrite IH.
Qed.

Lemma str_len_continuation r s :
  forallb is_continuation (list_ascii_of_string r) = true ->
  str_len (r +:+ s) = str_len s.
Proof.
  induction r as [|c r IH]; simpl; [done|].
  intros [-> Hr]%andb_true_iff. by rewrite IH.
Qed.

Lemma str_len_concat chars :
  forallb is_char chars = true -> str_len (str_concat chars) = length chars.
Proof.
  induction chars as [|ch chars IH]; simpl; [done|].
  intros [Hch Hchars]%andb_true_iff.
  destruct ch as [|c r]; [done|]. simpl in Hch.
  apply andb_true_iff in Hch as [Hc Hr]. apply negb_true_iff in Hc.
  simpl. rewrite Hc, str_len_continuation by done. by rewrite IH.
Qed.

Lemma str_take_concat n chars :
  forallb is_char chars = true ->
  str_take n (str_concat chars) = str_concat (firstn n chars).
Proof.
  revert n. induction chars as [|ch chars IH]; intros n; simpl.
  { by destruct n. }
  intros [Hch Hchars]%andb_true_iff.
  destruct ch as [|c r]; [done|]. simpl in Hch.
  apply andb_true_iff in Hch as [Hc Hr]. apply negb_true_iff in Hc.
  simpl. rewrite Hc. destruct n as [|n]; [done|].
  simpl. by rewrite str_take_continuation, IH.
Qed.

(** A title with a letter of two bytes at its end, between white space
    of three bytes, of one and of two. *)
Example sanitize_title_voila :
  sanitize_title (Some "　 *Voilà* ") = "Voilà"%string.
Proof. reflexivity. Qed.

(** Of 101 letters of three bytes each, the first hundred. *)
Example sanitize_title_hundred_letters :
  sanitize_title (Some (str_repeat 101 "ক")) = str_repeat 100 "ক".
Proof. vm_compute. reflexivity. Qed.

(** The titles [sanitize_title] makes are not empty and not long. *)
Lemma sanitize_title_bounds (caption : option string) :
  sanitize_title caption <> EmptyString /\
  (str_len (sanitize_title caption) <= 100)%nat.
Proof.
  unfold sanitize_title.
  destruct caption as [c|]; cbn [truthy_ostr]; [|by split; [|simpl; lia]].
  destruct (truthy_str c); cbn [negb]; [|by split; [|simpl; lia]].
  cbv zeta.
  set (t := strip (str_filter (fun ch => negb (is_markup ch))
                     (str_take 100 (first_line c)))).
  destruct (truthy_str t) eqn:Ht; [|by split; [|simpl; lia]].
  split.
  - intros Heq. rewrite Heq in Ht. discriminate Ht.
  - subst t. etransitivity; [apply str_len_strip|].
    etransitivity; [apply str_len_str_filter|]. apply str_len_str_take.
Qed.

(** X1.  Whatever the caption, the title [sanitize_title] makes is not
    empty, has at most 100 characters (code points of the UTF-8 text),
    holds none of the markup characters and no line feed, and neither
    starts nor ends with white space; an absent or empty caption gives
    ["Untitled Video"]. *)
Theorem sanitize_title_shape (caption : option string) :
  let title := sanitize_title caption in
  title <> EmptyString /\
  (str_len title <= 100)%nat /\
  (forall c, In c (list_ascii_of_string title) ->
             is_markup c = false /\ c <> "010"%char) /\
  lstrip title = title /\ rstrip title = title /\
  (truthy_ostr caption = false -> title = "Untitled Video"%string).
Proof.
  assert (let t := "Untitled Video"%string in
          t <> EmptyString /\ (str_len t <= 100)%nat /\
          (forall c, In c (list_ascii_of_string t) ->
                     is_markup c = false /\ c <> "010"%char) /\
          lstrip t = t /\ rstrip t = t) as Hdefault.
  { split; [done|]. split; [simpl; lia|]. split; [|split; reflexivity].
    intros c. simpl. intros H.
    repeat (destruct H as [<-|H]; [by split|]). done. }
  intros title. subst title. unfold sanitize_title.
  destruct Hdefault as (D1 & D2 & D3 & D4 & D5).
  destruct caption as [c|]; cbn [truthy_ostr]; [|by repeat (split; [assumption|])].
  destruct (truthy_str c) eqn:Hc; cbn [negb]; [|by repeat (split; [assumption|])].
  cbv zeta.
  set (t := strip (str_filter (fun ch => negb (is_markup ch))
                     (str_take 100 (first_line c)))).
  destruct (truthy_str t) eqn:Ht; [|by repeat (split; [assumption|])].
  split; [|split; [|split; [|split; [|split]]]].
  - intros Heq. rewrite Heq in Ht. discriminate Ht.
  - subst t. etransitivity; [apply str_len_strip|].
    etransitivity; [apply str_len_str_filter|]. apply str_len_str_take.
  - intros ch Hin. subst t. apply In_strip in Hin.
    apply In_str_filter in Hin as [Hk Hin]. split.
    + by destruct (is_markup ch).
    + apply In_str_take in Hin. by apply In_first_line in Hin.
  - apply lstrip_strip.
  - apply rstrip_strip.
  - discriminate.
Qed.

Lemma sanitize_title_shape_witness :
  sanitize_title (Some EmptyString) = "Untitled Video"%string.
Proof. apply (sanitize_title_shape (Some EmptyString)). reflexivity. Defined.

(** ** The catalog *)

Lemma save_video_collides now rand sc mid title thumb w :
  is_Some (videos w !! generate_video_id rand) ->
  db (save_video now rand sc mid title thumb) w = (Raised IntegrityError, w).
Proof.
  intros [row Hrow]. unfold save_video, update_stats, execute.
  cbn [mbind DB_bind DB_bind_def]. rewrite db_Execute. cbn [exec].
  by rewrite Hrow.
Qed.

Lemma delete_video_run video_id w :
  db (delete_video video_id) w
  = (Done (bool_decide (is_Some (videos w !! video_id))),
     set_videos (delete video_id (videos w)) w).
Proof. reflexivity. Qed.

(** X2.  [save_video] and [get_video] round-trip.  When the generated id
    is free, [save_video] returns it, [get_video] of that id then returns
    the row just given, with no downloads yet, every other id reads as
    before, and the counter of saved videos is one higher.  When the
    generated id is taken, [save_video] raises and nothing is written,
    the counter included. *)
Theorem save_video_get_video (now : Z) (rand : nat -> nat) (sc mid : Z)
    (title : string) (thumb : option string) (w : World) :
  let id := generate_video_id rand in
  (videos w !! id = None ->
   exists w',
     db (save_video now rand sc mid title thumb) w = (Done id, w') /\
     db (get_video id) w'
       = (Done (Some {| vr_source_channel := sc; vr_message_id := mid;
                        vr_title := title; vr_thumbnail_id := thumb;
                        vr_downloads := 0; vr_created_at := now |}), w') /\
     (forall other, other <> id ->
        fst (db (get_video other) w') = fst (db (get_video other) w)) /\
     stats w' !! "total_videos"%string
       = Some (default 0 (stats w !! "total_videos"%string) + 1) /\
     users w' = users w /\ sent w' = sent w) /\
  (is_Some (videos w !! id) ->
   db (save_video now rand sc mid title thumb) w = (Raised IntegrityError, w)).
Proof.
  intros id. split; [|apply save_video_collides].
  intros Hfree. eexists. split; [by apply save_video_run|].
  rewrite !get_video_run. simpl. rewrite lookup_insert_eq.
  split; [done|]. split.
  - intros other Hne. simpl. by rewrite lookup_insert_ne.
  - rewrite lookup_insert_eq. split; [|done].
    destruct (stats w !! "total_videos"%string); simpl; f_equal; lia.
Qed.

Lemma save_video_get_video_witness :
  exists w',
    db (save_video 10 (fun i => i) 1 2 "Movie" None) empty_world
    = (Done "vid_abcdefgh"%string, w') /\
    fst (db (get_video "vid_abcdefgh") w')
    = Done (Some (new_video_row 10 1 2 "Movie" None)).
Proof.
  destruct (save_video_get_video 10 (fun i => i) 1 2 "Movie" None empty_world)
    as [Hnew _].
  destruct Hnew as (w' & Hrun & Hget & _); [reflexivity|].
  exists w'. split; [exact Hrun|].
  change "vid_abcdefgh"%string with (generate_video_id (fun i => i)).
  by rewrite Hget.
Defined.

(** X3.  [delete_video] reports whether the row was there.  Afterwards
    the id reads as absent, a second delete reports [False], a delivery
    of that id makes no transport call and fails, every other row is as
    before, and no counter has moved. *)
Theorem delete_video_outcome (env : Env) (user_id : Z) (video_id : string)
    (w : World) :
  let w' := snd (db (delete_video video_id) w) in
  fst (db (delete_video video_id) w)
    = Done (bool_decide (is_Some (videos w !! video_id))) /\
  db (get_video video_id) w' = (Done None, w') /\
  db (delete_video video_id) w' = (Done false, w') /\
  forward_video_to_user env user_id video_id w' = (Done false, w') /\
  (forall other, other <> video_id -> videos w' !! other = videos w !! other) /\
  stats w' = stats w /\ users w' = users w /\ sent w' = sent w.
Proof.
  intros w'. subst w'. rewrite !delete_video_run. cbn [fst snd].
  set (w' := set_videos (delete video_id (videos w)) w).
  assert (videos w' !! video_id = None) as Hgone by apply lookup_delete_eq.
  split; [done|]. split; [by rewrite get_video_run, Hgone|]. split.
  - rewrite Hgone. f_equal.
    subst w'. unfold set_videos. simpl. by rewrite delete_delete_eq.
  - split.
    + unfold forward_video_to_user, mbind, M_bind.
      by rewrite get_video_run, Hgone.
    + split; [|done]. intros other Hne. simpl. by rewrite lookup_delete_ne.
Qed.

Lemma delete_video_outcome_witness :
  let w := snd (db (save_video 10 (fun i => i) 1 2 "Movie" None) empty_world) in
  videos (snd (db (delete_video "vid_zzzzzzzz") w)) !! "vid_abcdefgh"%string
  = videos w !! "vid_abcdefgh"%string.
Proof.
  intros w.
  destruct (delete_video_outcome (calm_env 1) 5 "vid_zzzzzzzz" w)
    as (_ & _ & _ & _ & Hother & _).
  apply Hother. discriminate.
Defined.

(** ** Accounts *)

(** X4.  [get_user] creates an account once.  It always returns the row
    the table then holds for the user, and a second call, on whatever
    day, returns the same row and writes nothing.  No other account is
    touched.  A missing account is created with zero counters, no
    download date and the day as joining date, and the count of users
    goes up by one; an existing account is returned as it is, with no
    write at all. *)
Theorem get_user_creates_once (now later user_id : Z) (w : World) :
  exists r w1,
    db (get_user now user_id) w = (Done r, w1) /\
    users w1 !! user_id = Some r /\
    db (get_user later user_id) w1 = (Done r, w1) /\
    (forall other, other <> user_id -> users w1 !! other = users w !! other) /\
    videos w1 = videos w /\ sent w1 = sent w /\
    (users w !! user_id = None ->
     r = {| joined_at := now; downloads_today := 0;
            last_download_date := None; total_downloads := 0;
            is_premium := false |} /\
     stats w1 !! "total_users"%string
       = Some (default 0 (stats w !! "total_users"%string) + 1)) /\
    (is_Some (users w !! user_id) -> w1 = w).
Proof.
  rewrite get_user_run.
  destruct (users w !! user_id) as [r|] eqn:Hrow.
  - exists r, w. rewrite get_user_run, Hrow.
    repeat split; try done.
  - eexists _, _. split; [reflexivity|].
    rewrite get_user_run. simpl. rewrite !lookup_insert_eq.
    repeat split; try done.
    + intros other Hne. by rewrite lookup_insert_ne.
    + destruct (stats w !! "total_users"%string); simpl; f_equal; lia.
Qed.

Lemma get_user_creates_once_witness :
  exists r w1,
    db (get_user 7 42) empty_world = (Done r, w1) /\
    downloads_today r = 0 /\
    stats w1 !! "total_users"%string = Some 1.
Proof.
  destruct (get_user_creates_once 7 8 42 empty_world)
    as (r & w1 & Hrun & _ & _ & _ & _ & _ & Hnew & _).
  destruct Hnew as [Hr Hstat]; [reflexivity|].
  exists r, w1. split; [exact Hrun|]. split; [by rewrite Hr|exact Hstat].
Defined.

(** ** Join requests *)

Lemma set_join_requests_same (w : World) (J : gset (Z * string)) :
  J = join_requests w -> set_join_requests J w = w.
Proof. intros ->. by destruct w. Qed.

Lemma set_join_requests_twice (w : World) (J J' : gset (Z * string)) :
  set_join_requests J (set_join_requests J' w) = set_join_requests J w.
Proof. reflexivity. Qed.

Lemma add_join_request_run user_id channel_id w :
  db (add_join_request user_id channel_id) w
  = (Done tt,
     set_join_requests ({[(user_id, py_str channel_id)]} ∪ join_requests w) w).
Proof. reflexivity. Qed.

Lemma has_join_request_run user_id channel_id w :
  db (has_join_request user_id channel_id) w
  = (Done (recorded w user_id channel_id), w).
Proof. reflexivity. Qed.

Lemma remove_join_request_run user_id channel_id w :
  db (remove_join_request user_id channel_id) w
  = (Done tt,
     set_join_requests (join_requests w ∖ {[(user_id, py_str channel_id)]}) w).
Proof. reflexivity. Qed.

(** X5.  The join-request record round-trips.  After [add_join_request]
    the pair is on record and adding it again changes nothing; after
    [remove_join_request] it is off record and removing it again changes
    nothing; and the record of every other pair of user and channel text
    is as it was before both. *)
Theorem join_request_roundtrip (user_id : Z) (channel_id : channel_ref)
    (user_id' : Z) (channel_id' : channel_ref) (w : World) :
  let w1 := snd (db (add_join_request user_id channel_id) w) in
  let w2 := snd (db (remove_join_request user_id channel_id) w1) in
  db (has_join_request user_id channel_id) w1 = (Done true, w1) /\
  db (add_join_request user_id channel_id) w1 = (Done tt, w1) /\
  db (has_join_request user_id channel_id) w2 = (Done false, w2) /\
  db (remove_join_request user_id channel_id) w2 = (Done tt, w2) /\
  ((user_id', py_str channel_id') <> (user_id, py_str channel_id) ->
   fst (db (has_join_request user_id' channel_id') w1)
     = fst (db (has_join_request user_id' channel_id') w) /\
   fst (db (has_join_request user_id' channel_id') w2)
     = fst (db (has_join_request user_id' channel_id') w)).
Proof.
  intros w1 w2. subst w2 w1.
  rewrite !add_join_request_run, !remove_join_request_run,
    !has_join_request_run. cbn [fst snd].
  rewrite !set_join_requests_twice. unfold recorded. cbn [join_requests set_join_requests].
  set (p := (user_id, py_str channel_id)).
  set (q := (user_id', py_str channel_id')).
  set (J := join_requests w).
  repeat split.
  - f_equal. f_equal. apply bool_decide_eq_true_2. set_solver.
  - f_equal. f_equal. set_solver.
  - f_equal. f_equal. apply bool_decide_eq_false_2. set_solver.
  - f_equal. f_equal. set_solver.
  - f_equal. apply bool_decide_ext. set_solver.
  - f_equal. apply bool_decide_ext. set_solver.
Qed.

Lemma join_request_roundtrip_witness :
  fst (db (has_join_request 2 (ChanId 5))
         (snd (db (add_join_request 1 (ChanId 5)) empty_world)))
  = Done false.
Proof.
  destruct (join_request_roundtrip 1 (ChanId 5) 2 (ChanId 5) empty_world)
    as (_ & _ & _ & _ & Hother).
  destruct Hother as [H1 _]; [by intros [=]|].
  rewrite H1. reflexivity.
Defined.

Lemma on_join_request_run user_id chat w :
  on_join_request user_id chat w
  = (Done tt,
     set_join_requests ({[(user_id, pretty chat)]} ∪ join_requests w) w).
Proof. reflexivity. Qed.

(** X6.  The life of a join request.  Once [on_join_request] has
    recorded the request of a user for a private channel,
    [check_channel] finds the channel satisfied whatever the live lookup
    says.  While the lookup fails the check writes nothing, so the answer
    stays.  The first check whose lookup succeeds deletes the record:
    from then on a failing lookup means the channel is not satisfied any
    more. *)
Theorem join_request_until_member (env env' : Env) (user_id chat : Z)
    (info : channel_info) (w : World) :
  marked_private info = true ->
  let w1 := snd (on_join_request user_id chat w) in
  let w2 := snd (check_channel env user_id (ChanId chat) info w1) in
  fst (check_channel env user_id (ChanId chat) info w1) = Done true /\
  (live_member env user_id (ChanId chat) = false -> w2 = w1) /\
  (live_member env user_id (ChanId chat) = true ->
   live_member env' user_id (ChanId chat) = false ->
   fst (check_channel env' user_id (ChanId chat) info w2) = Done false).
Proof.
  intros Hprivate w1 w2. subst w2 w1.
  rewrite on_join_request_run. cbn [snd].
  rewrite !check_channel_run. cbn [fst snd]. rewrite Hprivate.
  unfold recorded. cbn [py_str join_requests set_join_requests].
  split; [|split].
  - rewrite (bool_decide_eq_true_2 _); [by rewrite orb_true_r|set_solver].
  - by intros ->.
  - intros -> Hout. rewrite Hout.
    unfold recorded. cbn [py_str join_requests set_join_requests].
    rewrite bool_decide_eq_false_2; [done|set_solver].
Qed.

Lemma join_request_until_member_witness :
  fst (check_channel (outside_env 1) 4 (ChanId (-1001))
         {| ci_name := None; ci_link := None; ci_type := Some "private"%string |}
         (snd (on_join_request 4 (-1001) empty_world)))
  = Done true.
Proof.
  apply (join_request_until_member (outside_env 1) (outside_env 1) 4 (-1001)
           {| ci_name := None; ci_link := None; ci_type := Some "private"%string |}
           empty_world).
  reflexivity.
Defined.

(** ** The gate *)

(** Who passes [check_channel] for a channel: a live member, or, for a
    private channel, a user whose request is on record. *)
Lemma gate_spec env user_id required :
  forall joins not_joined,
  exists extra,
    fst (gate env user_id required joins not_joined) = not_joined ++ extra /\
    sublist extra (map fst required) /\
    (forall ch, ch ∈ extra -> live_member env user_id ch = false) /\
    (extra = [] ->
     Forall (fun ci => live_member env user_id ci.1 = true \/
                       (marked_private ci.2 = true /\
                        (user_id, py_str ci.1) ∈ joins)) required) /\
    (Forall (fun ci => live_member env user_id ci.1 = true) required ->
     extra = []) /\
    snd (gate env user_id required joins not_joined) ⊆ joins /\
    (forall u s, u <> user_id -> (u, s) ∈ joins ->
       (u, s) ∈ snd (gate env user_id required joins not_joined)).
Proof.
  induction required as [|[ch info] rest IH]; intros joins nj.
  - exists []. simpl. rewrite app_nil_r.
    repeat split; try done. by intros ch ?%elem_of_nil.
  - cbn [gate].
    destruct (live_member env user_id ch) eqn:Hlive.
    + destruct (IH (joins ∖ {[(user_id, py_str ch)]}) nj)
        as (extra & Hfst & Hsub & Hout & Hall & Hlives & Hsnd & Hothers).
      exists extra. split; [done|]. split; [by apply sublist_cons|].
      split; [done|]. split; [|split; [|split]].
      * intros Hnil. constructor; [by left|].
        eapply Forall_impl; [by apply Hall|].
        intros ci [?|[? ?]]; [by left|right; split; [done|set_solver]].
      * intros Hl. apply Hlives. by inversion Hl.
      * set_solver.
      * intros u s Hne Hin. apply Hothers; [done|]. set_solver.
    + destruct (marked_private info
                && bool_decide ((user_id, py_str ch) ∈ joins)) eqn:Hreq.
      * destruct (IH joins nj)
          as (extra & Hfst & Hsub & Hout & Hall & Hlives & Hsnd & Hothers).
        exists extra. split; [done|]. split; [by apply sublist_cons|].
        split; [done|]. split; [|split; [|done]].
        -- intros Hnil. constructor; [|by apply Hall].
           apply andb_true_iff in Hreq as [? ?%bool_decide_eq_true].
           by right.
        -- intros Hl. apply Hlives. by inversion Hl.
      * destruct (IH joins (nj ++ [ch]))
          as (extra & Hfst & Hsub & Hout & Hall & Hlives & Hsnd & Hothers).
        exists (ch :: extra). rewrite Hfst, <- app_assoc.
        split; [done|]. split; [by apply sublist_skip|].
        split; [|split; [|split; [|done]]].
        -- intros c [->|Hin]%elem_of_cons; [done|by apply Hout].
        -- intros [=].
        -- intros Hl. inversion Hl as [|? ? Hhd ?]; subst.
           simpl in Hhd. congruence.
Qed.

(** X7.  [check_all_channels] never raises and calls nothing outbound.
    The channels it returns are required channels, in the order of the
    configuration, and none of them has the user as a live member; the
    flag is true exactly when that list is empty.  When the flag is true
    every required channel has the user as a live member or is private
    with a request of the user on record; when the user is a live member
    of every required channel the flag is true.  The check only deletes
    join requests, and only those of this user; accounts, catalog and
    counters are as before. *)
Theorem check_all_channels_outcome (cfg : Config) (env : Env) (user_id : Z)
    (w : World) :
  exists all_ok not_joined w',
    check_all_channels cfg env user_id w = (Done (all_ok, not_joined), w') /\
    (all_ok = true <-> not_joined = []) /\
    sublist not_joined (map fst (REQUIRED_CHANNELS cfg)) /\
    (forall ch, ch ∈ not_joined -> live_member env user_id ch = false) /\
    (all_ok = true ->
     Forall (fun ci => live_member env user_id ci.1 = true \/
                       (marked_private ci.2 = true /\
                        recorded w user_id ci.1 = true))
       (REQUIRED_CHANNELS cfg)) /\
    (Forall (fun ci => live_member env user_id ci.1 = true)
       (REQUIRED_CHANNELS cfg) -> all_ok = true) /\
    join_requests w' ⊆ join_requests w /\
    (forall u s, u <> user_id -> (u, s) ∈ join_requests w ->
       (u, s) ∈ join_requests w') /\
    users w' = users w /\ videos w' = videos w /\ stats w' = stats w /\
    sent w' = sent w /\ user_data w' = user_data w.
Proof.
  destruct (gate_spec env user_id (REQUIRED_CHANNELS cfg) (join_requests w) [])
    as (extra & Hfst & Hsub & Hout & Hall & Hlives & Hsnd & Hothers).
  rewrite app_nil_l in Hfst.
  eexists _, _, _. split; [apply check_all_channels_run|].
  unfold unsatisfied. rewrite Hfst.
  assert (negb (truthy_list extra) = true <-> extra = []) as Hflag.
  { destruct extra; simpl; split; congruence. }
  split; [done|]. split; [done|]. split; [done|]. split; [|split].
  - intros Hok%Hflag. eapply Forall_impl; [by apply Hall|].
    intros ci [?|[? ?]]; [by left|right; split; [done|]].
    unfold recorded. by apply bool_decide_eq_true_2.
  - intros Hl. apply Hflag. by apply Hlives.
  - by repeat split.
Qed.

Lemma check_all_channels_outcome_witness :
  fst (check_all_channels (config_with 3 []) (calm_env 1) 4 empty_world)
  = Done (true, []).
Proof.
  destruct (check_all_channels_outcome (config_with 3 []) (calm_env 1) 4
              empty_world)
    as (all_ok & nj & w' & Hrun & Hflag & _ & _ & _ & Hlives & _).
  rewrite Hrun. cbn [fst].
  assert (all_ok = true) as ->.
  { apply Hlives. vm_compute. repeat constructor. }
  destruct Hflag as [-> _]; reflexivity.
Defined.

(** ** Publishing *)

Lemma post_to_channels_no_identity cfg env video_id title thumb w :
  TARGET_CHANNELS cfg <> [] -> get_me env = None ->
  post_to_channels cfg env video_id title thumb w = (Raised TelegramError, w).
Proof.
  intros Hch Hme. unfold post_to_channels, bot_get_me.
  destruct (TARGET_CHANNELS cfg); [done|]. by rewrite Hme.
Qed.

(** X8.  [post_to_channels] is best effort.  With no target channel it
    does nothing, the identity lookup included.  When the lookup of the
    bot's own identity fails it raises before any post goes out.
    Otherwise it never raises: it makes one [send_photo] call per target
    channel, in the order of the configuration, a refused call stopping
    none of the later ones, and every call carries the thumbnail, the
    title and the deep link made of the bot's name and the video id. *)
Theorem post_to_channels_best_effort (cfg : Config) (env : Env)
    (video_id title thumbnail_photo_id : string) (w : World) :
  (TARGET_CHANNELS cfg = [] ->
   post_to_channels cfg env video_id title thumbnail_photo_id w = (Done tt, w)) /\
  (TARGET_CHANNELS cfg <> [] -> get_me env = None ->
   post_to_channels cfg env video_id title thumbnail_photo_id w
   = (Raised TelegramError, w)) /\
  (forall bot_username, get_me env = Some bot_username ->
   let url := ("https://t.me/" +:+ bot_username +:+ "?start=" +:+ video_id)%string in
   let attempt channel :=
     SendPhoto (tc_id channel) thumbnail_photo_id title url in
   post_to_channels cfg env video_id title thumbnail_photo_id w
   = (Done tt,
      set_sent (sent w ++ map (fun channel => (attempt channel,
                                                accepts env (attempt channel)))
                            (TARGET_CHANNELS cfg)) w)).
Proof.
  split; [|split].
  - intros Hnone. rewrite post_to_channels_run by (by right).
    unfold publish_log. rewrite Hnone. simpl. rewrite app_nil_r. by destruct w.
  - apply post_to_channels_no_identity.
  - intros bot Hme url attempt.
    rewrite post_to_channels_run by (left; congruence).
    by rewrite Hme.
Qed.

Lemma post_to_channels_best_effort_witness :
  post_to_channels shipped_config (calm_env 1) "vid_abcdefgh" "Movie" "P"
    empty_world
  = (Done tt,
     set_sent
       [(SendPhoto (-1003615561641) "P" "Movie"
           "https://t.me/bot?start=vid_abcdefgh", true);
        (SendPhoto (-1003344091364) "P" "Movie"
           "https://t.me/bot?start=vid_abcdefgh", true)] empty_world).
Proof.
  destruct (post_to_channels_best_effort shipped_config (calm_env 1)
              "vid_abcdefgh" "Movie" "P" empty_world) as (_ & _ & Hposts).
  exact (Hposts "bot"%string eq_refl).
Defined.

(** What saving and posting a completed pair comes to, before the
    clean-up [cleanup] of the handler. *)
Lemma publish_run cfg env source_channel message_id title thumbnail photo_id
    (cleanup : World -> World) w :
  let id := generate_video_id (randbelow env) in
  let row := new_video_row (today env) source_channel message_id title
               thumbnail in
  (video_id ← db (save_video (today env) (randbelow env) source_channel
                    message_id title thumbnail);
   post_to_channels cfg env video_id title photo_id;;
   modify cleanup) w
  = match videos w !! id with
    | Some _ => (Raised IntegrityError, w)
    | None =>
        match TARGET_CHANNELS cfg, get_me env with
        | _ :: _, None => (Raised TelegramError, saved id row w)
        | _, _ =>
            (Done tt,
             cleanup (set_sent (sent w ++
                                publish_log cfg env
                                  (default EmptyString (get_me env))
                                  id title photo_id)
                        (saved id row w)))
        end
    end.
Proof.
  intros id row. subst id row. unfold mbind at 1, M_bind at 1.
  destruct (videos w !! generate_video_id (randbelow env)) as [old|] eqn:Hid.
  - rewrite save_video_collides by (by eexists). done.
  - rewrite save_video_run by done. cbv beta iota.
    unfold mbind, M_bind.
    destruct (TARGET_CHANNELS cfg) as [|ch rest] eqn:Hch.
    + rewrite post_to_channels_run by (by right). reflexivity.
    + destruct (get_me env) as [bot|] eqn:Hme.
      * rewrite post_to_channels_run by (left; congruence).
        rewrite Hme. reflexivity.
      * rewrite post_to_channels_no_identity by (done || congruence).
        reflexivity.
Qed.

(** X9.  Publishing a complete media group is not undone when it fails
    half way.  When the generated id is taken, the handler raises
    [IntegrityError]: nothing is saved or posted, and the complete entry
    stays in [media_groups].  When the id is free but the lookup of the
    bot's identity fails, it raises [TelegramError]: the row is saved and
    counted, nothing is posted, and the complete entry stays as well. *)
Theorem media_group_publish_failure (cfg : Config) (env : Env) (m : Message)
    (w : World) :
  ready (group_after m w) = true ->
  let gid := default EmptyString (media_group_id m) in
  let g := group_after m w in
  let id := generate_video_id (randbelow env) in
  let title := sanitize_title (g_caption g) in
  let row := new_video_row (today env) (g_chat_id g)
               (default 0 (g_video_message_id g)) title (g_photo g) in
  let kept := set_media_groups (<[gid := g]> (media_groups w)) w in
  (is_Some (videos w !! id) ->
   handle_media_group cfg env m w = (Raised IntegrityError, kept)) /\
  (videos w !! id = None -> TARGET_CHANNELS cfg <> [] -> get_me env = None ->
   handle_media_group cfg env m w = (Raised TelegramError, saved id row kept)).
Proof.
  intros Hready gid g id title row kept. subst gid g id title row kept.
  rewrite handle_media_group_run. cbv zeta. rewrite Hready.
  rewrite publish_run. cbv zeta. cbn [videos set_media_groups].
  split.
  - intros [old Hold]. by rewrite Hold.
  - intros Hfree Hch Hme. rewrite Hfree, Hme.
    destruct (TARGET_CHANNELS cfg); [done|]. reflexivity.
Qed.

Lemma media_group_publish_failure_witness :
  let w1 := snd (handle_media_group shipped_config (calm_env 1) group_photo
                   empty_world) in
  let w2 := snd (handle_media_group shipped_config (calm_env 1) group_video w1) in
  fst (handle_media_group shipped_config (calm_env 1) group_photo
         (snd (handle_media_group shipped_config (calm_env 1) group_video w2)))
  = Raised IntegrityError.
Proof.
  intros w1 w2.
  set (w3 := snd (handle_media_group shipped_config (calm_env 1) group_video w2)).
  destruct (media_group_publish_failure shipped_config (calm_env 1) group_photo
              w3) as [Hcollide _]; [vm_compute; reflexivity|].
  rewrite Hcollide; [reflexivity|].
  vm_compute. by eexists.
Defined.

(** ** Pairing by reply *)

Lemma handle_reply_method_run cfg env message replied_to w
    thumbnail_id content_video_message_id caption :
  reply_pair message replied_to (pending_posts w !! message_id replied_to)
  = (thumbnail_id, content_video_message_id, caption) ->
  handle_reply_method cfg env message replied_to w
  = if truthy_ostr thumbnail_id && truthy_oint content_video_message_id then
      (video_id ← db (save_video (today env) (randbelow env) (chat_id message)
                        (default 0 content_video_message_id)
                        (sanitize_title caption) thumbnail_id);
       post_to_channels cfg env video_id (sanitize_title caption)
         (default EmptyString thumbnail_id);;
       modify (fun w =>
         set_pending_posts (delete (message_id replied_to) (pending_posts w)) w)) w
    else (Done tt, w).
Proof.
  intros Hpair. unfold handle_reply_method.
  unfold mbind at 1, M_bind at 1, gets. cbv beta iota. rewrite Hpair.
  by destruct (truthy_ostr thumbnail_id && truthy_oint content_video_message_id).
Qed.

Lemma reply_pair_photo_to_video (P V : Message) replied_data :
  video P = None -> photo P <> [] -> is_Some (video V) ->
  reply_pair P V replied_data
  = (Some (photo_last (photo P)), Some (message_id V),
     py_or (caption P) (caption V)).
Proof.
  intros HP Hph HV. unfold reply_pair. rewrite HP.
  destruct (photo P) as [|p ps] eqn:Hp; [done|]. cbn [truthy_list].
  by rewrite bool_decide_eq_true_2.
Qed.

Lemma reply_pair_video_to_photo (V P : Message) replied_data :
  is_Some (video V) -> photo P <> [] ->
  reply_pair V P replied_data
  = (Some (photo_last (photo P)), Some (message_id V),
     py_or (caption V) (caption P)).
Proof.
  intros [v HV] Hph. unfold reply_pair. rewrite HV.
  by destruct (photo P) as [|p ps] eqn:Hp.
Qed.

(** X10.  A photo and a video paired by reply, whichever of the two is
    the reply.  One row is saved: its message is the video's, its
    thumbnail the largest size of the photo, its source channel the
    reply's chat, its title made from the reply's caption when that is
    not empty and from the caption of the message replied to otherwise.
    One round of posts goes out with that title and thumbnail, and the
    pending post of the message replied to is removed.  (The generated id
    is unused and the identity lookup does not fail.) *)
Theorem reply_pairs_photo_with_video (cfg : Config) (env : Env) (w : World)
    (P V : Message) :
  video P = None -> photo P <> [] ->
  truthy_str (photo_last (photo P)) = true ->
  is_Some (video V) -> truthy_int (message_id V) = true ->
  videos w !! generate_video_id (randbelow env) = None ->
  get_me env <> None \/ TARGET_CHANNELS cfg = [] ->
  let id := generate_video_id (randbelow env) in
  let thumbnail := photo_last (photo P) in
  let published (reply replied_to : Message) :=
    let title := sanitize_title (py_or (caption reply) (caption replied_to)) in
    set_pending_posts (delete (message_id replied_to) (pending_posts w))
      (set_sent (sent w ++ publish_log cfg env (default EmptyString (get_me env))
                             id title thumbnail)
         (saved id (new_video_row (today env) (chat_id reply) (message_id V)
                      title (Some thumbnail)) w)) in
  handle_reply_method cfg env P V w = (Done tt, published P V) /\
  handle_reply_method cfg env V P w = (Done tt, published V P).
Proof.
  intros HP Hph Hfile HV HVid Hfree Hme id thumbnail published.
  subst published thumbnail id. cbv beta zeta.
  assert (forall reply replied_to cap,
    (video_id ← db (save_video (today env) (randbelow env) (chat_id reply)
                      (message_id V) (sanitize_title cap)
                      (Some (photo_last (photo P))));
     post_to_channels cfg env video_id (sanitize_title cap)
       (photo_last (photo P));;
     modify (fun w =>
       set_pending_posts (delete (message_id replied_to) (pending_posts w)) w)) w
    = (Done tt,
       set_pending_posts (delete (message_id replied_to) (pending_posts w))
         (set_sent (sent w ++ publish_log cfg env
                                (default EmptyString (get_me env))
                                (generate_video_id (randbelow env))
                                (sanitize_title cap) (photo_last (photo P)))
            (saved (generate_video_id (randbelow env))
               (new_video_row (today env) (chat_id reply) (message_id V)
                  (sanitize_title cap) (Some (photo_last (photo P)))) w))))
    as Hpublish.
  { intros reply replied_to cap. rewrite publish_run. cbv zeta. rewrite Hfree.
    destruct Hme as [Hme|Hch].
    - destruct (get_me env); [|done]. by destruct (TARGET_CHANNELS cfg).
    - by rewrite Hch. }
  split.
  - rewrite (handle_reply_method_run cfg env P V w _ _ _
               (reply_pair_photo_to_video P V _ HP Hph HV)).
    cbn [truthy_ostr truthy_oint default]. rewrite Hfile, HVid. cbn [andb].
    apply Hpublish.
  - rewrite (handle_reply_method_run cfg env V P w _ _ _
               (reply_pair_video_to_photo V P _ HV Hph)).
    cbn [truthy_ostr truthy_oint default]. rewrite Hfile, HVid. cbn [andb].
    apply Hpublish.
Qed.

Lemma reply_pairs_photo_with_video_witness :
  let V := video_post 11 None (Some "Movie"%string) "VA" None None in
  let P := photo_post 12 None None "PH" (Some V) in
  let w := snd (handle_channel_post shipped_config (calm_env 10) (Some V)
                  empty_world) in
  videos (snd (handle_reply_method shipped_config (calm_env 10) P V w))
  = {[ "vid_abcdefgh"%string :=
         {| vr_source_channel := SOURCE_CHANNEL_ID shipped_config;
            vr_message_id := 11; vr_title := "Movie";
            vr_thumbnail_id := Some "PH"%string;
            vr_downloads := 0; vr_created_at := 10 |} ]}.
Proof.
  intros V P w.
  destruct (reply_pairs_photo_with_video shipped_config (calm_env 10) w P V)
    as [Hrun _].
  - reflexivity.
  - discriminate.
  - reflexivity.
  - simpl. eauto.
  - reflexivity.
  - vm_compute. reflexivity.
  - left. discriminate.
  - rewrite Hrun. vm_compute. reflexivity.
Defined.

(** X11.  Replies that complete no pair change nothing, and the reply
    itself is not kept as a pending post.  These are: a reply that is
    neither video nor photo; a photo replying to a message that is no
    video and has no video on record; a video replying to a message that
    is neither photo nor video and is not on record; and a video without
    an embedded thumbnail replying to a message that is no photo and has
    no photo on record. *)
Theorem incomplete_reply_changes_nothing (cfg : Config) (env : Env)
    (C A : Message) (w : World) :
  let stored := pending_posts w !! message_id A in
  (video C = None /\ photo C = []) \/
  (video C = None /\ video A = None /\ has_type stored "video" = false) \/
  (photo A = [] /\ video A = None /\ stored = None) \/
  (exists v, video C = Some v /\ v_thumbnail v = None /\
             photo A = [] /\ has_type stored "photo" = false) ->
  chat_id C = SOURCE_CHANNEL_ID cfg ->
  truthy_ostr (media_group_id C) = false ->
  reply_to_message C = Some A ->
  handle_channel_post cfg env (Some C) w = (Done tt, w).
Proof.
  intros stored Hcase Hsrc Hgid Hreply.
  unfold handle_channel_post.
  rewrite Hsrc, Z.eqb_refl, andb_false_r, Hgid, Hreply.
  destruct (reply_pair C A stored) as [[t c] cap] eqn:Hpair.
  rewrite (handle_reply_method_run cfg env C A w t c cap Hpair).
  enough (truthy_ostr t && truthy_oint c = false) as -> by done.
  unfold reply_pair in Hpair.
  destruct Hcase as [[HC HCp]|[(HC & HA & Hty)|[(HAp & HA & Hst)|(v & HC & Hth & HAp & Hty)]]].
  - rewrite HC, HCp in Hpair. simpl in Hpair. by injection Hpair as <- <- <-.
  - rewrite HC, HA, Hty in Hpair.
    destruct (truthy_list (photo C)); simpl in Hpair;
      injection Hpair as <- <- <-; [apply andb_false_r|done].
  - rewrite HAp, HA, Hst in Hpair. simpl in Hpair.
    destruct (video C) as [v|]; [by injection Hpair as <- <- <-|].
    destruct (truthy_list (photo C)); simpl in Hpair;
      injection Hpair as <- <- <-; [apply andb_false_r|done].
  - rewrite HC, HAp, Hty, Hth in Hpair. simpl in Hpair.
    destruct (bool_decide (is_Some (video A)));
      [by injection Hpair as <- <- <-|].
    destruct (has_type stored "video"); by injection Hpair as <- <- <-.
Qed.

Lemma incomplete_reply_changes_nothing_witness :
  let A := photo_post 11 None None "PA" None in
  let C := photo_post 12 None None "PC" (Some A) in
  let w := snd (handle_channel_post shipped_config (calm_env 10) (Some A)
                  empty_world) in
  handle_channel_post shipped_config (calm_env 10) (Some C) w = (Done tt, w).
Proof.
  intros A C w.
  apply (incomplete_reply_changes_nothing shipped_config (calm_env 10) C A w).
  - right. left. repeat split.
  - reflexivity.
  - reflexivity.
  - reflexivity.
Defined.

(** ** Channel posts *)

(** X12.  Whatever is posted, [handle_channel_post] leaves the accounts,
    the join requests and the users' pending video requests as they
    are.  A post of another channel than the configured source, and an
    update without a channel post, change nothing at all. *)
Theorem channel_post_scope (cfg : Config) (env : Env)
    (channel_post : option Message) (w : World) :
  same_audience w (snd (handle_channel_post cfg env channel_post w)) /\
  (channel_post = None ->
   handle_channel_post cfg env channel_post w = (Done tt, w)) /\
  (forall m, channel_post = Some m ->
     SOURCE_CHANNEL_ID cfg <> 0 -> chat_id m <> SOURCE_CHANNEL_ID cfg ->
     handle_channel_post cfg env channel_post w = (Done tt, w)).
Proof.
  split; [|split].
  - apply handle_channel_post_frames; unfold same_audience; try done.
    intros w1 w2 w3 (? & ? & ?) (? & ? & ?). repeat split; congruence.
  - by intros ->.
  - intros m -> Hsrc Hne. unfold handle_channel_post.
    assert (truthy_int (SOURCE_CHANNEL_ID cfg) = true) as ->.
    { unfold truthy_int. apply negb_true_iff. by apply Z.eqb_neq. }
    assert ((chat_id m =? SOURCE_CHANNEL_ID cfg) = false) as ->
      by by apply Z.eqb_neq.
    reflexivity.
Qed.

Lemma channel_post_scope_witness :
  let foreign :=
    {| message_id := 1; chat_id := 5; media_group_id := None;
       caption := None; photo := []; video := Some {| v_file_id := "V";
                                                      v_thumbnail := None |};
       reply_to_message := None |} in
  handle_channel_post shipped_config (calm_env 1) (Some foreign) empty_world
  = (Done tt, empty_world).
Proof.
  intros foreign.
  destruct (channel_post_scope shipped_config (calm_env 1) (Some foreign)
              empty_world) as (_ & _ & Hforeign).
  apply (Hforeign foreign); [reflexivity|discriminate|discriminate].
Defined.

(** ** Delivery *)

(** Two worlds are equal when their fields are. *)
Ltac world_fields :=
  cbv [set_media_groups set_pending_posts set_user_data set_videos set_users
       set_join_requests set_stats set_sent];
  cbn [media_groups pending_posts user_data videos users join_requests
       stats sent];
  f_equal.

Lemma check_daily_limit_world today user_id limit w :
  db (check_daily_limit today user_id limit) w
  = (Done (limit - counter_on today (account_of today user_id w) >? 0,
           limit - counter_on today (account_of today user_id w)),
     checked today user_id w).
Proof.
  unfold checked, checked_row, check_daily_limit, account_of, counter_on.
  unfold db. msimpl.
  destruct (users w !! user_id) as [r|] eqn:Hu; msimpl.
  - destruct (decide (last_download_date r = Some today)) as [Hd|Hd].
    + rewrite (bool_decide_eq_false_2 (last_download_date r ≠ Some today)) by tauto.
      rewrite (bool_decide_eq_true_2 _ Hd). msimpl. f_equal.
      destruct w, r; simpl in *; subst. unfold set_users. simpl. f_equal.
      by rewrite insert_id.
    + rewrite (bool_decide_eq_true_2 (last_download_date r ≠ Some today)) by tauto.
      rewrite (bool_decide_eq_false_2 _ Hd). msimpl. f_equal.
      unfold set_users. simpl. f_equal.
      apply map_eq; intros k. rewrite lookup_alter, lookup_insert.
      case_decide; simplify_eq; [by rewrite Hu|done].
  - rewrite Hu. msimpl. simpl. f_equal. world_fields.
    apply (map_eq (M := gmap Z)); intros k.
    rewrite lookup_alter, !lookup_insert.
    repeat case_decide; simplify_eq; done.
Qed.

Lemma forward_video_to_user_accepted env user_id video_id vd w :
  videos w !! video_id = Some vd ->
  accepts env (ForwardMessage user_id (vr_source_channel vd) (vr_message_id vd))
    = true ->
  forward_video_to_user env user_id video_id w
  = (Done true, forwarded env user_id video_id vd w).
Proof.
  intros Hv Hacc. unfold forward_video_to_user.
  unfold mbind at 1, M_bind at 1. rewrite get_video_run, Hv.
  unfold try_except_TelegramError, mbind, M_bind, bot_call. rewrite Hacc.
  cbv beta iota zeta. rewrite increment_downloads_run. reflexivity.
Qed.

Lemma forward_video_to_user_missing env user_id video_id w :
  videos w !! video_id = None ->
  forward_video_to_user env user_id video_id w = (Done false, w).
Proof.
  intros Hv. unfold forward_video_to_user.
  unfold mbind at 1, M_bind at 1. by rewrite get_video_run, Hv.
Qed.

(** [deliver_video] for a user outside the premium list, after its
    quota check. *)
Lemma deliver_video_regular cfg env update user_id video_id w :
  user_id ∉ PREMIUM_USERS cfg ->
  deliver_video cfg env update user_id video_id w
  = if DAILY_DOWNLOAD_LIMIT cfg
       - counter_on (today env) (account_of (today env) user_id w) >? 0
    then
      (success ← forward_video_to_user env user_id video_id;
       if (success : bool) then
         db (record_download (today env) user_id);;
         '(_, remaining) ← db (check_daily_limit (today env) user_id
                                 (DAILY_DOWNLOAD_LIMIT cfg));
         reply_text env update (VIDEO_SENT (Some remaining))
       else reply_text env update VIDEO_NOT_FOUND_MESSAGE)
        (checked (today env) user_id w)
    else
      reply_text env update (LIMIT_REACHED_MESSAGE (DAILY_DOWNLOAD_LIMIT cfg))
        (checked (today env) user_id w).
Proof.
  intros Hp. unfold deliver_video.
  rewrite (bool_decide_eq_false_2 _ Hp). cbn [negb].
  unfold mbind at 1, M_bind at 1. unfold mbind at 1, M_bind at 1.
  rewrite check_daily_limit_world. cbv beta iota.
  destruct (DAILY_DOWNLOAD_LIMIT cfg
            - counter_on (today env) (account_of (today env) user_id w) >? 0);
    cbn [negb].
  - reflexivity.
  - unfold mbind at 1, M_bind at 1.
    by destruct (reply_text env update _ _) as [[[]|e] w2].
Qed.

Lemma deliver_video_premium cfg env update user_id video_id w :
  user_id ∈ PREMIUM_USERS cfg ->
  deliver_video cfg env update user_id video_id w
  = (success ← forward_video_to_user env user_id video_id;
     if (success : bool) then
       db (record_download (today env) user_id);;
       reply_text env update (VIDEO_SENT None)
     else reply_text env update VIDEO_NOT_FOUND_MESSAGE) w.
Proof.
  intros Hp. unfold deliver_video.
  rewrite (bool_decide_eq_true_2 _ Hp). cbn [negb].
  unfold mbind at 1, M_bind at 1. reflexivity.
Qed.

Lemma reply_text_world env update t w :
  reply_text env update t w
  = if has_message update then
      (if accepts env (ReplyText (effective_user update) t)
       then Done tt else Raised TelegramError,
       set_sent (sent w ++
                 [(ReplyText (effective_user update) t,
                   accepts env (ReplyText (effective_user update) t))]) w)
    else (Raised AttributeError, w).
Proof.
  destruct (has_message update) eqn:Hm; [by apply reply_text_run|].
  unfold reply_text. by rewrite Hm.
Qed.

Lemma counter_on_checked_row today r :
  counter_on today (checked_row today r) = counter_on today r.
Proof. unfold counter_on at 1. simpl. by rewrite bool_decide_eq_true_2. Qed.

(** X13.  A delivery that goes through is accounted for once everywhere.
    For a user outside the premium list with something left today, a
    stored video and a forward the transport accepts: one forward goes
    out; the account's counter of the day and its lifetime total are one
    higher than what the check computed with and the account is stamped
    today; the video's downloads and the counter of all downloads are
    one higher; and the text sent last reports the limit minus the new
    counter.  The handler raises when that last text is refused.  On
    the verification button there is no message to reply to: the forward
    and all of the accounting happen as well, no text is sent, and the
    handler ends with [AttributeError]. *)
Theorem delivery_is_accounted (cfg : Config) (env : Env) (update : Update)
    (video_id : string) (vd : video_row) (w : World) :
  let user_id := effective_user update in
  let account := account_of (today env) user_id w in
  let counter := counter_on (today env) account in
  let forward := ForwardMessage user_id (vr_source_channel vd) (vr_message_id vd) in
  let report :=
    ReplyText user_id (VIDEO_SENT (Some (DAILY_DOWNLOAD_LIMIT cfg - (counter + 1)))) in
  user_id ∉ PREMIUM_USERS cfg ->
  0 < DAILY_DOWNLOAD_LIMIT cfg - counter ->
  videos w !! video_id = Some vd ->
  accepts env forward = true ->
  let w' := snd (deliver_video cfg env update user_id video_id w) in
  fst (deliver_video cfg env update user_id video_id w)
    = (if has_message update then
         if accepts env report then Done tt else Raised TelegramError
       else Raised AttributeError) /\
  users w' = <[user_id := {| joined_at := joined_at account;
                             downloads_today := counter + 1;
                             last_download_date := Some (today env);
                             total_downloads := total_downloads account + 1;
                             is_premium := is_premium account |}]> (users w) /\
  videos w' = <[video_id := bump_downloads vd]> (videos w) /\
  stats w' !! "total_downloads"%string
    = Some (default 0 (stats w !! "total_downloads"%string) + 1) /\
  sent w' = sent w ++
    (forward, true)
    :: (if has_message update then [(report, accepts env report)] else []).
Proof.
  intros user_id account counter forward report Hp Hopen Hv Hacc w'.
  set (w1 := checked (today env) user_id w).
  set (w2 := forwarded env user_id video_id vd w1).
  set (w3 := set_users (alter (record_row (today env)) user_id (users w2)) w2).
  set (w4 := checked (today env) user_id w3).
  assert (videos w1 !! video_id = Some vd) as Hv1.
  { subst w1. unfold checked. by destruct (users w !! user_id). }
  assert (users w3 = <[user_id := record_row (today env)
                                    (checked_row (today env) account)]> (users w))
    as Hus3.
  { subst w3 w2 w1. unfold checked. simpl.
    apply map_eq; intros k. rewrite lookup_alter, !lookup_insert.
    case_decide as Hk; [subst k|done].
    by rewrite decide_True. }
  assert (users w3 !! user_id = Some (record_row (today env)
                                        (checked_row (today env) account)))
    as Hrow3 by (by rewrite Hus3, lookup_insert_eq).
  assert (counter_on (today env) (account_of (today env) user_id w3) = counter + 1)
    as Hc3.
  { unfold account_of. rewrite Hrow3. simpl.
    unfold counter_on at 1. simpl. by rewrite bool_decide_eq_true_2. }
  assert (deliver_video cfg env update user_id video_id w
          = if has_message update then
              (if accepts env report then Done tt else Raised TelegramError,
               set_sent (sent w4 ++ [(report, accepts env report)]) w4)
            else (Raised AttributeError, w4)) as Hrun.
  { rewrite (deliver_video_regular cfg env update user_id video_id w Hp).
    fold account counter. rewrite (proj2 (Z.gtb_lt _ _) Hopen). fold w1.
    unfold mbind at 1, M_bind at 1.
    rewrite (forward_video_to_user_accepted env user_id video_id vd w1 Hv1 Hacc).
    fold w2. cbv beta iota. unfold mbind at 1, M_bind at 1.
    rewrite record_download_run. fold w3. cbv beta iota.
    unfold mbind at 1, M_bind at 1.
    rewrite check_daily_limit_world, Hc3. fold w4. cbv beta iota.
    by rewrite reply_text_world. }
  assert (w4 = set_users (<[user_id := checked_row (today env)
                              (account_of (today env) user_id w3)]> (users w3)) w3)
    as Hw4 by (subst w4; unfold checked; by rewrite Hrow3).
  assert (users w4
          = <[user_id := {| joined_at := joined_at account;
                            downloads_today := counter + 1;
                            last_download_date := Some (today env);
                            total_downloads := total_downloads account + 1;
                            is_premium := is_premium account |}]> (users w))
    as Hus4.
  { rewrite Hw4. cbn [users set_users].
    unfold account_of. rewrite Hrow3. cbn [default].
    rewrite Hus3, insert_insert_eq. f_equal.
    unfold checked_row, record_row, counter_on. simpl.
    by rewrite bool_decide_eq_true_2. }
  assert (videos w4 = <[video_id := bump_downloads vd]> (videos w)) as Hvi4.
  { rewrite Hw4. subst w3 w2 w1. unfold checked.
    destruct (users w !! user_id); simpl; by apply alter_present. }
  assert (stats w4 !! "total_downloads"%string
          = Some (default 0 (stats w !! "total_downloads"%string) + 1)) as Hst4.
  { rewrite Hw4. subst w3 w2 w1. unfold checked. simpl.
    rewrite lookup_insert_eq.
    destruct (users w !! user_id); simpl.
    + destruct (stats w !! "total_downloads"%string); simpl; f_equal; lia.
    + rewrite lookup_insert_ne by done.
      destruct (stats w !! "total_downloads"%string); simpl; f_equal; lia. }
  assert (sent w4 = sent w ++ [(forward, true)]) as Hse4.
  { rewrite Hw4. subst w3 w2 w1. unfold checked.
    by destruct (users w !! user_id). }
  clearbody w4. subst w'. rewrite Hrun.
  destruct (has_message update); cbn [fst snd].
  - split; [done|]. split; [exact Hus4|]. split; [exact Hvi4|].
    split; [exact Hst4|].
    cbn [sent set_sent]. by rewrite Hse4, <- app_assoc.
  - split; [done|]. split; [exact Hus4|]. split; [exact Hvi4|].
    split; [exact Hst4|exact Hse4].
Qed.

Lemma delivery_is_accounted_witness :
  let w := run_events shipped_config (calm_env 10)
             [ChannelPost (Some group_photo); ChannelPost (Some group_video)]
             empty_world in
  let w' := snd (deliver_video shipped_config (calm_env 10) (command_from 5) 5
                   "vid_abcdefgh" w) in
  let pressed := deliver_video shipped_config (calm_env 10) (button_from 5) 5
                   "vid_abcdefgh" w in
  sent w' = sent w ++
    [(ForwardMessage 5 (SOURCE_CHANNEL_ID shipped_config) 2, true);
     (ReplyText 5 (VIDEO_SENT (Some 299)), true)] /\
  fst pressed = Raised AttributeError /\
  sent (snd pressed) = sent w ++
    [(ForwardMessage 5 (SOURCE_CHANNEL_ID shipped_config) 2, true)].
Proof.
  intros w w' pressed.
  destruct (delivery_is_accounted shipped_config (calm_env 10) (command_from 5)
              "vid_abcdefgh"
              (new_video_row 10 (SOURCE_CHANNEL_ID shipped_config) 2 "Movie"
                 (Some "P"%string)) w)
    as (_ & _ & _ & _ & Hsent);
    [apply not_elem_of_nil|vm_compute; reflexivity..|].
  destruct (delivery_is_accounted shipped_config (calm_env 10) (button_from 5)
              "vid_abcdefgh"
              (new_video_row 10 (SOURCE_CHANNEL_ID shipped_config) 2 "Movie"
                 (Some "P"%string)) w)
    as (Hraised & _ & _ & _ & Hpressed);
    [apply not_elem_of_nil|vm_compute; reflexivity..|].
  split; [exact Hsent|]. split; [exact Hraised|exact Hpressed].
Defined.

Lemma checked_fields today user_id w :
  users (checked today user_id w)
    = <[user_id := checked_row today (account_of today user_id w)]> (users w) /\
  videos (checked today user_id w) = videos w /\
  sent (checked today user_id w) = sent w /\
  stats (checked today user_id w) !! "total_downloads"%string
    = stats w !! "total_downloads"%string.
Proof.
  unfold checked. destruct (users w !! user_id); simpl; [done|].
  by rewrite lookup_insert_ne.
Qed.

(** X14.  At the limit nothing is delivered.  For a user outside the
    premium list with nothing left today, whatever the video id: no
    forward is attempted, the catalog and the counter of downloads are
    as before, the account is only stamped by the check, and the one
    call that goes out is the limit notice.  On a button press even the
    notice cannot be sent and the handler ends with [AttributeError]. *)
Theorem delivery_denied_at_limit (cfg : Config) (env : Env) (update : Update)
    (video_id : string) (w : World) :
  let user_id := effective_user update in
  let account := account_of (today env) user_id w in
  let counter := counter_on (today env) account in
  let notice :=
    ReplyText user_id (LIMIT_REACHED_MESSAGE (DAILY_DOWNLOAD_LIMIT cfg)) in
  user_id ∉ PREMIUM_USERS cfg ->
  DAILY_DOWNLOAD_LIMIT cfg - counter <= 0 ->
  let w' := snd (deliver_video cfg env update user_id video_id w) in
  fst (deliver_video cfg env update user_id video_id w)
    = (if has_message update then
         if accepts env notice then Done tt else Raised TelegramError
       else Raised AttributeError) /\
  users w' = <[user_id := checked_row (today env) account]> (users w) /\
  videos w' = videos w /\
  stats w' !! "total_downloads"%string = stats w !! "total_downloads"%string /\
  sent w' = sent w ++ (if has_message update
                       then [(notice, accepts env notice)] else []).
Proof.
  intros user_id account counter notice Hp Hclosed w'.
  destruct (checked_fields (today env) user_id w) as (Hus & Hvi & Hse & Hst).
  assert (deliver_video cfg env update user_id video_id w
          = reply_text env update (LIMIT_REACHED_MESSAGE (DAILY_DOWNLOAD_LIMIT cfg))
              (checked (today env) user_id w)) as Hrun.
  { rewrite (deliver_video_regular cfg env update user_id video_id w Hp).
    fold account counter.
    assert ((DAILY_DOWNLOAD_LIMIT cfg - counter >? 0) = false) as ->
      by (rewrite Z.gtb_ltb; apply Z.ltb_ge; lia).
    reflexivity. }
  subst w'. rewrite Hrun, reply_text_world. fold user_id notice.
  destruct (has_message update); cbn [fst snd users videos stats sent set_sent].
  - by rewrite Hse.
  - by rewrite Hse, app_nil_r.
Qed.

Lemma delivery_denied_at_limit_witness :
  sent (snd (deliver_video (config_with 0 []) (calm_env 1) (command_from 5) 5
               "vid_abcdefgh" empty_world))
  = [(ReplyText 5 (LIMIT_REACHED_MESSAGE 0), true)].
Proof.
  destruct (delivery_denied_at_limit (config_with 0 []) (calm_env 1)
              (command_from 5) "vid_abcdefgh" empty_world)
    as (_ & _ & _ & _ & Hsent).
  - apply not_elem_of_nil.
  - vm_compute. discriminate.
  - exact Hsent.
Defined.

(** X15.  A video id that is not in the catalog costs nothing.  When the
    quota lets the user through and the id is unknown, no transport call
    is made for the video: the catalog and the counter of downloads are
    as before, no download is recorded (a premium account is untouched,
    any other is only stamped by the check), and the one call that goes
    out is the not-found text. *)
Theorem unknown_video_costs_nothing (cfg : Config) (env : Env)
    (update : Update) (video_id : string) (w : World) :
  let user_id := effective_user update in
  let account := account_of (today env) user_id w in
  let not_found := ReplyText user_id VIDEO_NOT_FOUND_MESSAGE in
  videos w !! video_id = None ->
  quota_open cfg (today env) user_id w = true ->
  let w' := snd (deliver_video cfg env update user_id video_id w) in
  fst (deliver_video cfg env update user_id video_id w)
    = (if has_message update then
         if accepts env not_found then Done tt else Raised TelegramError
       else Raised AttributeError) /\
  users w' = (if bool_decide (user_id ∈ PREMIUM_USERS cfg) then users w
              else <[user_id := checked_row (today env) account]> (users w)) /\
  videos w' = videos w /\
  stats w' !! "total_downloads"%string = stats w !! "total_downloads"%string /\
  sent w' = sent w ++ (if has_message update
                       then [(not_found, accepts env not_found)] else []).
Proof.
  intros user_id account not_found Hv Hopen w'.
  destruct (checked_fields (today env) user_id w) as (Hus & Hvi & Hse & Hst).
  unfold quota_open in Hopen.
  assert (exists w1,
    deliver_video cfg env update user_id video_id w
    = reply_text env update VIDEO_NOT_FOUND_MESSAGE w1 /\
    users w1 = (if bool_decide (user_id ∈ PREMIUM_USERS cfg) then users w
                else <[user_id := checked_row (today env) account]> (users w)) /\
    videos w1 = videos w /\ sent w1 = sent w /\
    stats w1 !! "total_downloads"%string = stats w !! "total_downloads"%string)
    as (w1 & Hrun & Hus1 & Hvi1 & Hse1 & Hst1).
  { destruct (decide (user_id ∈ PREMIUM_USERS cfg)) as [Hp|Hp].
    - exists w. rewrite (bool_decide_eq_true_2 _ Hp).
      split; [|done].
      rewrite (deliver_video_premium cfg env update user_id video_id w Hp).
      unfold mbind at 1, M_bind at 1.
      by rewrite (forward_video_to_user_missing env user_id video_id w Hv).
    - exists (checked (today env) user_id w).
      rewrite (bool_decide_eq_false_2 _ Hp) in *. cbn [orb] in Hopen.
      split; [|done].
      rewrite (deliver_video_regular cfg env update user_id video_id w Hp).
      rewrite Hopen. unfold mbind at 1, M_bind at 1.
      rewrite forward_video_to_user_missing by (by rewrite Hvi).
      reflexivity. }
  subst w'. rewrite Hrun, reply_text_world. fold user_id not_found.
  destruct (has_message update); cbn [fst snd users videos stats sent set_sent].
  - by rewrite Hse1.
  - by rewrite Hse1, app_nil_r.
Qed.

Lemma unknown_video_costs_nothing_witness :
  sent (snd (deliver_video shipped_config (calm_env 1) (command_from 5) 5
               "vid_zzzzzzzz" empty_world))
  = [(ReplyText 5 VIDEO_NOT_FOUND_MESSAGE, true)].
Proof.
  destruct (unknown_video_costs_nothing shipped_config (calm_env 1)
              (command_from 5) "vid_zzzzzzzz" empty_world)
    as (_ & _ & _ & _ & Hsent).
  - reflexivity.
  - vm_compute. reflexivity.
  - exact Hsent.
Defined.

(** X16.  The premium list bypasses the quota and the quota's
    bookkeeping.  For a user on the list, a stored video and a forward
    the transport accepts, whatever the limit and the counters: the
    video is forwarded, its downloads and the counter of all downloads go
    up by one, and the text sent reports no remaining number.  The
    account is never created or stamped by a check: a download is
    recorded on it only when it exists already.  On a button press the
    delivery is made and counted all the same, and the handler then ends
    with [AttributeError]. *)
Theorem premium_delivery (cfg : Config) (env : Env) (update : Update)
    (video_id : string) (vd : video_row) (w : World) :
  let user_id := effective_user update in
  let forward := ForwardMessage user_id (vr_source_channel vd) (vr_message_id vd) in
  let report := ReplyText user_id (VIDEO_SENT None) in
  user_id ∈ PREMIUM_USERS cfg ->
  videos w !! video_id = Some vd ->
  accepts env forward = true ->
  let w' := snd (deliver_video cfg env update user_id video_id w) in
  fst (deliver_video cfg env update user_id video_id w)
    = (if has_message update then
         if accepts env report then Done tt else Raised TelegramError
       else Raised AttributeError) /\
  users w' = alter (record_row (today env)) user_id (users w) /\
  (users w !! user_id = None -> users w' = users w) /\
  videos w' = <[video_id := bump_downloads vd]> (videos w) /\
  stats w' !! "total_downloads"%string
    = Some (default 0 (stats w !! "total_downloads"%string) + 1) /\
  stats w' !! "total_users"%string = stats w !! "total_users"%string /\
  sent w' = sent w ++ (forward, true) ::
              (if has_message update then [(report, accepts env report)] else []).
Proof.
  intros user_id forward report Hp Hv Hacc w'.
  set (w2 := forwarded env user_id video_id vd w).
  set (w3 := set_users (alter (record_row (today env)) user_id (users w2)) w2).
  assert (deliver_video cfg env update user_id video_id w
          = reply_text env update (VIDEO_SENT None) w3) as Hrun.
  { rewrite (deliver_video_premium cfg env update user_id video_id w Hp).
    unfold mbind at 1, M_bind at 1.
    rewrite (forward_video_to_user_accepted env user_id video_id vd w Hv Hacc).
    cbv beta iota. unfold mbind at 1, M_bind at 1.
    by rewrite record_download_run. }
  assert (users w3 = alter (record_row (today env)) user_id (users w)) as Hus
    by done.
  assert (videos w3 = <[video_id := bump_downloads vd]> (videos w)) as Hvi
    by (subst w3 w2; simpl; by apply alter_present).
  assert (stats w3 !! "total_downloads"%string
          = Some (default 0 (stats w !! "total_downloads"%string) + 1)) as Hst.
  { subst w3 w2. simpl. rewrite lookup_insert_eq.
    destruct (stats w !! "total_downloads"%string); simpl; f_equal; lia. }
  assert (stats w3 !! "total_users"%string = stats w !! "total_users"%string)
    as Hst' by (subst w3 w2; simpl; by rewrite lookup_insert_ne).
  assert (sent w3 = sent w ++ [(forward, true)]) as Hse by done.
  clearbody w3. subst w'. rewrite Hrun, reply_text_world. fold user_id report.
  assert (users w !! user_id = None ->
          alter (record_row (today env)) user_id (users w) = users w) as Hnone.
  { intros Hnone. apply map_eq; intros k. rewrite lookup_alter.
    case_decide as Hk; [subst k|done]. by rewrite Hnone. }
  destruct (has_message update); cbn [fst snd users videos stats sent set_sent];
    rewrite Hus, Hvi, Hst, Hst', Hse.
  - repeat split; try done; try (by auto). by rewrite <- app_assoc.
  - repeat split; try done; by auto.
Qed.

Lemma premium_delivery_witness :
  let w := run_events (config_with 0 [7]) (calm_env 10)
             [ChannelPost (Some group_photo); ChannelPost (Some group_video)]
             empty_world in
  users (snd (deliver_video (config_with 0 [7]) (calm_env 10) (command_from 7) 7
                "vid_abcdefgh" w))
  = users w.
Proof.
  intros w.
  destruct (premium_delivery (config_with 0 [7]) (calm_env 10) (command_from 7)
              "vid_abcdefgh"
              (new_video_row 10 (SOURCE_CHANNEL_ID shipped_config) 2 "Movie"
                 (Some "P"%string)) w)
    as (_ & _ & Hnone & _).
  - simpl. constructor.
  - vm_compute. reflexivity.
  - reflexivity.
  - apply Hnone. vm_compute. reflexivity.
Defined.

(** ** Start and verification *)

Lemma gate_subseteq env user_id required joins not_joined :
  snd (gate env user_id required joins not_joined) ⊆ joins.
Proof.
  destruct (gate_spec env user_id required joins not_joined)
    as (extra & _ & _ & _ & _ & _ & Hsub & _).
  exact Hsub.
Qed.

Lemma unsatisfied_no_requirement cfg env user_id w :
  REQUIRED_CHANNELS cfg = [] -> unsatisfied cfg env user_id w = [].
Proof. unfold unsatisfied. by intros ->. Qed.

(** X17.  [/start] without a usable parameter.  With no argument at all,
    or with a first argument that does not start with ["vid_"], the
    handler neither stores a pending request nor delivers anything: it
    sends one text, the list of channels still to join when there is one
    and the menu otherwise, and apart from the join requests the gate
    deletes every table is as before.  A pending request stored earlier
    is kept. *)
Theorem start_without_video (cfg : Config) (env : Env) (update : Update)
    (args : option (list string)) (w : World) :
  let user_id := effective_user update in
  let not_joined := unsatisfied cfg env user_id w in
  let answer :=
    ReplyText user_id (if truthy_list not_joined
                       then WELCOME_MESSAGE not_joined else SUCCESS_MENU) in
  match args with
  | Some (a :: _) => extract_video_id a
  | _ => None
  end = None ->
  let w' := snd (handle_start cfg env update args w) in
  fst (handle_start cfg env update args w)
    = (if has_message update then
         if accepts env answer then Done tt else Raised TelegramError
       else Raised AttributeError) /\
  sent w' = sent w ++ (if has_message update
                       then [(answer, accepts env answer)] else []) /\
  user_data w' = user_data w /\ users w' = users w /\ videos w' = videos w /\
  stats w' = stats w /\ join_requests w' ⊆ join_requests w.
Proof.
  intros user_id not_joined answer Hargs w'.
  assert (exists w1,
    handle_start cfg env update args w
    = reply_text env update
        (if truthy_list not_joined then WELCOME_MESSAGE not_joined
         else SUCCESS_MENU) w1 /\
    sent w1 = sent w /\ user_data w1 = user_data w /\ users w1 = users w /\
    videos w1 = videos w /\ stats w1 = stats w /\
    join_requests w1 ⊆ join_requests w)
    as (w1 & Hrun & Hse & Hud & Hus & Hvi & Hst & Hjr).
  { unfold handle_start. rewrite Hargs. fold user_id.
    destruct (truthy_list (REQUIRED_CHANNELS cfg)) eqn:Hreq.
    - exists (set_join_requests
                (snd (gate env user_id (REQUIRED_CHANNELS cfg)
                        (join_requests w) [])) w).
      split.
      + unfold mbind at 1, M_bind at 1. unfold mbind at 1, M_bind at 1.
        rewrite check_all_channels_run. fold not_joined. cbv beta iota.
        destruct (truthy_list not_joined); cbn [negb].
        * unfold mbind at 1, M_bind at 1. cbn [mret M_ret].
          unfold mbind at 1, M_bind at 1.
          by destruct (reply_text env update _ _) as [[[]|e] w2].
        * reflexivity.
      + cbn [sent user_data users videos stats join_requests set_join_requests].
        repeat split; try done. apply gate_subseteq.
    - exists w. split; [|done].
      assert (not_joined = []) as ->.
      { apply unsatisfied_no_requirement.
        by destruct (REQUIRED_CHANNELS cfg). }
      reflexivity. }
  subst w'. rewrite Hrun, reply_text_world. fold user_id answer.
  destruct (has_message update);
    cbn [fst snd sent user_data users videos stats join_requests set_sent].
  - by rewrite Hse.
  - by rewrite Hse, app_nil_r.
Qed.

Lemma start_without_video_witness :
  sent (snd (handle_start shipped_config (outside_env 1) (command_from 5)
               (Some ["hello"%string]) empty_world))
  = [(ReplyText 5 (WELCOME_MESSAGE [ChanName "AFK_B"; ChanId (-1003649746851)]),
      true)].
Proof.
  destruct (start_without_video shipped_config (outside_env 1) (command_from 5)
              (Some ["hello"%string]) empty_world)
    as (_ & Hsent & _); [reflexivity|].
  exact Hsent.
Defined.

Lemma unsatisfied_set_sent cfg env user_id log w :
  unsatisfied cfg env user_id (set_sent log w) = unsatisfied cfg env user_id w.
Proof. reflexivity. Qed.

Lemma bot_call_run env c w :
  bot_call env c w
  = (if accepts env c then Done tt else Raised TelegramError,
     set_sent (sent w ++ [(c, accepts env c)]) w).
Proof. unfold bot_call. by destruct (accepts env c). Qed.

(** X18.  The verification button without a delivery.  On an update
    that is no button press the handler raises before any call.
    Otherwise, while some required channel is unsatisfied, or when no
    pending request is stored for the user, the handler delivers nothing
    and keeps the stored request as it is: it answers the button, then
    edits the message to the failure text with the channels left, or to
    the success text followed by the menu, stopping at the first call the
    transport refuses; apart from the join requests the gate deletes,
    every table is as before. *)
Theorem verification_without_delivery (cfg : Config) (env : Env)
    (update : Update) (w : World) :
  let user_id := effective_user update in
  let not_joined := unsatisfied cfg env user_id w in
  let calls :=
    AnswerCallbackQuery user_id ::
    (if truthy_list not_joined
     then [EditMessageText user_id (NOT_JOINED_MESSAGE not_joined)]
     else [EditMessageText user_id SUCCESS_MESSAGE;
           ReplyText user_id WELCOME_MENU]) in
  let w' := snd (handle_verify_callback cfg env update w) in
  (has_callback_query update = false ->
   handle_verify_callback cfg env update w = (Raised AttributeError, w)) /\
  (has_callback_query update = true ->
   truthy_list not_joined = true \/
   truthy_ostr (user_data w !! user_id) = false ->
   fst (handle_verify_callback cfg env update w)
     = (if forallb (accepts env) calls then Done tt else Raised TelegramError) /\
   sent w' = sent w ++ attempted env calls /\
   user_data w' = user_data w /\ users w' = users w /\ videos w' = videos w /\
   stats w' = stats w /\ join_requests w' ⊆ join_requests w).
Proof.
  intros user_id not_joined calls w'. split.
  - intros Hq. unfold handle_verify_callback. by rewrite Hq.
  - intros Hq Hcase. subst w'.
    remember (handle_verify_callback cfg env update w) as res eqn:Hres.
    unfold handle_verify_callback in Hres. rewrite Hq in Hres.
    cbn [negb] in Hres. fold user_id in Hres.
    unfold mbind at 1, M_bind at 1 in Hres. rewrite bot_call_run in Hres.
    subst calls. cbn [forallb attempted].
    destruct (accepts env (AnswerCallbackQuery user_id)) eqn:Hans;
      [|subst res; by repeat split].
    unfold mbind at 1, M_bind at 1 in Hres.
    rewrite check_all_channels_run in Hres. fold user_id in Hres.
    rewrite !unsatisfied_set_sent in Hres.
    cbn [set_sent sent join_requests] in Hres. fold not_joined in Hres.
    cbv beta iota in Hres.
    pose proof (gate_subseteq env user_id (REQUIRED_CHANNELS cfg)
                  (join_requests w) []) as Hsub.
    destruct (truthy_list not_joined) eqn:Hnj; cbn [negb andb] in *;
      cbn [forallb attempted].
    + rewrite bot_call_run in Hres. subst res.
      cbn [fst snd forallb attempted sent set_sent set_join_requests user_data
           users videos stats join_requests].
      rewrite andb_true_r.
      destruct (accepts env (EditMessageText user_id _));
        repeat split; try done; by rewrite <- ?app_assoc.
    + destruct Hcase as [?|Hnone]; [done|].
      unfold mbind at 1, M_bind at 1, gets in Hres. cbv beta iota in Hres.
      cbn [user_data set_join_requests set_sent] in Hres.
      assert ((bot_call env (EditMessageText user_id SUCCESS_MESSAGE);;
               bot_call env (ReplyText user_id WELCOME_MENU)) =
              (bot_call env (EditMessageText user_id SUCCESS_MESSAGE) ≫=
               fun _ => bot_call env (ReplyText user_id WELCOME_MENU)))
        as Hsame by reflexivity.
      assert (res =
        (bot_call env (EditMessageText user_id SUCCESS_MESSAGE);;
         bot_call env (ReplyText user_id WELCOME_MENU))
          (set_join_requests
             (snd (gate env user_id (REQUIRED_CHANNELS cfg) (join_requests w) []))
             (set_sent (sent w ++ [(AnswerCallbackQuery user_id, true)]) w)))
        as Hres'.
      { rewrite Hres. destruct (user_data w !! user_id) as [v|]; [|done].
        cbn [truthy_ostr] in Hnone. by rewrite Hnone. }
      clear Hres. unfold mbind, M_bind in Hres'. rewrite bot_call_run in Hres'.
      destruct (accepts env (EditMessageText user_id SUCCESS_MESSAGE)).
      * rewrite bot_call_run in Hres'. subst res.
        cbn [fst snd forallb attempted sent set_sent set_join_requests user_data
             users videos stats join_requests].
        rewrite andb_true_r.
        destruct (accepts env (ReplyText user_id WELCOME_MENU));
          repeat split; try done; by rewrite <- ?app_assoc.
      * subst res.
        cbn [fst snd forallb attempted sent set_sent set_join_requests user_data
             users videos stats join_requests].
        repeat split; try done; by rewrite <- ?app_assoc.
Qed.

Lemma verification_without_delivery_witness :
  sent (snd (handle_verify_callback shipped_config (outside_env 1)
               (button_from 5) empty_world))
  = [(AnswerCallbackQuery 5, true);
     (EditMessageText 5
        (NOT_JOINED_MESSAGE [ChanName "AFK_B"; ChanId (-1003649746851)]), true)].
Proof.
  destruct (verification_without_delivery shipped_config (outside_env 1)
              (button_from 5) empty_world) as [_ Hpress].
  destruct Hpress as (_ & Hsent & _); [reflexivity|by left|].
  exact Hsent.
Defined.

(** ** The delete buttons of the console *)

Lemma is_lower_alnum_not_underscore c : is_lower_alnum c = true -> c <> "_"%char.
Proof. intros H ->. discriminate H. Qed.

Lemma In_append (c : ascii) (p s : string) :
  In c (list_ascii_of_string s) -> In c (list_ascii_of_string (p +:+ s)).
Proof. induction p as [|a p IH]; simpl; auto. Qed.

Lemma str_replace_del_absent (s : string) :
  (forall c, In c (list_ascii_of_string s) -> c <> "_"%char) ->
  str_replace_from "del_" EmptyString 0 s = s.
Proof.
  induction s as [|c s IH]; intros Hno; [reflexivity|].
  cbn [str_replace_from].
  destruct (startswith (String c s) "del_") eqn:Hp.
  - apply prefix_app in Hp as [r Hr].
    exfalso. apply (Hno "_"%char); [|reflexivity].
    rewrite Hr. simpl. auto.
  - f_equal. apply IH. intros a Ha. apply Hno. simpl. auto.
Qed.

Lemma generated_suffix (rand : nat -> nat) :
  exists suffix,
    generate_video_id rand = ("vid_" +:+ suffix)%string /\
    forall c, In c (list_ascii_of_string suffix) -> c <> "_"%char.
Proof.
  eexists. split; [reflexivity|].
  intros c Hc. rewrite list_ascii_of_string_of_list_ascii in Hc.
  apply in_map_iff in Hc as (i & <- & _).
  apply is_lower_alnum_not_underscore, secrets_choice_chars.
Qed.

Lemma str_replace_del_generated (video_id : string) :
  generated video_id ->
  str_replace "del_" EmptyString ("del_" +:+ video_id) = video_id.
Proof.
  intros [rand ->].
  destruct (generated_suffix rand) as (suffix & -> & Hno).
  change (str_replace "del_" EmptyString ("del_" +:+ "vid_" +:+ suffix))
    with ("vid_" +:+ str_replace_from "del_" EmptyString 0 suffix)%string.
  by rewrite str_replace_del_absent.
Qed.

Lemma console_run console_accepts c s :
  console console_accepts c s
  = (if console_accepts c then Done tt else Raised TelegramError,
     {| world := world s;
        console_sent := console_sent s ++ [(c, console_accepts c)] |}).
Proof. unfold console. by destruct (console_accepts c). Qed.

Lemma lift_delete_video video_id s :
  lift (db (delete_video video_id)) s
  = (Done (bool_decide (is_Some (videos (world s) !! video_id))),
     {| world := set_videos (delete video_id (videos (world s))) (world s);
        console_sent := console_sent s |}).
Proof. unfold lift. by rewrite delete_video_run. Qed.

(** What the delete callback does to the process state: nothing, or the
    deletion of one row. *)
Lemma handle_video_delete_callback_world ADMIN_IDS console_accepts user_id data s :
  let s' := snd (handle_video_delete_callback ADMIN_IDS console_accepts
                   user_id data s) in
  world s' = world s \/
  exists video_id,
    user_id ∈ ADMIN_IDS /\ console_accepts (AnswerQuery user_id) = true /\
    world s' = set_videos (delete video_id (videos (world s))) (world s).
Proof.
  intros s'. subst s'.
  remember (handle_video_delete_callback ADMIN_IDS console_accepts user_id
              data s) as res eqn:Hres.
  unfold handle_video_delete_callback, is_admin in Hres.
  case_bool_decide as Hadmin; cbn [negb] in Hres.
  - unfold mbind at 1, C_bind at 1 in Hres. rewrite console_run in Hres.
    destruct (console_accepts (AnswerQuery user_id)) eqn:Hans;
      [|subst res; by left].
    destruct (String.eqb data "admin_back").
    { rewrite console_run in Hres. subst res. by left. }
    destruct (startswith data "del_").
    { right. eexists. split; [done|]. split; [done|].
      unfold mbind, C_bind in Hres. rewrite lift_delete_video in Hres.
      destruct (bool_decide _); rewrite console_run in Hres; by subst res. }
    destruct (startswith data "confirm_del_"); [|subst res; by left].
    right. eexists. split; [done|]. split; [done|].
    unfold mbind, C_bind in Hres. rewrite lift_delete_video in Hres.
    destruct (bool_decide _); rewrite console_run in Hres; by subst res.
  - rewrite console_run in Hres. subst res. by left.
Qed.

(** X19.  The delete buttons of the console.  Whoever presses and
    whatever the button carries, the callback changes nothing but the
    catalog, and the catalog only loses rows.  A press by someone outside
    [ADMIN_IDS] changes nothing and is answered with the refusal; so
    does a press whose answer the transport refuses.  For an
    administrator, the button made for a generated id ([del_] followed by
    the id) deletes the row of exactly that id and reports, with that id,
    whether it was there. *)
Theorem delete_button (ADMIN_IDS : list Z) (console_accepts : console_call -> bool)
    (user_id : Z) (data : string) (s : Console) :
  let s' := snd (handle_video_delete_callback ADMIN_IDS console_accepts
                   user_id data s) in
  (users (world s') = users (world s) /\ stats (world s') = stats (world s) /\
   join_requests (world s') = join_requests (world s) /\
   user_data (world s') = user_data (world s) /\
   pending_posts (world s') = pending_posts (world s) /\
   media_groups (world s') = media_groups (world s) /\
   sent (world s') = sent (world s) /\
   videos (world s') ⊆ videos (world s)) /\
  (user_id ∉ ADMIN_IDS ->
   world s' = world s /\
   console_sent s' = console_sent s ++
     [(AnswerNotAuthorized user_id,
       console_accepts (AnswerNotAuthorized user_id))]) /\
  (console_accepts (AnswerQuery user_id) = false -> world s' = world s) /\
  (forall video_id,
     user_id ∈ ADMIN_IDS -> console_accepts (AnswerQuery user_id) = true ->
     generated video_id -> data = ("del_" +:+ video_id)%string ->
     let report :=
       EditConsole user_id
         (if bool_decide (is_Some (videos (world s) !! video_id))
          then DELETED_SUCCESSFULLY video_id else NOT_FOUND video_id) in
     videos (world s') = delete video_id (videos (world s)) /\
     console_sent s' = console_sent s ++
       [(AnswerQuery user_id, true); (report, console_accepts report)]).
Proof.
  intros s'.
  pose proof (handle_video_delete_callback_world ADMIN_IDS console_accepts
                user_id data s) as Hworld.
  cbv zeta in Hworld. fold s' in Hworld.
  split; [|split; [|split]].
  - destruct Hworld as [->|(v & _ & _ & ->)]; [done|].
    repeat split; try done. apply delete_subseteq.
  - intros Hout. destruct Hworld as [Hw|(v & Hin & _)]; [|done].
    split; [done|]. subst s'. unfold handle_video_delete_callback, is_admin.
    rewrite (bool_decide_eq_false_2 _ Hout). cbn [negb].
    by rewrite console_run.
  - intros Hans. destruct Hworld as [Hw|(v & _ & Hacc & _)]; [done|congruence].
  - intros video_id Hadmin Hans Hgen -> report. subst s' report.
    remember (handle_video_delete_callback ADMIN_IDS console_accepts user_id
                ("del_" +:+ video_id) s) as res eqn:Hres.
    unfold handle_video_delete_callback, is_admin in Hres.
    rewrite (bool_decide_eq_true_2 _ Hadmin) in Hres. cbn [negb] in Hres.
    unfold mbind at 1, C_bind at 1 in Hres. rewrite console_run, Hans in Hres.
    assert (String.eqb ("del_" +:+ video_id) "admin_back" = false) as Hback
      by reflexivity.
    assert (startswith ("del_" +:+ video_id) "del_" = true) as Hdel
      by (apply prefix_app; by eexists).
    rewrite Hback, Hdel, (str_replace_del_generated video_id Hgen) in Hres.
    unfold mbind, C_bind in Hres. rewrite lift_delete_video in Hres.
    cbn [world console_sent] in Hres.
    destruct (bool_decide (is_Some (videos (world s) !! video_id)));
      rewrite console_run in Hres; subst res;
      cbn [snd world console_sent videos set_videos];
      by rewrite <- app_assoc.
Qed.

Lemma delete_button_witness :
  let w := snd (db (save_video 10 (fun i => i) 1 2 "Movie" None) empty_world) in
  videos (world (snd (handle_video_delete_callback [7] (fun _ => true) 7
                        "del_vid_abcdefgh"
                        {| world := w; console_sent := [] |})))
  = delete "vid_abcdefgh"%string (videos w).
Proof.
  intros w.
  destruct (delete_button [7] (fun _ => true) 7 "del_vid_abcdefgh"
              {| world := w; console_sent := [] |}) as (_ & _ & _ & Hdel).
  destruct (Hdel "vid_abcdefgh"%string) as [Hvideos _].
  - constructor.
  - reflexivity.
  - by exists (fun i => i).
  - reflexivity.
  - exact Hvideos.
Defined.

(** ** Invariants of the reachable states *)

Section Preserves.
Context (I : World -> Prop).

Lemma preserves_ret {A} (a : A) : preserves I (mret a).
Proof. by apply hoare_ret. Qed.

Lemma preserves_raise {A} (e : exn) : preserves I (@raise A e).
Proof. by apply hoare_raise. Qed.

Lemma preserves_gets {A} (f : World -> A) : preserves I (gets f).
Proof. intros w Hw. exact Hw. Qed.

Lemma preserves_modify (f : World -> World) :
  (forall w, I w -> I (f w)) -> preserves I (modify f).
Proof. intros Hf w Hw. by apply Hf. Qed.

Lemma preserves_bind {A B} (m : M A) (k : A -> M B) :
  preserves I m -> (forall a, preserves I (k a)) -> preserves I (m ≫= k).
Proof. intros Hm Hk. eapply hoare_bind; [exact Hm|exact Hk]. Qed.

Lemma preserves_try {A} (body handler : M A) :
  preserves I body -> preserves I handler ->
  preserves I (try_except_TelegramError body handler).
Proof.
  intros Hb Hh w Hw. unfold try_except_TelegramError.
  specialize (Hb w Hw). destruct (body w) as [[a|[]] w1]; try done.
  by apply Hh.
Qed.

Lemma preserves_for_each {A} (xs : list A) (body : A -> M unit) :
  (forall x, preserves I (body x)) -> preserves I (for_each xs body).
Proof.
  intros H. induction xs as [|x xs IH]; simpl; [apply preserves_ret|].
  apply preserves_bind; [apply H|done].
Qed.

Lemma preserves_final {A} (m : M A) w : preserves I m -> I w -> I (snd (m w)).
Proof. intros H Hw. by apply (hoare_final I m I H). Qed.
End Preserves.

(** One rule per shape of handler code; the leaves are closed with what
    is in the context. *)
Ltac preserves_go :=
  repeat (intros;
    lazymatch goal with
    | |- preserves _ (mret _) => apply preserves_ret
    | |- preserves _ (raise _) => apply preserves_raise
    | |- preserves _ (gets _) => apply preserves_gets
    | |- preserves _ (modify _) => apply preserves_modify
    | |- preserves _ (_ ≫= _) => apply preserves_bind
    | |- preserves _ (try_except_TelegramError _ _) => apply preserves_try
    | |- preserves _ (when _ _) => unfold when
    | |- preserves _ (for_each _ _) => apply preserves_for_each
    | |- preserves _ (if ?b then _ else _) =>
        let E := fresh "E" in
        destruct b eqn:E; try (apply andb_true_iff in E as [? ?])
    | |- preserves _ (match ?x with _ => _ end) => destruct x
    | _ => solve [eauto]
    end).

Section HandlerInvariant.
Context (cfg : Config) (I : World -> Prop).
Context (I_media_groups : forall w v, I w -> I (set_media_groups v w)).
Context (I_user_data : forall w v, I w -> I (set_user_data v w)).
Context (I_sent : forall w v, I w -> I (set_sent v w)).
Context (I_store : forall w (m : Message) ty file,
  I w -> ty = "video"%string \/ ty = "photo"%string ->
  (SOURCE_CHANNEL_ID cfg <> 0 -> chat_id m = SOURCE_CHANNEL_ID cfg) ->
  I (set_pending_posts
       (<[message_id m := {| p_type := ty; p_file_id := file;
                             p_message_id := message_id m;
                             p_chat_id := chat_id m;
                             p_caption := caption m |}]> (pending_posts w)) w)).
Context (I_unstore : forall w k,
  I w -> I (set_pending_posts (delete k (pending_posts w)) w)).
Context (I_save_video : forall now rand sc mid caption thumb,
  truthy_ostr thumb = true ->
  preserves I (db (save_video now rand sc mid (sanitize_title caption) thumb))).
Context (I_get_user : forall now user_id, preserves I (db (get_user now user_id))).
Context (I_check : forall today user_id limit,
  preserves I (db (check_daily_limit today user_id limit))).
Context (I_deliver : forall env update user_id video_id,
  preserves I (deliver_video cfg env update user_id video_id)).
Context (I_add_join : forall w user_id (chat : Z),
  I w -> I (set_join_requests ({[(user_id, pretty chat)]} ∪ join_requests w) w)).
Context (I_remove_join : forall w user_id ch,
  I w -> I (set_join_requests (join_requests w ∖ {[(user_id, ch)]}) w)).
Context (I_delete_video : forall w video_id,
  I w -> I (set_videos (delete video_id (videos w)) w)).

Lemma bot_call_preserves env c : preserves I (bot_call env c).
Proof.
  intros w Hw. unfold bot_call. destruct (accepts env c); by apply I_sent.
Qed.

Lemma reply_text_preserves env update t : preserves I (reply_text env update t).
Proof.
  unfold reply_text. pose proof (bot_call_preserves env). preserves_go.
Qed.

Lemma post_to_channels_preserves env video_id title thumb :
  preserves I (post_to_channels cfg env video_id title thumb).
Proof.
  unfold post_to_channels, bot_get_me. pose proof (bot_call_preserves env).
  preserves_go.
Qed.

Lemma handle_media_group_preserves env message :
  preserves I (handle_media_group cfg env message).
Proof.
  unfold handle_media_group, alter_group.
  pose proof (post_to_channels_preserves env).
  preserves_go.
Qed.

Lemma handle_reply_method_preserves env message replied_to :
  preserves I (handle_reply_method cfg env message replied_to).
Proof.
  unfold handle_reply_method.
  pose proof (post_to_channels_preserves env).
  preserves_go.
Qed.

Lemma handle_channel_post_preserves env channel_post :
  preserves I (handle_channel_post cfg env channel_post).
Proof.
  unfold handle_channel_post.
  destruct channel_post as [message|]; [|apply preserves_ret].
  destruct (truthy_int (SOURCE_CHANNEL_ID cfg)
            && negb (chat_id message =? SOURCE_CHANNEL_ID cfg)) eqn:Hguard;
    [apply preserves_ret|].
  assert (SOURCE_CHANNEL_ID cfg <> 0 -> chat_id message = SOURCE_CHANNEL_ID cfg)
    as Hsrc.
  { intros Hne. apply andb_false_iff in Hguard as [Hz|Hc].
    - unfold truthy_int in Hz. apply negb_false_iff, Z.eqb_eq in Hz. done.
    - by apply negb_false_iff, Z.eqb_eq in Hc. }
  destruct (truthy_ostr (media_group_id message));
    [apply handle_media_group_preserves|].
  destruct (reply_to_message message) as [replied_to|];
    [apply handle_reply_method_preserves|].
  unfold store_pending, when.
  destruct (video message) as [v|].
  - apply preserves_modify. intros w Hw. apply I_store; auto.
  - destruct (truthy_list (photo message)); [|apply preserves_ret].
    apply preserves_modify. intros w Hw. apply I_store; auto.
Qed.

Lemma check_all_channels_preserves env user_id :
  preserves I (check_all_channels cfg env user_id).
Proof.
  intros w Hw. rewrite check_all_channels_run.
  unfold unsatisfied. generalize (@nil channel_ref).
  revert w Hw. induction (REQUIRED_CHANNELS cfg) as [|[ch info] rest IH];
    intros w Hw nj.
  - simpl. by destruct w.
  - cbn [gate].
    destruct (live_member env user_id ch).
    + specialize (IH _ (I_remove_join w user_id (py_str ch) Hw) nj).
      exact IH.
    + destruct (marked_private info && _); apply IH; done.
Qed.

Lemma handle_start_preserves env update args :
  preserves I (handle_start cfg env update args).
Proof.
  unfold handle_start.
  pose proof (reply_text_preserves env).
  pose proof (check_all_channels_preserves env).
  preserves_go.
Qed.

Lemma handle_verify_callback_preserves env update :
  preserves I (handle_verify_callback cfg env update).
Proof.
  unfold handle_verify_callback.
  pose proof (bot_call_preserves env).
  pose proof (check_all_channels_preserves env).
  preserves_go.
Qed.

Lemma handle_my_stats_preserves env update :
  preserves I (handle_my_stats cfg env update).
Proof.
  unfold handle_my_stats.
  pose proof (reply_text_preserves env).
  preserves_go.
Qed.

Lemma handle_profile_preserves env update :
  preserves I (handle_profile cfg env update).
Proof.
  unfold handle_profile.
  pose proof (reply_text_preserves env).
  preserves_go.
Qed.

Lemma handle_preserves env e : preserves I (handle cfg env e).
Proof.
  destruct e; simpl.
  - apply handle_channel_post_preserves.
  - apply handle_start_preserves.
  - apply handle_verify_callback_preserves.
  - apply handle_my_stats_preserves.
  - apply handle_profile_preserves.
  - intros w Hw. rewrite on_join_request_run. by apply I_add_join.
Qed.

Lemma reachable_invariant w : I empty_world -> reachable cfg w -> I w.
Proof.
  intros Hinit. induction 1 as [|w w' _ IH (env & e & <-)].
  - exact Hinit.
  - by apply preserves_final; [apply handle_preserves|].
Qed.

Lemma reachable_all_invariant ADMIN_IDS w :
  I empty_world -> reachable_all cfg ADMIN_IDS w -> I w.
Proof.
  intros Hinit. induction 1 as [|w w' _ IH (env & e & <-)|w acc u d log _ IH].
  - exact Hinit.
  - by apply preserves_final; [apply handle_preserves|].
  - destruct (handle_video_delete_callback_world ADMIN_IDS acc u d
                {| world := w; console_sent := log |})
      as [->|(v & _ & _ & ->)]; [done|].
    by apply I_delete_video.
Qed.
End HandlerInvariant.

Section DeliverInvariant.
Context (cfg : Config) (I : World -> Prop).
Context (I_sent : forall w v, I w -> I (set_sent v w)).
Context (I_check : forall today user_id limit,
  preserves I (db (check_daily_limit today user_id limit))).
Context (I_record : forall today user_id,
  preserves I (db (record_download today user_id))).
Context (I_increment : forall w video_id,
  is_Some (videos w !! video_id) -> I w ->
  I (snd (db (increment_downloads video_id) w))).

Lemma forward_video_to_user_preserves env user_id video_id :
  preserves I (forward_video_to_user env user_id video_id).
Proof.
  intros w Hw.
  destruct (videos w !! video_id) as [vd|] eqn:Hv.
  - destruct (accepts env (ForwardMessage user_id (vr_source_channel vd)
                             (vr_message_id vd))) eqn:Hacc.
    + rewrite (forward_video_to_user_accepted env user_id video_id vd w Hv Hacc).
      change (I (snd (db (increment_downloads video_id)
                        (set_sent (sent w ++ [(ForwardMessage user_id
                                                 (vr_source_channel vd)
                                                 (vr_message_id vd), true)]) w)))).
      apply I_increment; [by exists vd|by apply I_sent].
    + rewrite (forward_video_to_user_refused env user_id video_id vd w Hv Hacc).
      by apply I_sent.
  - by rewrite (forward_video_to_user_missing env user_id video_id w Hv).
Qed.

Lemma deliver_video_preserves env update user_id video_id :
  preserves I (deliver_video cfg env update user_id video_id).
Proof.
  unfold deliver_video.
  pose proof (reply_text_preserves I I_sent env).
  pose proof (forward_video_to_user_preserves env).
  preserves_go.
Qed.
End DeliverInvariant.

Lemma reachable_all_of_reachable cfg ADMIN_IDS w :
  reachable cfg w -> reachable_all cfg ADMIN_IDS w.
Proof.
  induction 1 as [|w w' _ IH Hstep]; [apply reachable_all_init|].
  by eapply reachable_all_step.
Qed.

(** Invariants of a part of the state that the ledger and the catalog
    functions leave alone. *)
Section FieldInvariant.
Context {T : Type} (field : World -> T) (phi : T -> Prop).
Context (field_users : forall w v, field (set_users v w) = field w).
Context (field_stats : forall w v, field (set_stats v w) = field w).
Context (field_videos : forall w v, field (set_videos v w) = field w).
Context (field_sent : forall w v, field (set_sent v w) = field w).

Lemma same_field_refl w : same_field field w w.
Proof. done. Qed.

Lemma same_field_trans w1 w2 w3 :
  same_field field w1 w2 -> same_field field w2 w3 -> same_field field w1 w3.
Proof. unfold same_field. congruence. Qed.

Lemma field_preserves {A} (m : M A) :
  frames (same_field field) m -> preserves (fun w => phi (field w)) m.
Proof.
  intros Hf w Hw. specialize (Hf w). unfold same_field in Hf.
  destruct (m w) as [[a|e] w1]; simpl in *; by rewrite Hf.
Qed.

Lemma save_video_same_field now rand sc mid title thumb :
  frames (same_field field) (db (save_video now rand sc mid title thumb)).
Proof.
  intros w. unfold same_field.
  destruct (videos w !! generate_video_id rand) as [old|] eqn:Hid.
  - by rewrite save_video_collides by (by eexists).
  - rewrite save_video_run by done. unfold saved. cbn [snd].
    by rewrite field_stats, field_videos.
Qed.

Lemma get_user_same_field now user_id :
  frames (same_field field) (db (get_user now user_id)).
Proof.
  apply get_user_frames;
    [apply same_field_refl|apply same_field_trans
    |intros; apply field_users|intros; apply field_stats].
Qed.

Lemma check_daily_limit_same_field today user_id limit :
  frames (same_field field) (db (check_daily_limit today user_id limit)).
Proof.
  apply check_daily_limit_frames;
    [apply same_field_refl|apply same_field_trans
    |intros; apply field_users|intros; apply field_stats].
Qed.

Lemma deliver_video_field_preserves cfg env update user_id video_id :
  preserves (fun w => phi (field w))
    (deliver_video cfg env update user_id video_id).
Proof.
  apply deliver_video_preserves.
  - intros w v. by rewrite field_sent.
  - intros. apply field_preserves, check_daily_limit_same_field.
  - intros today uid w Hw. rewrite record_download_run. cbn.
    by rewrite field_users.
  - intros w vid _ Hw. rewrite increment_downloads_run. cbn [snd].
    by rewrite field_stats, field_videos.
Qed.
End FieldInvariant.

(** *** The daily limit *)

Lemma reachable_all_within_limit cfg ADMIN_IDS w :
  0 <= DAILY_DOWNLOAD_LIMIT cfg ->
  reachable_all cfg ADMIN_IDS w -> within_limit cfg w.
Proof.
  intros Hlim.
  induction 1 as [|w w' _ IH (env & e & <-)|w acc u d log _ IH].
  - intros u r H. simpl in H. by rewrite lookup_empty in H.
  - by apply (hoare_final _ _ _ (handle_within cfg Hlim env e)).
  - destruct (handle_video_delete_callback_world ADMIN_IDS acc u d
                {| world := w; console_sent := log |})
      as [->|(v & _ & _ & ->)]; [done|].
    intros k r. simpl. apply IH.
Qed.

(** C7, as the code has it.  The check returns [remaining = limit - counter],
    the counter being the stored one when the account is stamped today
    and zero otherwise, and [allowed = (remaining > 0)], computed before
    anything is consumed.  In a state reached from empty tables through
    the handlers, each handled to its end before the next (the channel
    posts, [/start], the verification button, the statistics and profile
    buttons, the join requests and the delete buttons of the admin
    console), with a configured limit that is not negative, the value is
    not negative for an account outside the premium list. *)
Theorem check_daily_limit_remaining (cfg : Config) (ADMIN_IDS : list Z)
    (env : Env) (w : World) (user_id limit : Z) :
  let remaining :=
    limit - counter_on (today env) (account_of (today env) user_id w) in
  fst (db (check_daily_limit (today env) user_id limit) w)
    = Done (remaining >? 0, remaining) /\
  (reachable_all cfg ADMIN_IDS w -> 0 <= DAILY_DOWNLOAD_LIMIT cfg ->
   user_id ∉ PREMIUM_USERS cfg -> limit = DAILY_DOWNLOAD_LIMIT cfg ->
   0 <= remaining).
Proof.
  intros remaining. split.
  - destruct (check_daily_limit_run (today env) user_id limit w) as (w' & -> & _).
    reflexivity.
  - intros Hreach Hlim Hnp ->. subst remaining.
    pose proof (reachable_all_within_limit cfg ADMIN_IDS w Hlim Hreach) as Hw.
    unfold counter_on, account_of. case_bool_decide; [|lia].
    destruct (users w !! user_id) as [r|] eqn:Hr; simpl; [|lia].
    specialize (Hw user_id r Hr Hnp). lia.
Qed.

Lemma check_daily_limit_remaining_witness :
  let cfg := config_with 1 [] in
  let w := run_events cfg (calm_env 10) download_and_profile empty_world in
  let w' := world (snd (handle_video_delete_callback [1] (fun _ => true) 1
                          "del_vid_abcdefgh"
                          {| world := w; console_sent := [] |})) in
  fst (db (check_daily_limit 10 5 1) w') = Done (false, 0) /\
  0 <= 1 - counter_on 10 (account_of 10 5 w').
Proof.
  intros cfg w w'. split; [vm_compute; reflexivity|].
  apply (check_daily_limit_remaining cfg [1] (calm_env 10) w' 5 1).
  - apply reachable_all_console, reachable_all_of_reachable,
      reachable_run_events, reachable_init.
  - simpl; lia.
  - simpl. apply not_elem_of_nil.
  - reflexivity.
Defined.

(** C7 as stated fails.  After a premium user's two deliveries under a
    limit of one, a reachable state, the check returns [-1]; and in the
    state the shipped configuration reaches when user 5 has fetched one
    video, a check with limit 0 returns [-1] as well. *)
Lemma premium_remaining_negative :
  let cfg := config_with 1 [7] in
  let w := run_events cfg (calm_env 10) premium_day empty_world in
  let w5 := run_events shipped_config (calm_env 10) one_download empty_world in
  reachable cfg w /\
  fst (db (check_daily_limit 10 7 (DAILY_DOWNLOAD_LIMIT cfg)) w)
    = Done (false, -1) /\
  reachable shipped_config w5 /\
  fst (db (check_daily_limit 10 5 0) w5) = Done (false, -1) /\
  ~ (0 <= -1).
Proof.
  split; [|split; [|split; [|split]]].
  - apply reachable_run_events, reachable_init.
  - vm_compute. reflexivity.
  - apply reachable_run_events, reachable_init.
  - vm_compute. reflexivity.
  - lia.
Qed.

(** *** The counters *)

Lemma size_alter `{Countable K} {A} (f : A -> A) (k : K) (m : gmap K A) :
  size (alter f k m) = size m.
Proof. rewrite <- !(size_dom (D := gset K)). by rewrite dom_alter_L. Qed.

Section Counted.
Context (cfg : Config) (R : Z -> Z -> Prop).
Context (R_succ : forall a b, R a b -> R (a + 1) (b + 1)).

Lemma save_video_counted now rand sc mid title thumb :
  preserves (counted R) (db (save_video now rand sc mid title thumb)).
Proof.
  intros w [Hu Hv].
  destruct (videos w !! generate_video_id rand) as [old|] eqn:Hid.
  - rewrite save_video_collides by (by eexists). done.
  - rewrite save_video_run by done. unfold saved, counted. simpl.
    rewrite lookup_insert_ne by done. split; [done|].
    rewrite lookup_insert_eq, map_size_insert_None by done. simpl.
    replace (Z.of_nat (S (size (videos w))))
      with (Z.of_nat (size (videos w)) + 1) by lia.
    destruct (stats w !! "total_videos"%string); simpl in *;
      [by apply R_succ|by apply (R_succ _ 0)].
Qed.

Lemma get_user_counted now user_id :
  preserves (counted R) (db (get_user now user_id)).
Proof.
  intros w [Hu Hv]. rewrite get_user_run.
  destruct (users w !! user_id) as [r|] eqn:Hrow; [done|].
  unfold counted. simpl. rewrite lookup_insert_eq.
  rewrite lookup_insert_ne by done. split; [|done].
  rewrite map_size_insert_None by done.
  destruct (stats w !! "total_users"%string); simpl in *; lia.
Qed.

Lemma check_daily_limit_counted today user_id limit :
  preserves (counted R) (db (check_daily_limit today user_id limit)).
Proof.
  intros w [Hu Hv]. rewrite check_daily_limit_world. unfold checked, counted.
  destruct (users w !! user_id) as [r|] eqn:Hrow; simpl.
  - rewrite map_size_insert_Some by (by eexists). done.
  - rewrite lookup_insert_eq, lookup_insert_ne by done. split; [|done].
    rewrite map_size_insert_None by done.
    destruct (stats w !! "total_users"%string); simpl in *; lia.
Qed.

Lemma record_download_counted today user_id :
  preserves (counted R) (db (record_download today user_id)).
Proof.
  intros w [Hu Hv]. rewrite record_download_run. unfold counted. simpl.
  by rewrite size_alter.
Qed.

Lemma increment_downloads_counted w video_id :
  counted R w -> counted R (snd (db (increment_downloads video_id) w)).
Proof.
  intros [Hu Hv]. rewrite increment_downloads_run. unfold counted. simpl.
  rewrite !lookup_insert_ne by done. by rewrite size_alter.
Qed.

End Counted.

Lemma counted_empty (R : Z -> Z -> Prop) : R 0 0 -> counted R empty_world.
Proof. intros H. split; [done|]. exact H. Qed.

(** X20.  The counters agree with the tables.  In every state reached
    from empty tables, through the handlers (the profile button, which
    opens an account, among them) and the delete buttons of the console,
    [total_users] is the number of accounts and [total_videos] is at
    least the number of rows of the catalog; as long as no row is
    deleted from the console, [total_videos] is that number exactly. *)
Theorem counters_agree (cfg : Config) (ADMIN_IDS : list Z) (w : World) :
  (reachable_all cfg ADMIN_IDS w ->
   default 0 (stats w !! "total_users"%string) = Z.of_nat (size (users w)) /\
   Z.of_nat (size (videos w)) <= default 0 (stats w !! "total_videos"%string)) /\
  (reachable cfg w ->
   default 0 (stats w !! "total_videos"%string) = Z.of_nat (size (videos w))).
Proof.
  split.
  - intros Hreach.
    apply (reachable_all_invariant cfg (counted Z.le)) with (ADMIN_IDS := ADMIN_IDS);
      try done.
    + intros. apply save_video_counted. intros; lia.
    + apply get_user_counted.
    + apply check_daily_limit_counted.
    + intros. apply deliver_video_preserves; try done.
      * apply check_daily_limit_counted.
      * apply record_download_counted.
      * intros. by apply increment_downloads_counted.
    + intros w0 vid [Hu Hv]. split; [done|]. simpl.
      rewrite map_size_delete. destruct (videos w0 !! vid); simpl; lia.
  - intros Hreach.
    assert (counted (fun a b => b = a) w) as [_ Hv]; [|exact Hv].
    apply (reachable_invariant cfg (counted (fun a b => b = a))); try done.
    + intros. apply save_video_counted. intros; lia.
    + apply get_user_counted.
    + apply check_daily_limit_counted.
    + intros. apply deliver_video_preserves; try done.
      * apply check_daily_limit_counted.
      * apply record_download_counted.
      * intros. by apply increment_downloads_counted.
Qed.

Lemma counters_agree_witness :
  let w := run_events shipped_config (calm_env 10) download_and_profile
             empty_world in
  default 0 (stats w !! "total_users"%string) = 2 /\
  size (users w) = 2%nat /\
  default 0 (stats w !! "total_videos"%string) = Z.of_nat (size (videos w)).
Proof.
  intros w.
  destruct (counters_agree shipped_config [] w) as [Hall Hhandlers].
  split; [vm_compute; reflexivity|]. split.
  - apply Nat2Z.inj. rewrite <- (proj1 (Hall
      (reachable_all_of_reachable _ _ _
         (reachable_run_events _ _ _ _ (reachable_init _))))).
    vm_compute. reflexivity.
  - apply Hhandlers, reachable_run_events, reachable_init.
Defined.

(** *** The catalog *)

Lemma catalog_ok_same w w' : videos w' = videos w -> catalog_ok w -> catalog_ok w'.
Proof. intros Hv Hw id row. rewrite Hv. apply Hw. Qed.

Lemma save_video_catalog_ok now rand sc mid caption thumb :
  truthy_ostr thumb = true ->
  preserves catalog_ok (db (save_video now rand sc mid (sanitize_title caption) thumb)).
Proof.
  intros Hthumb w Hw.
  destruct (videos w !! generate_video_id rand) as [old|] eqn:Hid.
  - rewrite save_video_collides by (by eexists). done.
  - rewrite save_video_run by done. intros id row. unfold saved. simpl.
    rewrite lookup_insert. case_decide as Hk; [|apply Hw].
    intros [= <-]. subst id. simpl.
    destruct (sanitize_title_bounds caption) as (Hne & Hlen).
    split; [by exists rand|]. by repeat split.
Qed.

Lemma increment_downloads_catalog_ok w video_id :
  catalog_ok w -> catalog_ok (snd (db (increment_downloads video_id) w)).
Proof.
  intros Hw id row. rewrite increment_downloads_run. simpl.
  rewrite lookup_alter. case_decide as Hk; [|apply Hw]. subst id.
  destruct (videos w !! video_id) as [old|] eqn:Hold; [|done].
  intros [= <-]. destruct (Hw video_id old Hold) as (? & ? & ? & ? & ?).
  simpl. repeat split; try done. lia.
Qed.

Lemma check_daily_limit_catalog_ok today user_id limit :
  preserves catalog_ok (db (check_daily_limit today user_id limit)).
Proof.
  intros w Hw. rewrite check_daily_limit_world.
  apply (catalog_ok_same w); [|done]. apply checked_fields.
Qed.

Lemma get_user_catalog_ok now user_id :
  preserves catalog_ok (db (get_user now user_id)).
Proof.
  intros w Hw. rewrite get_user_run. by destruct (users w !! user_id).
Qed.

(** X21.  Every row of the catalog is usable.  In every state reached
    from empty tables, through the handlers and the delete buttons of the
    console, each row is filed under a generated id, so the start
    parameter of its deep link is resolved to that id and the delete
    button made for it names that id; each row has a thumbnail that is
    not empty, a title that is not empty and no longer than 100
    characters (code points of the UTF-8 text, whatever bytes they
    take), and a count of downloads that is not negative. *)
Theorem catalog_rows_usable (cfg : Config) (ADMIN_IDS : list Z) (w : World)
    (id : string) (row : video_row) :
  reachable_all cfg ADMIN_IDS w -> videos w !! id = Some row ->
  generated id /\
  extract_video_id id = Some id /\
  str_replace "del_" EmptyString ("del_" +:+ id) = id /\
  truthy_ostr (vr_thumbnail_id row) = true /\
  vr_title row <> EmptyString /\ (str_len (vr_title row) <= 100)%nat /\
  0 <= vr_downloads row.
Proof.
  intros Hreach Hrow.
  assert (catalog_ok w) as Hw.
  { apply (reachable_all_invariant cfg catalog_ok) with (ADMIN_IDS := ADMIN_IDS);
      try done.
    - intros. by apply save_video_catalog_ok.
    - apply get_user_catalog_ok.
    - apply check_daily_limit_catalog_ok.
    - intros. apply deliver_video_preserves; try done.
      + apply check_daily_limit_catalog_ok.
      + intros today uid w0 Hw0. by rewrite record_download_run.
      + intros. by apply increment_downloads_catalog_ok.
    - intros w0 vid Hw0 k r. simpl. rewrite lookup_delete.
      case_decide; [done|apply Hw0]. }
  destruct (Hw id row Hrow) as (Hgen & Hthumb & Hne & Hlen & Hdl).
  split; [done|]. split; [by destruct Hgen as [rand ->]|].
  split; [by apply str_replace_del_generated|done].
Qed.

Lemma catalog_rows_usable_witness :
  let w := run_events shipped_config (calm_env 10) one_download empty_world in
  extract_video_id "vid_abcdefgh" = Some "vid_abcdefgh"%string.
Proof.
  intros w.
  destruct (catalog_rows_usable shipped_config [] w "vid_abcdefgh"
              {| vr_source_channel := SOURCE_CHANNEL_ID shipped_config;
                 vr_message_id := 2; vr_title := "Movie";
                 vr_thumbnail_id := Some "P"%string;
                 vr_downloads := 1; vr_created_at := 10 |})
    as (_ & Hlink & _).
  - apply reachable_all_of_reachable, reachable_run_events, reachable_init.
  - vm_compute. reflexivity.
  - exact Hlink.
Defined.

(** *** The accounts *)

Lemma ledger_ok_same w w' : users w' = users w -> ledger_ok w -> ledger_ok w'.
Proof. intros Hu Hw id row. rewrite Hu. apply Hw. Qed.

Lemma get_user_ledger_ok now user_id :
  preserves ledger_ok (db (get_user now user_id)).
Proof.
  intros w Hw. rewrite get_user_run.
  destruct (users w !! user_id) as [r|] eqn:Hrow; [done|].
  intros u r. simpl. rewrite lookup_insert. case_decide; [|apply Hw].
  intros [= <-]. simpl. repeat split; (done || lia).
Qed.

Lemma check_daily_limit_ledger_ok today user_id limit :
  preserves ledger_ok (db (check_daily_limit today user_id limit)).
Proof.
  intros w Hw. rewrite check_daily_limit_world.
  destruct (checked_fields today user_id w) as (Hus & _).
  intros u r. rewrite Hus, lookup_insert. case_decide; [|apply Hw].
  intros [= <-]. unfold checked_row, account_of, counter_on. simpl.
  destruct (users w !! user_id) as [r0|] eqn:Hrow; simpl.
  - destruct (Hw user_id r0 Hrow) as (Hc & Hp & Hn).
    case_bool_decide; repeat split; (done || lia).
  - repeat split; (done || lia).
Qed.

Lemma record_download_ledger_ok today user_id :
  preserves ledger_ok (db (record_download today user_id)).
Proof.
  intros w Hw. rewrite record_download_run. intros u r. simpl.
  rewrite lookup_alter. case_decide as Hk; [|apply Hw]. subst u.
  destruct (users w !! user_id) as [r0|] eqn:Hrow; [|done].
  intros [= <-]. destruct (Hw user_id r0 Hrow) as (Hc & Hp & Hn).
  simpl. repeat split; (done || lia).
Qed.

(** X22.  Every account is sound.  In every state reached from empty
    tables, through the handlers and the delete buttons of the console,
    each account has a counter of the day that is not negative and no
    more than its lifetime total, has never been marked premium (the
    column is never written: who is premium is decided by the
    configuration alone), and has no download without a download date:
    an account that has no date yet, as the profile button or a premium
    user's first visit leaves it, has no download on record. *)
Theorem accounts_sound (cfg : Config) (ADMIN_IDS : list Z) (w : World)
    (user_id : Z) (r : user_row) :
  reachable_all cfg ADMIN_IDS w -> users w !! user_id = Some r ->
  0 <= downloads_today r <= total_downloads r /\
  is_premium r = false /\
  (last_download_date r = None -> total_downloads r = 0).
Proof.
  intros Hreach. revert user_id r. change (ledger_ok w).
  apply (reachable_all_invariant cfg ledger_ok) with (ADMIN_IDS := ADMIN_IDS);
    try done.
  - intros now rand sc mid caption thumb _ w0 Hw0.
    destruct (videos w0 !! generate_video_id rand) as [old|] eqn:Hid.
    + rewrite save_video_collides by (by eexists). done.
    + by rewrite save_video_run.
  - apply get_user_ledger_ok.
  - apply check_daily_limit_ledger_ok.
  - intros. apply deliver_video_preserves; try done;
      first [ apply check_daily_limit_ledger_ok
            | apply record_download_ledger_ok ].
Qed.

Lemma accounts_sound_witness :
  let w := run_events shipped_config (calm_env 10) download_and_profile
             empty_world in
  let newcomer := {| joined_at := 10; downloads_today := 0;
                     last_download_date := None; total_downloads := 0;
                     is_premium := false |} in
  users w !! 6 = Some newcomer /\ total_downloads newcomer = 0.
Proof.
  intros w newcomer.
  assert (users w !! 6 = Some newcomer) as Hrow by (vm_compute; reflexivity).
  split; [exact Hrow|].
  apply (accounts_sound shipped_config [] w 6 newcomer).
  - apply reachable_all_of_reachable, reachable_run_events, reachable_init.
  - exact Hrow.
  - reflexivity.
Defined.

(** *** The pending posts *)

(** X23.  Every pending post is well filed.  In every state reached
    from empty tables, through the handlers and the delete buttons of the
    console, each entry of [pending_posts] is filed under its own message
    id (so the stored fall-back of the reply method names the very
    message replied to), is a video or a photo, and comes from the source
    channel when one is configured. *)
Theorem pending_posts_well_filed (cfg : Config) (ADMIN_IDS : list Z)
    (w : World) (k : Z) (p : pending_post) :
  reachable_all cfg ADMIN_IDS w -> pending_posts w !! k = Some p ->
  p_message_id p = k /\
  (p_type p = "video"%string \/ p_type p = "photo"%string) /\
  (SOURCE_CHANNEL_ID cfg <> 0 -> p_chat_id p = SOURCE_CHANNEL_ID cfg).
Proof.
  intros Hreach. revert k p. change (pending_ok cfg w).
  set (phi := fun pp : gmap Z pending_post =>
         forall k p, pp !! k = Some p ->
           p_message_id p = k /\
           (p_type p = "video"%string \/ p_type p = "photo"%string) /\
           (SOURCE_CHANNEL_ID cfg <> 0 -> p_chat_id p = SOURCE_CHANNEL_ID cfg)).
  apply (reachable_all_invariant cfg (fun w => phi (pending_posts w)))
    with (ADMIN_IDS := ADMIN_IDS); try done.
  - intros w0 m ty file Hw0 Hty Hsrc k p. simpl.
    rewrite lookup_insert. case_decide as Hk; [|apply Hw0].
    intros [= <-]. by subst k.
  - intros w0 k0 Hw0 k p. simpl. rewrite lookup_delete.
    case_decide; [done|apply Hw0].
  - intros. by apply field_preserves, save_video_same_field.
  - intros. by apply field_preserves, get_user_same_field.
  - intros. by apply field_preserves, check_daily_limit_same_field.
  - intros. by apply deliver_video_field_preserves.
Qed.

Lemma pending_posts_well_filed_witness :
  let A := video_post 11 None (Some "Movie"%string) "VA" None None in
  let w := snd (handle_channel_post shipped_config (calm_env 10) (Some A)
                  empty_world) in
  11 = 11 /\
  ("video"%string = "video"%string \/ "video"%string = "photo"%string) /\
  (SOURCE_CHANNEL_ID shipped_config <> 0 ->
   SOURCE_CHANNEL_ID shipped_config = SOURCE_CHANNEL_ID shipped_config).
Proof.
  intros A w.
  apply (pending_posts_well_filed shipped_config [] w 11
           {| p_type := "video"; p_file_id := "VA"; p_message_id := 11;
              p_chat_id := SOURCE_CHANNEL_ID shipped_config;
              p_caption := Some "Movie"%string |}).
  - eapply reachable_all_step; [apply reachable_all_init|].
    by exists (calm_env 10), (ChannelPost (Some A)).
  - vm_compute. reflexivity.
Defined.

(** *** The join requests *)

Lemma pretty_N_char_decimal x : decimal_char (pretty_N_char x) = true.
Proof. unfold pretty_N_char. by repeat case_match. Qed.

Lemma pretty_N_go_decimal x :
  forall s,
    Forall (fun c => decimal_char c = true) (list_ascii_of_string s) ->
    Forall (fun c => decimal_char c = true)
      (list_ascii_of_string (pretty_N_go x s)).
Proof.
  induction (N.lt_wf_0 x) as [x _ IH]; intros s Hs.
  assert (x = 0 \/ 0 < x)%N as [->|Hpos] by lia.
  - by rewrite pretty_N_go_0.
  - rewrite pretty_N_go_step by done. apply IH; [by apply N.div_lt|].
    simpl. constructor; [apply pretty_N_char_decimal|done].
Qed.

Lemma pretty_Z_decimal (z : Z) :
  Forall (fun c => decimal_char c = true) (list_ascii_of_string (pretty z)).
Proof.
  assert (forall p : positive,
    Forall (fun c => decimal_char c = true)
      (list_ascii_of_string (pretty p))) as Hpos.
  { intros p. unfold pretty, pretty_positive, pretty, pretty_N.
    case_decide; [done|]. apply pretty_N_go_decimal. constructor. }
  destruct z as [|p|p]; unfold pretty, pretty_Z.
  - repeat constructor.
  - apply Hpos.
  - simpl. constructor; [done|apply Hpos].
Qed.

Lemma reachable_all_join_requests_ok cfg ADMIN_IDS w :
  reachable_all cfg ADMIN_IDS w -> join_requests_ok w.
Proof.
  intros Hreach.
  set (phi := fun jr : gset (Z * string) =>
         forall user_id ch, (user_id, ch) ∈ jr -> exists chat : Z, ch = pretty chat).
  change (phi (join_requests w)).
  apply (reachable_all_invariant cfg (fun w => phi (join_requests w)))
    with (ADMIN_IDS := ADMIN_IDS); try done.
  - intros. by apply field_preserves, save_video_same_field.
  - intros. by apply field_preserves, get_user_same_field.
  - intros. by apply field_preserves, check_daily_limit_same_field.
  - intros. by apply deliver_video_field_preserves.
  - intros w0 uid chat Hw0 u ch. simpl.
    intros [Heq%elem_of_singleton|Hin]%elem_of_union; [|by apply (Hw0 u ch)].
    injection Heq as -> ->. by exists chat.
  - intros w0 uid ch0 Hw0 u ch. simpl.
    intros [Hin _]%elem_of_difference. by apply (Hw0 u ch).
Qed.

(** No request is on record under a key that is not the decimal text of
    a chat id. *)
Lemma handle_not_recorded w user_id handle :
  join_requests_ok w ->
  existsb (fun c => negb (decimal_char c)) (list_ascii_of_string handle)
    = true ->
  recorded w user_id (ChanName handle) = false.
Proof.
  intros Hw Hchar.
  unfold recorded. apply bool_decide_eq_false_2. intros Hin.
  destruct (Hw _ _ Hin) as [chat Hchat]. cbn [py_str] in Hchat.
  apply existsb_exists in Hchar as (c & Hc & Hnot).
  pose proof (pretty_Z_decimal chat) as Hdec.
  rewrite <- Hchat in Hdec.
  rewrite Forall_forall in Hdec.
  rewrite (Hdec c) in Hnot; [done|]. by apply list_elem_of_In.
Qed.

(** C5, as the code has it.  [check_channel] never raises.  The channel
    is satisfied exactly when the live lookup reports one of the four
    member statuses, or the channel is marked private and a join request
    of the user is on record under the text of the channel's
    configuration key; so a public channel is satisfied by live
    membership only.  When the live lookup succeeds the join request
    under that text is deleted, otherwise nothing is written.  A lookup
    that fails with a transport error is caught and counts as no live
    membership.  Join requests are filed under the chat id: for a
    private channel the configuration names by its chat id, a request of
    the user for that chat satisfies it without live membership; a
    channel the configuration names by a handle (a key with a character
    other than digits and the minus sign) is, in every state reached
    from empty tables, satisfied by live membership only, private or
    not. *)
Theorem check_channel_outcome (cfg : Config) (ADMIN_IDS : list Z) (env : Env)
    (w : World) (user_id : Z) (channel_id : channel_ref) (info : channel_info) :
  check_channel env user_id channel_id info w =
    (Done (live_member env user_id channel_id
           || marked_private info && recorded w user_id channel_id),
     if live_member env user_id channel_id then
       set_join_requests (join_requests w ∖ {[(user_id, py_str channel_id)]}) w
     else w) /\
  (get_chat_member env (membership_chat channel_id) user_id = None ->
   check_membership env user_id channel_id w = (Done false, w) /\
   check_channel env user_id channel_id info w =
     (Done (marked_private info && recorded w user_id channel_id), w)) /\
  (marked_private info = false ->
   fst (check_channel env user_id channel_id info w)
     = Done (live_member env user_id channel_id)) /\
  (forall chat,
     channel_id = ChanId chat -> marked_private info = true ->
     fst (check_channel env user_id channel_id info
            (snd (on_join_request user_id chat w))) = Done true) /\
  (forall handle,
     channel_id = ChanName handle ->
     existsb (fun c => negb (decimal_char c)) (list_ascii_of_string handle)
       = true ->
     reachable_all cfg ADMIN_IDS w ->
     fst (check_channel env user_id channel_id info w)
       = Done (live_member env user_id channel_id)).
Proof.
  split; [apply check_channel_run|]. split; [|split; [|split]].
  - intros Herr. rewrite check_channel_run, check_membership_run.
    unfold live_member. rewrite Herr. done.
  - intros Hpub. rewrite check_channel_run, Hpub. simpl. by rewrite orb_false_r.
  - intros chat -> Hpriv. rewrite check_channel_run, on_join_request_run, Hpriv.
    cbn [fst]. f_equal. unfold recorded. cbn [py_str join_requests set_join_requests].
    rewrite bool_decide_eq_true_2 by set_solver. apply orb_true_r.
  - intros handle -> Hchar Hreach. rewrite check_channel_run. cbn [fst]. f_equal.
    rewrite (handle_not_recorded w user_id handle); [|
      by apply (reachable_all_join_requests_ok cfg ADMIN_IDS)|done].
    by rewrite andb_false_r, orb_false_r.
Qed.

Lemma check_channel_outcome_witness :
  let private := {| ci_name := None; ci_link := None;
                    ci_type := Some "private"%string |} in
  let w := snd (on_join_request 4 (-1001) empty_world) in
  check_channel
    {| today := 10; randbelow := fun i => i; get_me := Some "bot"%string;
       get_chat_member := fun _ _ => None; accepts := fun _ => true |}
    42 (ChanName "AFK_B")
    {| ci_name := None; ci_link := None; ci_type := Some "public"%string |}
    empty_world
  = (Done false, empty_world) /\
  fst (check_channel (outside_env 10) 4 (ChanId (-1001)) private w) = Done true /\
  fst (check_channel (outside_env 10) 4 (ChanName "vault") private w)
  = Done false.
Proof.
  intros private w. split; [|split].
  - apply (check_channel_outcome shipped_config []
             {| today := 10; randbelow := fun i => i; get_me := Some "bot"%string;
                get_chat_member := fun _ _ => None; accepts := fun _ => true |}
             empty_world 42 (ChanName "AFK_B")
             {| ci_name := None; ci_link := None; ci_type := Some "public"%string |}).
    reflexivity.
  - apply (check_channel_outcome shipped_config [] (outside_env 10) empty_world
             4 (ChanId (-1001)) private); reflexivity.
  - destruct (check_channel_outcome shipped_config [] (outside_env 10) w
                4 (ChanName "vault") private) as (_ & _ & _ & _ & Hhandle).
    rewrite (Hhandle "vault"%string); [reflexivity..|].
    eapply reachable_all_step; [apply reachable_all_init|].
    by exists (calm_env 10), (JoinRequest 4 (-1001)).
Defined.

(** C5 as stated fails.  A required channel is marked private and named
    in the configuration by its handle, "vault"; at the Bot API its chat
    id is -1001.  User 4 asks to join it: the request is filed under
    ["-1001"].  The user is no member yet.  A join request of that user
    for that channel is on record, but [check_channel] looks for one
    under ["vault"] and reports the channel not satisfied. *)
Lemma join_request_under_handle_key :
  let private := {| ci_name := Some "Vault"%string; ci_link := None;
                    ci_type := Some "private"%string |} in
  let w := snd (on_join_request 4 (-1001) empty_world) in
  join_requests w = {[ (4, "-1001"%string) ]} /\
  marked_private private = true /\
  check_channel (outside_env 10) 4 (ChanName "vault") private w
  = (Done false, w).
Proof. repeat split; vm_compute; reflexivity. Qed.

(** X24.  Join requests are filed under chat ids only.  In every state
    reached from empty tables, through the handlers and the delete
    buttons of the console, each recorded join request is filed under
    the decimal text of a chat id.  Hence a required channel that the
    configuration names by a handle holding any character other than
    digits and the minus sign is never satisfied by a join request: for
    it [check_channel] answers what the live lookup says, private or
    not. *)
Theorem join_requests_by_chat_id (cfg : Config) (ADMIN_IDS : list Z)
    (w : World) :
  reachable_all cfg ADMIN_IDS w ->
  (forall user_id ch, (user_id, ch) ∈ join_requests w ->
     exists chat : Z, ch = pretty chat) /\
  (forall env user_id handle info,
     existsb (fun c => negb (decimal_char c)) (list_ascii_of_string handle)
       = true ->
     fst (check_channel env user_id (ChanName handle) info w)
     = Done (live_member env user_id (ChanName handle))).
Proof.
  intros Hreach.
  pose proof (reachable_all_join_requests_ok cfg ADMIN_IDS w Hreach) as Hw.
  split; [exact Hw|].
  intros env user_id handle info Hchar.
  rewrite check_channel_run. cbn [fst]. f_equal.
  rewrite (handle_not_recorded w user_id handle Hw Hchar).
  by rewrite andb_false_r, orb_false_r.
Qed.

Lemma join_requests_by_chat_id_witness :
  let w := snd (on_join_request 4 (-1001) empty_world) in
  fst (check_channel (outside_env 1) 4 (ChanName "AFK_B")
         {| ci_name := None; ci_link := None; ci_type := Some "private"%string |}
         w)
  = Done false.
Proof.
  intros w.
  destruct (join_requests_by_chat_id shipped_config [] w) as [_ Hhandle].
  - eapply reachable_all_step; [apply reachable_all_init|].
    by exists (calm_env 10), (JoinRequest 4 (-1001)).
  - rewrite Hhandle; reflexivity.
Defined.

(** ** Text messages *)

Section DispatchProperties.
Context (cfg : Config) (env : Env) (ADMIN_IDS : list Z).
Context (show_post_stats show_user_stats show_video_list show_settings
         back_to_main : M unit).
Context (handle_search handle_profile handle_help : M unit).

Lemma admin_button_cases (t : string) :
  t ∈ admin_buttons ->
  t = "📤 Post Stats"%string \/ t = "👥 Users"%string \/ t = "🎬 Videos"%string \/
  t = "⚙️ Settings"%string \/ t = "🔙 Back to Main"%string.
Proof.
  unfold admin_buttons. rewrite !elem_of_cons, elem_of_nil. tauto.
Qed.

(** X25.  The routing of text messages.  An update without a message,
    or with an empty text, and a text that is no button label, are
    dropped.  A label of the admin keyboard sent by someone outside
    [ADMIN_IDS] is dropped as well.  The label of the verification
    keyboard runs [handle_start] without arguments, and the statistics
    label runs [handle_my_stats].  Whatever the text and the sender,
    [route_message] does the same with any two handlers for the delete
    command: that command is never routed. *)
Theorem route_message_dispatch (update : Update) (text : option string)
    (delete_video_handler delete_video_handler' : string -> M unit) :
  let route :=
    route_message cfg env ADMIN_IDS show_post_stats show_user_stats
      show_video_list show_settings back_to_main delete_video_handler
      handle_search handle_profile handle_help in
  let route' :=
    route_message cfg env ADMIN_IDS show_post_stats show_user_stats
      show_video_list show_settings back_to_main delete_video_handler'
      handle_search handle_profile handle_help in
  route update text = route' update text /\
  (has_message update = false \/ truthy_ostr text = false ->
   route update text = mret tt) /\
  (forall t, text = Some t -> t ∉ admin_buttons -> t ∉ user_buttons ->
   route update text = mret tt) /\
  (forall t, text = Some t -> t ∈ admin_buttons ->
   effective_user update ∉ ADMIN_IDS -> route update text = mret tt) /\
  (has_message update = true -> text = Some "✅ I've Joined"%string ->
   route update text = handle_start cfg env update None) /\
  (has_message update = true -> text = Some "📊 My Stats"%string ->
   route update text = handle_my_stats cfg env update).
Proof.
  intros route route'. subst route route'. unfold route_message.
  split; [|split; [|split; [|split; [|split]]]].
  - destruct (has_message update) eqn:Hm; [|reflexivity].
    destruct text as [t|]; [|reflexivity].
    destruct (truthy_ostr (Some t)); [|reflexivity].
    cbn [negb orb default id].
    destruct (bool_decide (t ∈ admin_buttons)) eqn:Hadmin; [|reflexivity].
    destruct (bool_decide (effective_user update ∈ ADMIN_IDS)) eqn:Hid;
      [|reflexivity].
    cbn [andb]. unfold handle_admin_button, is_admin. rewrite Hm, Hid.
    apply bool_decide_eq_true in Hadmin.
    destruct (admin_button_cases t Hadmin) as [-> | [-> | [-> | [-> | ->]]]];
      reflexivity.
  - intros [->| ->]; [reflexivity|]. by rewrite orb_true_r.
  - intros t -> Hna Hnu.
    destruct (negb (has_message update) || negb (truthy_ostr (Some t)));
      [reflexivity|].
    cbn [default id].
    rewrite (bool_decide_eq_false_2 _ Hna), (bool_decide_eq_false_2 _ Hnu).
    reflexivity.
  - intros t -> Hadmin Hout.
    destruct (negb (has_message update) || negb (truthy_ostr (Some t)));
      [reflexivity|].
    cbn [default id].
    rewrite (bool_decide_eq_false_2 _ Hout), andb_false_r.
    destruct (admin_button_cases t Hadmin) as [-> | [-> | [-> | [-> | ->]]]];
      reflexivity.
  - intros Hm ->. rewrite Hm. cbn [negb orb truthy_ostr truthy_str default id].
    unfold handle_user_button. rewrite Hm. reflexivity.
  - intros Hm ->. rewrite Hm. cbn [negb orb truthy_ostr truthy_str default id].
    unfold handle_user_button. rewrite Hm. reflexivity.
Qed.
End DispatchProperties.

Lemma route_message_dispatch_witness :
  route_message shipped_config (calm_env 1) [7] (mret tt) (mret tt) (mret tt)
    (mret tt) (mret tt) (fun _ => mret tt) (mret tt) (mret tt) (mret tt)
    (command_from 5) (Some "🎬 Videos"%string)
  = mret tt.
Proof.
  destruct (route_message_dispatch shipped_config (calm_env 1) [7]
              (mret tt) (mret tt) (mret tt) (mret tt) (mret tt)
              (mret tt) (mret tt) (mret tt)
              (command_from 5) (Some "🎬 Videos"%string)
              (fun _ => mret tt) (fun _ => mret tt))
    as (_ & _ & _ & Hdrop & _).
  apply (Hdrop "🎬 Videos"%string).
  - reflexivity.
  - unfold admin_buttons. rewrite !elem_of_cons. auto.
  - simpl. rewrite elem_of_cons, elem_of_nil. intros [H|[]]. discriminate H.
Defined.

(** ** The counts of downloads *)

Section TotalOf.
Context `{Countable K} {A : Type} (g : A -> Z).

Lemma total_of_comm (j1 j2 : K) (z1 z2 : A) (y : Z) :
  g z1 + (g z2 + y) = g z2 + (g z1 + y).
Proof. lia. Qed.

Lemma total_of_empty : total_of g (∅ : gmap K A) = 0.
Proof. apply map_fold_empty. Qed.

Lemma total_of_insert_fresh (k : K) (x : A) (m : gmap K A) :
  m !! k = None -> total_of g (<[k := x]> m) = g x + total_of g m.
Proof.
  intros Hk. unfold total_of. rewrite map_fold_insert_L; [done| |done].
  intros. lia.
Qed.

Lemma total_of_delete (k : K) (x : A) (m : gmap K A) :
  m !! k = Some x -> total_of g m = g x + total_of g (delete k m).
Proof.
  intros Hk. unfold total_of.
  rewrite (map_fold_delete_L _ _ k x m); [done| |done].
  intros. lia.
Qed.

Lemma total_of_insert_present (k : K) (x y : A) (m : gmap K A) :
  m !! k = Some y -> total_of g (<[k := x]> m) = g x - g y + total_of g m.
Proof.
  intros Hk. rewrite <- insert_delete_eq.
  rewrite total_of_insert_fresh by apply lookup_delete_eq.
  rewrite (total_of_delete k y m Hk). lia.
Qed.

Lemma total_of_alter (f : A -> A) (k : K) (m : gmap K A) :
  total_of g (alter f k m)
  = match m !! k with
    | Some y => g (f y) - g y + total_of g m
    | None => total_of g m
    end.
Proof.
  destruct (m !! k) as [y|] eqn:Hk.
  - rewrite <- (total_of_insert_present k (f y) y m Hk). f_equal.
    apply map_eq; intros j. rewrite lookup_alter, lookup_insert.
    case_decide; simplify_eq; [by rewrite Hk|done].
  - f_equal. apply map_eq; intros j. rewrite lookup_alter.
    case_decide; simplify_eq; [by rewrite Hk|done].
Qed.
End TotalOf.

Section DownloadsOk.
Context (cfg : Config) (Rv Ru : Z -> Z -> Prop).
Context (Rv_succ : forall a b, Rv a b -> Rv (a + 1) (b + 1)).
Context (Ru_succ : forall a b, Ru a b -> Ru (a + 1) (b + 1)).
Context (Ru_premium : forall user_id a b,
  user_id ∈ PREMIUM_USERS cfg -> Ru a b -> Ru a (b + 1)).

Lemma downloads_ok_sent w v :
  downloads_ok Rv Ru w -> downloads_ok Rv Ru (set_sent v w).
Proof. done. Qed.

Lemma users_total_checked today user_id w :
  total_of total_downloads (users (checked today user_id w))
  = total_of total_downloads (users w).
Proof.
  destruct (checked_fields today user_id w) as (-> & _).
  unfold account_of.
  destruct (users w !! user_id) as [r|] eqn:Hrow; simpl.
  - rewrite (total_of_insert_present _ _ _ r) by done. simpl. lia.
  - rewrite total_of_insert_fresh by done. simpl. lia.
Qed.

Lemma checked_downloads_ok today user_id w :
  downloads_ok Rv Ru w -> downloads_ok Rv Ru (checked today user_id w).
Proof.
  intros (Hrows & Hv & Hu).
  destruct (checked_fields today user_id w) as (_ & Hvi & _ & Hst).
  unfold downloads_ok. rewrite users_total_checked, Hvi, Hst. done.
Qed.

Lemma checked_has_account today user_id w :
  is_Some (users (checked today user_id w) !! user_id).
Proof.
  destruct (checked_fields today user_id w) as (-> & _).
  rewrite lookup_insert_eq. by eexists.
Qed.

Lemma save_video_downloads_ok now rand sc mid title thumb :
  preserves (downloads_ok Rv Ru) (db (save_video now rand sc mid title thumb)).
Proof.
  intros w (Hrows & Hv & Hu).
  destruct (videos w !! generate_video_id rand) as [old|] eqn:Hid.
  - rewrite save_video_collides by (by eexists). done.
  - rewrite save_video_run by done. unfold saved, downloads_ok. simpl.
    rewrite lookup_insert_ne by done.
    rewrite total_of_insert_fresh by done. simpl.
    split; [|done]. intros id row. rewrite lookup_insert.
    case_decide; [|apply Hrows]. by intros [= <-].
Qed.

Lemma get_user_downloads_ok now user_id :
  preserves (downloads_ok Rv Ru) (db (get_user now user_id)).
Proof.
  intros w (Hrows & Hv & Hu). rewrite get_user_run.
  destruct (users w !! user_id) as [r|] eqn:Hrow; [done|].
  unfold downloads_ok. simpl. rewrite lookup_insert_ne by done.
  rewrite total_of_insert_fresh by done. done.
Qed.

Lemma check_daily_limit_downloads_ok today user_id limit :
  preserves (downloads_ok Rv Ru) (db (check_daily_limit today user_id limit)).
Proof.
  intros w Hw. rewrite check_daily_limit_world. by apply checked_downloads_ok.
Qed.

(** A forward and the download recorded after it, from a state in which
    the user has an account or is on the premium list. *)
Lemma forward_and_record env update today t user_id video_id w :
  is_Some (users w !! user_id) \/ user_id ∈ PREMIUM_USERS cfg ->
  downloads_ok Rv Ru w ->
  let run :=
    (success ← forward_video_to_user env user_id video_id;
     if (success : bool) then db (record_download today user_id)
     else reply_text env update t) w in
  downloads_ok Rv Ru (snd run) /\
  (is_Some (users w !! user_id) -> is_Some (users (snd run) !! user_id)).
Proof.
  intros Hacct (Hrows & Hv & Hu) run. subst run.
  unfold mbind, M_bind.
  destruct (videos w !! video_id) as [vd|] eqn:Hvd.
  - destruct (accepts env (ForwardMessage user_id (vr_source_channel vd)
                             (vr_message_id vd))) eqn:Hacc.
    + rewrite (forward_video_to_user_accepted env user_id video_id vd w Hvd Hacc).
      rewrite record_download_run. unfold forwarded, downloads_ok. simpl.
      rewrite lookup_insert_eq.
      assert (default 0 (Some match stats w !! "total_downloads"%string with
                              | Some v => v + 1
                              | None => 1
                              end)
              = default 0 (stats w !! "total_downloads"%string) + 1) as ->
        by (destruct (stats w !! "total_downloads"%string); simpl; lia).
      rewrite !total_of_alter, Hvd. simpl. split; [split; [|split]|].
      * intros id row. rewrite lookup_alter. case_decide as Hk; [|apply Hrows].
        subst id. rewrite Hvd. intros [= <-]. simpl.
        specialize (Hrows video_id vd Hvd). lia.
      * replace (vr_downloads vd + 1 - vr_downloads vd
                 + total_of vr_downloads (videos w))
          with (total_of vr_downloads (videos w) + 1) by lia.
        by apply Rv_succ.
      * destruct (users w !! user_id) as [r|] eqn:Hrow; simpl.
        -- replace (total_downloads r + 1 - total_downloads r
                    + total_of total_downloads (users w))
             with (total_of total_downloads (users w) + 1) by lia.
           by apply Ru_succ.
        -- destruct Hacct as [[? ?]|Hp]; [done|].
           by apply (Ru_premium user_id).
      * intros [r Hrow]. rewrite lookup_alter, decide_True by done.
        rewrite Hrow. by eexists.
    + rewrite (forward_video_to_user_refused env user_id video_id vd w Hvd Hacc).
      rewrite reply_text_world. by destruct (has_message update).
  - rewrite (forward_video_to_user_missing env user_id video_id w Hvd).
    rewrite reply_text_world. by destruct (has_message update).
Qed.

Lemma deliver_video_downloads_ok env update user_id video_id :
  preserves (downloads_ok Rv Ru) (deliver_video cfg env update user_id video_id).
Proof.
  intros w Hw.
  assert (forall (res : outcome unit * World),
    downloads_ok Rv Ru (snd res) ->
    match res with
    | (Done _, w') => downloads_ok Rv Ru w'
    | (Raised _, w') => downloads_ok Rv Ru w'
    end) as Hout by (by intros [[[]|e] w']).
  apply Hout.
  assert (forall t w0, downloads_ok Rv Ru w0 ->
            downloads_ok Rv Ru (snd (reply_text env update t w0))) as Hreply.
  { intros t w0 Hw0. rewrite reply_text_world. by destruct (has_message update). }
  destruct (decide (user_id ∈ PREMIUM_USERS cfg)) as [Hp|Hp].
  - rewrite (deliver_video_premium cfg env update user_id video_id w Hp).
    pose proof (forward_and_record env update (today env)
                  VIDEO_NOT_FOUND_MESSAGE user_id video_id w (or_intror Hp) Hw)
      as [Hrun _].
    cbv zeta in Hrun. unfold mbind, M_bind in *.
    destruct (forward_video_to_user env user_id video_id w) as [[[|]|e] w1];
      cbn [snd] in *; try done.
    destruct (db (record_download (today env) user_id) w1) as [[[]|e] w2];
      cbn [snd] in *; [by apply Hreply|done].
  - rewrite (deliver_video_regular cfg env update user_id video_id w Hp).
    pose proof (checked_downloads_ok (today env) user_id w Hw) as Hw1.
    pose proof (checked_has_account (today env) user_id w) as Hacct.
    destruct (DAILY_DOWNLOAD_LIMIT cfg - _ >? 0); [|by apply Hreply].
    pose proof (forward_and_record env update (today env)
                  VIDEO_NOT_FOUND_MESSAGE user_id video_id
                  (checked (today env) user_id w) (or_introl Hacct) Hw1)
      as [Hrun _].
    cbv zeta in Hrun. unfold mbind, M_bind in *.
    destruct (forward_video_to_user env user_id video_id
                (checked (today env) user_id w)) as [[[|]|e] w1];
      cbn [snd] in *; try done.
    destruct (db (record_download (today env) user_id) w1) as [[[]|e] w2];
      cbn [snd] in *; [|done].
    rewrite check_daily_limit_world. apply Hreply.
    by apply checked_downloads_ok.
Qed.
End DownloadsOk.

Lemma downloads_ok_delete (Ru : Z -> Z -> Prop) w video_id :
  downloads_ok Z.le Ru w ->
  downloads_ok Z.le Ru (set_videos (delete video_id (videos w)) w).
Proof.
  intros (Hrows & Hv & Hu). unfold downloads_ok. simpl.
  split; [|split; [|done]].
  - intros id row. rewrite lookup_delete. case_decide; [done|apply Hrows].
  - destruct (videos w !! video_id) as [vd|] eqn:Hvd.
    + rewrite (total_of_delete vr_downloads video_id vd (videos w) Hvd) in Hv.
      specialize (Hrows video_id vd Hvd). lia.
    + by rewrite delete_id.
Qed.

(** X26.  The three counts of downloads agree.  In every state reached
    from empty tables, through the handlers and the delete buttons of the
    console, the downloads of the rows of the catalog and the lifetime
    totals of the accounts each add up to no more than [total_downloads].
    As long as no row is deleted from the console, the downloads of the
    rows add up to [total_downloads] exactly; and with an empty premium
    list the lifetime totals of the accounts do. *)
Theorem downloads_conserved (cfg : Config) (ADMIN_IDS : list Z) (w : World) :
  let total := default 0 (stats w !! "total_downloads"%string) in
  (reachable_all cfg ADMIN_IDS w ->
   total_of vr_downloads (videos w) <= total /\
   total_of total_downloads (users w) <= total) /\
  (reachable cfg w -> total_of vr_downloads (videos w) = total) /\
  (reachable_all cfg ADMIN_IDS w -> PREMIUM_USERS cfg = [] ->
   total_of total_downloads (users w) = total).
Proof.
  intros total. subst total.
  assert (downloads_ok eq Z.le empty_world /\ downloads_ok Z.le Z.le empty_world
          /\ downloads_ok Z.le eq empty_world) as (Hinit1 & Hinit2 & Hinit3).
  { unfold downloads_ok. simpl. rewrite !total_of_empty.
    repeat split; try done; intros ? ?; by rewrite lookup_empty. }
  split; [|split].
  - intros Hreach.
    assert (downloads_ok Z.le Z.le w) as (_ & Hv & Hu); [|done].
    apply (reachable_all_invariant cfg (downloads_ok Z.le Z.le))
      with (ADMIN_IDS := ADMIN_IDS); try done.
    + intros. apply save_video_downloads_ok.
    + apply get_user_downloads_ok.
    + apply check_daily_limit_downloads_ok.
    + apply deliver_video_downloads_ok; intros; lia.
    + intros. by apply downloads_ok_delete.
  - intros Hreach.
    assert (downloads_ok eq Z.le w) as (_ & Hv & Hu); [|done].
    apply (reachable_invariant cfg (downloads_ok eq Z.le)); try done.
    + intros. apply save_video_downloads_ok.
    + apply get_user_downloads_ok.
    + apply check_daily_limit_downloads_ok.
    + apply deliver_video_downloads_ok; intros; lia.
  - intros Hreach Hnone.
    assert (downloads_ok Z.le eq w) as (_ & Hv & Hu); [|done].
    apply (reachable_all_invariant cfg (downloads_ok Z.le eq))
      with (ADMIN_IDS := ADMIN_IDS); try done.
    + intros. apply save_video_downloads_ok.
    + apply get_user_downloads_ok.
    + apply check_daily_limit_downloads_ok.
    + apply deliver_video_downloads_ok; try (intros; lia).
      intros uid a b Hin. rewrite Hnone in Hin. by apply elem_of_nil in Hin.
    + intros. by apply downloads_ok_delete.
Qed.

Lemma downloads_conserved_witness :
  let w := run_events shipped_config (calm_env 10) download_and_profile
             empty_world in
  total_of total_downloads (users w)
  = default 0 (stats w !! "total_downloads"%string).
Proof.
  intros w.
  apply (downloads_conserved shipped_config [] w).
  - apply reachable_all_of_reachable, reachable_run_events, reachable_init.
  - reflexivity.
Defined.

(** ** Statistics of a user *)

Lemma checked_after_get_user today user_id w :
  let w0 := snd (db (get_user today user_id) w) in
  checked today user_id w0 = checked today user_id w /\
  account_of today user_id w0 = account_of today user_id w.
Proof.
  intros w0. subst w0. rewrite get_user_run.
  destruct (users w !! user_id) as [r|] eqn:Hrow; [done|].
  unfold checked, account_of. rewrite Hrow.
  cbn [snd users set_stats set_users]. rewrite lookup_insert_eq.
  split; [|done]. cbn [default]. world_fields. apply insert_insert_eq.
Qed.

(** X27.  The statistics button reads and consumes nothing.
    [handle_my_stats] sends one text: whether the user is on the premium
    list, the limit minus the counter the quota check computes with, and
    the lifetime total of the account as it was before.  Its only writes
    are those of the quota check, for premium users too: the account is
    created when missing and stamped today, its counter being the one
    reported; the catalog and the counter of downloads are as before.
    On an update without a message the check is made and the handler
    ends with [AttributeError]. *)
Theorem my_stats_reads_only (cfg : Config) (env : Env) (update : Update)
    (w : World) :
  let user_id := effective_user update in
  let account := account_of (today env) user_id w in
  let counter := counter_on (today env) account in
  let report :=
    ReplyText user_id
      (MY_STATS (bool_decide (user_id ∈ PREMIUM_USERS cfg))
         (DAILY_DOWNLOAD_LIMIT cfg - counter) (total_downloads account)) in
  let w' := snd (handle_my_stats cfg env update w) in
  fst (handle_my_stats cfg env update w)
    = (if has_message update then
         if accepts env report then Done tt else Raised TelegramError
       else Raised AttributeError) /\
  users w' = <[user_id := checked_row (today env) account]> (users w) /\
  videos w' = videos w /\
  stats w' !! "total_downloads"%string = stats w !! "total_downloads"%string /\
  sent w' = sent w ++ (if has_message update
                       then [(report, accepts env report)] else []).
Proof.
  intros user_id account counter report w'.
  destruct (checked_fields (today env) user_id w) as (Hus & Hvi & Hse & Hst).
  destruct (checked_after_get_user (today env) user_id w) as [Hw0 Hacct].
  cbv zeta in Hw0, Hacct.
  assert (handle_my_stats cfg env update w
          = reply_text env update
              (MY_STATS (bool_decide (user_id ∈ PREMIUM_USERS cfg))
                 (DAILY_DOWNLOAD_LIMIT cfg - counter) (total_downloads account))
              (checked (today env) user_id w)) as Hrun.
  { unfold handle_my_stats. fold user_id.
    unfold mbind at 1, M_bind at 1.
    pose proof (get_user_run (today env) user_id w) as Hget.
    destruct (db (get_user (today env) user_id) w) as [[r|e] w0] eqn:Hrun0.
    - cbn [snd] in Hw0, Hacct.
      assert (r = account) as ->.
      { subst account. unfold account_of.
        destruct (users w !! user_id); by injection Hget as <- _. }
      unfold mbind at 1, M_bind at 1.
      rewrite check_daily_limit_world, Hw0, Hacct. reflexivity.
    - by destruct (users w !! user_id). }
  subst w'. rewrite Hrun, reply_text_world. fold user_id report.
  destruct (has_message update); cbn [fst snd users videos stats sent set_sent].
  - by rewrite Hse.
  - by rewrite Hse, app_nil_r.
Qed.

(** ** From the source channel to the user *)

Lemma handle_start_verified cfg env update X rest w :
  extract_video_id X = Some X ->
  unsatisfied cfg env (effective_user update) w = [] ->
  exists w1,
    handle_start cfg env update (Some (X :: rest)) w
    = deliver_video cfg env update (effective_user update) X w1 /\
    users w1 = users w /\ videos w1 = videos w /\ sent w1 = sent w /\
    stats w1 = stats w.
Proof.
  intros HX Hok. unfold handle_start.
  rewrite HX, (extract_video_id_truthy _ HX).
  destruct (truthy_list (REQUIRED_CHANNELS cfg)).
  - exists (set_join_requests
              (snd (gate env (effective_user update) (REQUIRED_CHANNELS cfg)
                      (join_requests w) [])) w).
    split; [|done].
    unfold mbind at 1, M_bind at 1. unfold mbind at 1, M_bind at 1.
    rewrite check_all_channels_run, Hok. reflexivity.
  - exists w. by split.
Qed.

Lemma deliver_video_success cfg env update user_id video_id vd w :
  let counter := counter_on (today env) (account_of (today env) user_id w) in
  let forward := ForwardMessage user_id (vr_source_channel vd) (vr_message_id vd) in
  user_id ∉ PREMIUM_USERS cfg ->
  0 < DAILY_DOWNLOAD_LIMIT cfg - counter ->
  videos w !! video_id = Some vd ->
  accepts env forward = true ->
  exists w4,
    deliver_video cfg env update user_id video_id w
    = reply_text env update
        (VIDEO_SENT (Some (DAILY_DOWNLOAD_LIMIT cfg - (counter + 1)))) w4 /\
    sent w4 = sent w ++ [(forward, true)].
Proof.
  intros counter forward Hp Hopen Hv Hacc.
  set (w1 := checked (today env) user_id w).
  set (w2 := forwarded env user_id video_id vd w1).
  set (w3 := set_users (alter (record_row (today env)) user_id (users w2)) w2).
  exists (checked (today env) user_id w3).
  assert (videos w1 !! video_id = Some vd) as Hv1.
  { subst w1. unfold checked. by destruct (users w !! user_id). }
  assert (users w3 !! user_id
          = Some (record_row (today env)
                    (checked_row (today env)
                       (account_of (today env) user_id w)))) as Hrow3.
  { subst w3 w2 w1. unfold checked. simpl.
    rewrite lookup_alter, decide_True by done.
    by rewrite lookup_insert_eq. }
  assert (counter_on (today env) (account_of (today env) user_id w3) = counter + 1)
    as Hc3.
  { unfold account_of at 1. rewrite Hrow3. simpl.
    unfold counter_on at 1. simpl. by rewrite bool_decide_eq_true_2. }
  split.
  - rewrite (deliver_video_regular cfg env update user_id video_id w Hp).
    fold counter. rewrite (proj2 (Z.gtb_lt _ _) Hopen). fold w1.
    unfold mbind at 1, M_bind at 1.
    rewrite (forward_video_to_user_accepted env user_id video_id vd w1 Hv1 Hacc).
    fold w2. cbv beta iota. unfold mbind at 1, M_bind at 1.
    rewrite record_download_run. fold w3. cbv beta iota.
    unfold mbind at 1, M_bind at 1.
    rewrite check_daily_limit_world, Hc3. reflexivity.
  - destruct (checked_fields (today env) user_id w3) as (_ & _ & -> & _).
    subst w3 w2 w1. unfold checked. by destruct (users w !! user_id).
Qed.

(** X28.  From the source channel to the user.  When a message completes
    a media group (the generated id is unused and the identity lookup
    works), the posts that go out carry the deep link of the new id; and
    when a user outside the premium list who satisfies every required
    channel and has something left today then sends [/start] with that
    id, the transport accepting the forward, what is forwarded to the
    user is the group's video message from the chat of the group,
    followed by the text with the remaining number. *)
Theorem published_video_is_delivered (cfg : Config) (env_post env_user : Env)
    (m : Message) (update : Update) (w : World) :
  let g := group_after m w in
  let id := generate_video_id (randbelow env_post) in
  let title := sanitize_title (g_caption g) in
  let w2 := snd (handle_media_group cfg env_post m w) in
  let user_id := effective_user update in
  let counter :=
    counter_on (today env_user) (account_of (today env_user) user_id w) in
  let forward :=
    ForwardMessage user_id (g_chat_id g) (default 0 (g_video_message_id g)) in
  let report :=
    ReplyText user_id
      (VIDEO_SENT (Some (DAILY_DOWNLOAD_LIMIT cfg - (counter + 1)))) in
  ready g = true ->
  videos w !! id = None ->
  get_me env_post <> None \/ TARGET_CHANNELS cfg = [] ->
  user_id ∉ PREMIUM_USERS cfg ->
  unsatisfied cfg env_user user_id w = [] ->
  0 < DAILY_DOWNLOAD_LIMIT cfg - counter ->
  accepts env_user forward = true ->
  has_message update = true ->
  sent w2 = sent w ++ publish_log cfg env_post
                        (default EmptyString (get_me env_post)) id title
                        (default EmptyString (g_photo g)) /\
  sent (snd (handle_start cfg env_user update (Some [id]) w2))
  = sent w2 ++ [(forward, true); (report, accepts env_user report)].
Proof.
  intros g id title w2 user_id counter forward report
    Hready Hfree Hme Hp Hok Hopen Hacc Hm.
  pose proof (handle_media_group_completes cfg env_post m w Hready Hfree Hme)
    as Hpost.
  cbv zeta in Hpost. fold g id title in Hpost.
  assert (sent w2 = sent w ++ publish_log cfg env_post
                              (default EmptyString (get_me env_post)) id title
                              (default EmptyString (g_photo g))) as Hsent2
    by (subst w2; by rewrite Hpost).
  assert (users w2 = users w) as Hus2 by (subst w2; by rewrite Hpost).
  assert (join_requests w2 = join_requests w) as Hjr2
    by (subst w2; by rewrite Hpost).
  assert (videos w2 !! id
          = Some (new_video_row (today env_post) (g_chat_id g)
                    (default 0 (g_video_message_id g)) title (g_photo g)))
    as Hrow2.
  { subst w2. rewrite Hpost. unfold saved. simpl. apply lookup_insert_eq. }
  clearbody w2. split; [exact Hsent2|].
  assert (unsatisfied cfg env_user user_id w2 = []) as Hok2
    by (unfold unsatisfied in *; by rewrite Hjr2).
  destruct (handle_start_verified cfg env_user update id [] w2 eq_refl Hok2)
    as (w3 & Hstart & Hus3 & Hvi3 & Hse3 & _).
  fold user_id in Hstart.
  destruct (deliver_video_success cfg env_user update user_id id
              (new_video_row (today env_post) (g_chat_id g)
                 (default 0 (g_video_message_id g)) title (g_photo g)) w3)
    as (w4 & Hdeliver & Hse4).
  - done.
  - unfold account_of. rewrite Hus3, Hus2. exact Hopen.
  - by rewrite Hvi3.
  - exact Hacc.
  - rewrite Hstart, Hdeliver, reply_text_world, Hm. cbn [snd sent set_sent].
    rewrite Hse4, Hse3, <- app_assoc. cbn [app].
    unfold account_of. rewrite Hus3, Hus2. reflexivity.
Qed.

Lemma published_video_is_delivered_witness :
  let w := snd (handle_media_group shipped_config (calm_env 10) group_photo
                  empty_world) in
  let w2 := snd (handle_media_group shipped_config (calm_env 10) group_video w) in
  sent (snd (handle_start shipped_config (calm_env 11) (command_from 5)
               (Some ["vid_abcdefgh"%string]) w2))
  = sent w2 ++ [(ForwardMessage 5 (SOURCE_CHANNEL_ID shipped_config) 2, true);
                (ReplyText 5 (VIDEO_SENT (Some 299)), true)].
Proof.
  intros w w2.
  destruct (published_video_is_delivered shipped_config (calm_env 10)
              (calm_env 11) group_video (command_from 5) w) as [_ Hdelivered].
  - vm_compute. reflexivity.
  - vm_compute. reflexivity.
  - left. discriminate.
  - apply not_elem_of_nil.
  - vm_compute. reflexivity.
  - vm_compute. reflexivity.
  - reflexivity.
  - reflexivity.
  - exact Hdelivered.
Defined.
